(** * LLMHelper: provider abstraction, stream decoding, context retrieval

    A shallow embedding of [src/electron/LLMHelper.ts].  Promises are
    modelled by their settled outcome ([exc]); the network, the file system
    and the environment variables are explicit arguments of the functions
    that use them; [console.*] calls are dropped, except where building
    the text they log can throw. *)

From Stdlib Require Import NArith List Bool String Ascii Lia.
From stdpp Require Import gmap list.
Import ListNotations.

Local Open Scope N_scope.
Set Warnings "-register-all".

(** ** JavaScript strings

    A JS string is a sequence of UTF-16 code units. *)

Module JsString.

Definition str := list N.

(** An ASCII literal as a JS string. *)
Definition lit (s : string) : str :=
  map N_of_ascii (list_ascii_of_string s).

(** The double quote, which the literals below are built around. *)
Definition dq : N := 34.
Definition quoted (s : string) : str := dq :: lit s ++ [dq].

Definition nl : N := 10.

Definition str_eqb (a b : str) : bool := bool_decide (a = b).

(** [s.startsWith(p)] *)
Fixpoint startsWith (s p : str) {struct p} : bool :=
  match p, s with
  | [], _ => true
  | _ :: _, [] => false
  | c :: p', d :: s' => (c =? d) && startsWith s' p'
  end.

(** [s.endsWith(p)] *)
Definition endsWith (s p : str) : bool := startsWith (rev s) (rev p).

(** [s.slice(n)] for [0 <= n]. *)
Definition slice (n : nat) (s : str) : str := skipn n s.


(** [s.split('\n')]: never empty; the pieces hold no line feed. *)
Fixpoint split_nl (s : str) : list str :=
  match s with
  | [] => [[]]
  | c :: s' =>
      if c =? nl then [] :: split_nl s'
      else match split_nl s' with
           | l :: ls => (c :: l) :: ls
           | [] => [[c]]
           end
  end.

(** [parts.join(sep)] *)
Fixpoint join (sep : str) (parts : list str) : str :=
  match parts with
  | [] => []
  | [p] => p
  | p :: ps => p ++ sep ++ join sep ps
  end.

(** WhiteSpace and LineTerminator code points of ECMAScript, the characters
    [String.prototype.trim] strips. *)
Definition is_js_space (c : N) : bool :=
  (c =? 9) || (c =? 10) || (c =? 11) || (c =? 12) || (c =? 13) || (c =? 32)
  || (c =? 160) || (c =? 5760) || ((8192 <=? c) && (c <=? 8202))
  || (c =? 8232) || (c =? 8233) || (c =? 8239) || (c =? 8287)
  || (c =? 12288) || (c =? 65279).

Fixpoint trimStart (s : str) : str :=
  match s with
  | c :: s' => if is_js_space c then trimStart s' else s
  | [] => []
  end.

Definition trimEnd (s : str) : str := rev (trimStart (rev s)).

(** [s.trim()] *)
Definition trim (s : str) : str := trimEnd (trimStart s).

(** Decimal digits of a natural number, for [`${idx + 1}`]. *)
Fixpoint nat_digits (fuel n : nat) (acc : str) : str :=
  match fuel with
  | O => acc
  | S fuel' =>
      let acc' := (48 + N.of_nat (n mod 10)) :: acc in
      if (n <? 10)%nat then acc' else nat_digits fuel' (n / 10) acc'
  end.

Definition nat_to_string (n : nat) : str := nat_digits (S n) n [].

End JsString.
Import JsString.

(** ** JavaScript values and thrown errors *)

(** The values the code handles: what [JSON.parse] returns, plus
    [undefined].  A number is kept as the lexeme it was read from: its
    conversions are floating point and are left to [js_runtime]. *)
Inductive value :=
| VUndef
| VNull
| VBool (b : bool)
| VNum (lexeme : str)
| VStr (s : str)
| VArr (elems : list value)
| VObj (props : list (str * value)).

(** What a [throw] or a rejected promise carries. *)
Inductive error :=
| Error (message : str)                    (* new Error(message) *)
| TypeError (message : str)                (* raised by the runtime *)
| SyntaxError (message : str)              (* raised by JSON.parse *)
| SystemError (code : str) (message : str) (* rejections of fs.promises *)
| AxiosError (message : str) (response_data : option value)
| SdkError (name : str) (message : str).   (* Gemini and Kontext SDKs *)

(** [error.name] *)
Definition error_name (e : error) : str :=
  match e with
  | Error _ => lit "Error"
  | TypeError _ => lit "TypeError"
  | SyntaxError _ => lit "SyntaxError"
  | SystemError _ _ => lit "Error"
  | AxiosError _ _ => lit "AxiosError"
  | SdkError name _ => name
  end.

(** [error.message] *)
Definition error_message (e : error) : str :=
  match e with
  | Error m | TypeError m | SyntaxError m => m
  | SystemError _ m => m
  | AxiosError m _ => m
  | SdkError _ m => m
  end.

(** The outcome of a call: a returned value or a thrown error. *)
Inductive exc (A : Type) :=
| Ok (a : A)
| Throw (e : error).
Arguments Ok {A} a.
Arguments Throw {A} e.

Definition bind {A B} (m : exc A) (k : A -> exc B) : exc B :=
  match m with
  | Ok a => k a
  | Throw e => Throw e
  end.

(** [try { body } catch (e) { handler(e) }] *)
Definition try_catch {A} (body : exc A) (handler : error -> exc A) : exc A :=
  match body with
  | Ok a => Ok a
  | Throw e => handler e
  end.

Notation "x <- m ;; k" := (bind m (fun x => k))
  (at level 100, m at next level, right associativity).

Definition is_ok {A} (m : exc A) : bool :=
  match m with Ok _ => true | Throw _ => false end.

(** ** [JSON.parse]

    A scanner that reads one code unit at a time, then a parser over the
    tokens (ECMA-404). *)

Module Json.

Inductive token :=
| TLBrace | TRBrace | TLBracket | TRBracket | TComma | TColon
| TString (s : str)
| TNumber (lexeme : str)
| TWord (letters : str).

Inductive lex_mode :=
| LIdle
| LWord (buf : str)
| LNumber (buf : str)
| LString (buf : str)
| LEscape (buf : str)
| LUnicode (buf : str) (hex : list N).

Record lex_state := { toks : list token; mode : lex_mode }.

(** JSON whitespace: space, tab, line feed, carriage return. *)
Definition is_json_ws (c : N) : bool :=
  (c =? 32) || (c =? 9) || (c =? 10) || (c =? 13).

Definition is_digit (c : N) : bool := (48 <=? c) && (c <=? 57).
Definition is_lower (c : N) : bool := (97 <=? c) && (c <=? 122).

(** The characters a number lexeme is made of: digits, [+ - . e E]. *)
Definition is_number_char (c : N) : bool :=
  is_digit c || (c =? 43) || (c =? 45) || (c =? 46) || (c =? 101) || (c =? 69).

Definition hex_val (c : N) : option N :=
  if is_digit c then Some (c - 48)
  else if (97 <=? c) && (c <=? 102) then Some (c - 87)
  else if (65 <=? c) && (c <=? 70) then Some (c - 55)
  else None.

Definition punct (c : N) : option token :=
  if c =? 123 then Some TLBrace
  else if c =? 125 then Some TRBrace
  else if c =? 91 then Some TLBracket
  else if c =? 93 then Some TRBracket
  else if c =? 44 then Some TComma
  else if c =? 58 then Some TColon
  else None.

(** The character after a backslash. *)
Definition escape_char (c : N) : option N :=
  if c =? 34 then Some 34        (* quote *)
  else if c =? 92 then Some 92   (* backslash *)
  else if c =? 47 then Some 47   (* slash *)
  else if c =? 98 then Some 8    (* b *)
  else if c =? 102 then Some 12  (* f *)
  else if c =? 110 then Some 10  (* n *)
  else if c =? 114 then Some 13  (* r *)
  else if c =? 116 then Some 9   (* t *)
  else None.

(** Between tokens. *)
Definition idle_step (ts : list token) (c : N) : option lex_state :=
  if is_json_ws c then Some {| toks := ts; mode := LIdle |}
  else match punct c with
  | Some t => Some {| toks := ts ++ [t]; mode := LIdle |}
  | None =>
      if c =? 34 then Some {| toks := ts; mode := LString [] |}
      else if is_digit c || (c =? 45) then Some {| toks := ts; mode := LNumber [c] |}
      else if is_lower c then Some {| toks := ts; mode := LWord [c] |}
      else None
  end.

Definition lex_step (st : lex_state) (c : N) : option lex_state :=
  let ts := toks st in
  match mode st with
  | LIdle => idle_step ts c
  | LWord buf =>
      if is_lower c then Some {| toks := ts; mode := LWord (buf ++ [c]) |}
      else idle_step (ts ++ [TWord buf]) c
  | LNumber buf =>
      if is_number_char c then Some {| toks := ts; mode := LNumber (buf ++ [c]) |}
      else idle_step (ts ++ [TNumber buf]) c
  | LString buf =>
      if c =? 34 then Some {| toks := ts ++ [TString buf]; mode := LIdle |}
      else if c =? 92 then Some {| toks := ts; mode := LEscape buf |}
      else if c <? 32 then None
      else Some {| toks := ts; mode := LString (buf ++ [c]) |}
  | LEscape buf =>
      if c =? 117 then Some {| toks := ts; mode := LUnicode buf [] |}
      else match escape_char c with
           | Some d => Some {| toks := ts; mode := LString (buf ++ [d]) |}
           | None => None
           end
  | LUnicode buf hex =>
      match hex_val c with
      | Some h =>
          match hex with
          | [a; b; d] =>
              Some {| toks := ts;
                      mode := LString (buf ++ [((a * 16 + b) * 16 + d) * 16 + h]) |}
          | _ => Some {| toks := ts; mode := LUnicode buf (hex ++ [h]) |}
          end
      | None => None
      end
  end.

Fixpoint lex_run (st : lex_state) (s : str) : option lex_state :=
  match s with
  | [] => Some st
  | c :: s' =>
      match lex_step st c with
      | Some st' => lex_run st' s'
      | None => None
      end
  end.

(** End of input: a pending word or number is closed, an open string is an
    error. *)
Definition lex_finish (st : lex_state) : option (list token) :=
  match mode st with
  | LIdle => Some (toks st)
  | LWord buf => Some (toks st ++ [TWord buf])
  | LNumber buf => Some (toks st ++ [TNumber buf])
  | LString _ | LEscape _ | LUnicode _ _ => None
  end.

Definition tokenize (s : str) : option (list token) :=
  match lex_run {| toks := []; mode := LIdle |} s with
  | Some st => lex_finish st
  | None => None
  end.

(** The number grammar: an optional minus; an integer part, 0 or a digit
    from 1 to 9 followed by digits; an optional fraction, a dot and at least
    one digit; an optional exponent, e or E, an optional sign and at least
    one digit. *)
Fixpoint skip_digits (s : str) : str :=
  match s with
  | c :: s' => if is_digit c then skip_digits s' else s
  | [] => []
  end.

Definition digits1 (s : str) : option str :=
  match s with
  | c :: s' => if is_digit c then Some (skip_digits s') else None
  | [] => None
  end.

Definition number_int (s : str) : option str :=
  match s with
  | c :: s' =>
      if c =? 48 then Some s'
      else if is_digit c then Some (skip_digits s')
      else None
  | [] => None
  end.

Definition number_frac (s : str) : option str :=
  match s with
  | c :: s' => if c =? 46 then digits1 s' else Some s
  | [] => Some s
  end.

Definition number_exp (s : str) : option str :=
  match s with
  | c :: s' =>
      if (c =? 101) || (c =? 69) then
        match s' with
        | d :: s'' => if (d =? 43) || (d =? 45) then digits1 s'' else digits1 s'
        | [] => None
        end
      else Some s
  | [] => Some s
  end.

Definition valid_number (s : str) : bool :=
  let s1 := match s with
            | c :: s' => if c =? 45 then s' else s
            | [] => s
            end in
  match number_int s1 with
  | Some s2 =>
      match number_frac s2 with
      | Some s3 =>
          match number_exp s3 with
          | Some [] => true
          | _ => false
          end
      | None => false
      end
  | None => false
  end.

Definition word_value (w : str) : option value :=
  if str_eqb w (lit "true") then Some (VBool true)
  else if str_eqb w (lit "false") then Some (VBool false)
  else if str_eqb w (lit "null") then Some VNull
  else None.

(** Recursive descent over the tokens; [fuel] bounds the number of calls. *)
Fixpoint parse_value (fuel : nat) (ts : list token) : option (value * list token) :=
  match fuel with
  | O => None
  | S fuel' =>
      match ts with
      | TString s :: r => Some (VStr s, r)
      | TNumber n :: r => if valid_number n then Some (VNum n, r) else None
      | TWord w :: r =>
          match word_value w with
          | Some v => Some (v, r)
          | None => None
          end
      | TLBracket :: TRBracket :: r => Some (VArr [], r)
      | TLBracket :: r => parse_elements fuel' r []
      | TLBrace :: TRBrace :: r => Some (VObj [], r)
      | TLBrace :: r => parse_members fuel' r []
      | _ => None
      end
  end
with parse_elements (fuel : nat) (ts : list token) (acc : list value)
  : option (value * list token) :=
  match fuel with
  | O => None
  | S fuel' =>
      match parse_value fuel' ts with
      | Some (v, TComma :: r) => parse_elements fuel' r (acc ++ [v])
      | Some (v, TRBracket :: r) => Some (VArr (acc ++ [v]), r)
      | _ => None
      end
  end
with parse_members (fuel : nat) (ts : list token) (acc : list (str * value))
  : option (value * list token) :=
  match fuel with
  | O => None
  | S fuel' =>
      match ts with
      | TString k :: TColon :: r =>
          match parse_value fuel' r with
          | Some (v, TComma :: r') => parse_members fuel' r' (acc ++ [(k, v)])
          | Some (v, TRBrace :: r') => Some (VObj (acc ++ [(k, v)]), r')
          | _ => None
          end
      | _ => None
      end
  end.

(** [JSON.parse(text)]: one value and nothing after it, or a SyntaxError.
    The message of the runtime quotes the text at the place of the error;
    here every SyntaxError carries the same message. *)
Definition parse (text : str) : exc value :=
  match tokenize text with
  | Some ts =>
      match parse_value (2 * length ts + 2) ts with
      | Some (v, []) => Ok v
      | _ => Throw (SyntaxError (lit "Unexpected token in JSON"))
      end
  | None => Throw (SyntaxError (lit "Unexpected token in JSON"))
  end.

End Json.

(** The frame of the streaming scenario:
    [{"choices":[{"delta":{"content":"Hi"}}]}] *)
Definition frame_of (content : string) : str :=
  lit "{" ++ quoted "choices" ++ lit ":[{" ++ quoted "delta" ++ lit ":{"
  ++ quoted "content" ++ lit ":" ++ quoted content ++ lit "}}]}".

Definition value_of_frame (content : string) : value :=
  VObj [(lit "choices",
         VArr [VObj [(lit "delta", VObj [(lit "content", VStr (lit content))])]])].

(** ** Reading values *)

(** The conversions of the runtime that go through floating point, and
    [JSON.stringify], are not computed here: the functions below take them
    as a record. *)
Record js_runtime := {
  (* Boolean(x) for the number read from a lexeme *)
  num_truthy : str -> bool;
  (* String(x) for the number read from a lexeme *)
  num_to_string : str -> str;
  (* x.toFixed(digits) for the number read from a lexeme *)
  num_to_fixed : str -> nat -> str;
  (* v > 0 for a primitive v *)
  gt_zero : value -> bool;
  (* (v * 100).toFixed(1) for a primitive v *)
  percent_fixed1 : value -> str;
  (* JSON.stringify(v): a string, or undefined for undefined *)
  JSON_stringify : value -> option str;
  (* Buffer.from(text, 'base64') and buffer.toString('base64') *)
  base64_decode : str -> str;
  base64_encode : str -> str
}.

(** The last binding of [key]: a later duplicate member overwrites an
    earlier one. *)
Fixpoint lookup_last (key : str) (props : list (str * value)) : option value :=
  match props with
  | [] => None
  | (k, v) :: rest =>
      match lookup_last key rest with
      | Some v' => Some v'
      | None => if str_eqb k key then Some v else None
      end
  end.

(** A key that is the canonical decimal form of an array index. *)
Fixpoint digits_value (s : str) (acc : nat) : option nat :=
  match s with
  | [] => Some acc
  | c :: s' =>
      if Json.is_digit c then digits_value s' (10 * acc + N.to_nat (c - 48))
      else None
  end.

Definition index_of_key (key : str) : option nat :=
  match key with
  | [] => None
  | _ =>
      match digits_value key 0 with
      | Some i => if str_eqb (nat_to_string i) key then Some i else None
      | None => None
      end
  end.

(** [v[key]] for a [v] that is neither null nor undefined: own members of
    objects, elements and length of arrays and strings.  Inherited members
    are not modelled: none of the names the code reads is one, the
    collection and the field that the environment may name being taken not
    to be one either. *)
Definition own_prop (v : value) (key : str) : value :=
  match v with
  | VObj props =>
      match lookup_last key props with
      | Some x => x
      | None => VUndef
      end
  | VArr elems =>
      if str_eqb key (lit "length") then VNum (nat_to_string (length elems))
      else match index_of_key key with
           | Some i => nth i elems VUndef
           | None => VUndef
           end
  | VStr s =>
      if str_eqb key (lit "length") then VNum (nat_to_string (length s))
      else match index_of_key key with
           | Some i =>
               match nth_error s i with
               | Some c => VStr [c]
               | None => VUndef
               end
           | None => VUndef
           end
  | _ => VUndef
  end.

(** The TypeError of reading the member [key] of null or of undefined. *)
Definition cannot_read (what : string) (key : str) : error :=
  TypeError (lit "Cannot read properties of " ++ lit what ++ lit " (reading '" ++ key ++ lit "')").

(** [v.key]: a TypeError on null and undefined. *)
Definition get_prop (v : value) (key : str) : exc value :=
  match v with
  | VUndef => Throw (cannot_read "undefined" key)
  | VNull => Throw (cannot_read "null" key)
  | _ => Ok (own_prop v key)
  end.

(** [v?.key] *)
Definition opt_prop (v : value) (key : str) : value :=
  match v with
  | VUndef | VNull => VUndef
  | _ => own_prop v key
  end.

Section Runtime.

Context (rt : js_runtime).

(** [Boolean(v)], the test of [if (v)], [v || w] and [filter(Boolean)]. *)
Definition truthy (v : value) : bool :=
  match v with
  | VUndef | VNull => false
  | VBool b => b
  | VNum n => num_truthy rt n
  | VStr s => negb (str_eqb s [])
  | VArr _ | VObj _ => true
  end.

(** [a || b] *)
Definition js_or (a b : value) : value := if truthy a then a else b.

(** The conversion of a value to a string, as [+=] on a string and a
    template literal make it.  An array is the join of its elements, an
    object is [[object Object]] through the inherited [toString].  The
    members of a value are values, never functions: an object with a member
    of its own named [toString] has no method to call, and the conversion
    throws; so does the conversion of an array that holds such an object. *)
Definition cannot_convert : error :=
  TypeError (lit "Cannot convert object to primitive value").

Fixpoint to_js_string (v : value) : exc str :=
  match v with
  | VUndef => Ok (lit "undefined")
  | VNull => Ok (lit "null")
  | VBool true => Ok (lit "true")
  | VBool false => Ok (lit "false")
  | VNum n => Ok (num_to_string rt n)
  | VStr s => Ok s
  | VArr elems =>
      texts <- fold_right
                 (fun e rest =>
                    text <- match e with
                            | VUndef | VNull => Ok []
                            | _ => to_js_string e
                            end;;
                    texts <- rest;;
                    Ok (text :: texts))
                 (Ok []) elems;;
      Ok (join (lit ",") texts)
  | VObj props =>
      match lookup_last (lit "toString") props with
      | Some _ => Throw cannot_convert
      | None => Ok (lit "[object Object]")
      end
  end.

(** The conversion of a value to a primitive, before a comparison or a
    product: an array or an object becomes its string. *)
Definition to_primitive (v : value) : exc value :=
  match v with
  | VArr _ | VObj _ => text <- to_js_string v;; Ok (VStr text)
  | _ => Ok v
  end.

(** [`${x}`] for the result of [JSON.stringify]: a string, or undefined. *)
Definition stringified (x : option str) : str :=
  match x with
  | Some text => text
  | None => lit "undefined"
  end.

(** [a.includes(x)] compares with SameValueZero.  Two numbers are the same
    when they are written the same; an array or an object is the same as
    itself only, and the arrays searched here are fresh from a reply. *)
Definition same_value_zero (a b : value) : bool :=
  match a, b with
  | VUndef, VUndef => true
  | VNull, VNull => true
  | VBool x, VBool y => Bool.eqb x y
  | VNum x, VNum y => str_eqb (num_to_string rt x) (num_to_string rt y)
  | VStr x, VStr y => str_eqb x y
  | _, _ => false
  end.

Definition array_includes (a : list value) (x : value) : bool :=
  existsb (fun e => same_value_zero e x) a.

End Runtime.

(** ** [cleanJsonResponse] *)

Definition fence_json_open : str := lit "```json" ++ [nl].
Definition fence_plain_open : str := lit "```" ++ [nl].
Definition fence_close : str := nl :: lit "```".

(** [text.replace(/^```(?:json)?\n/, '')]: the pattern is anchored at the
    start of the text and matches the three backquotes, then [json] or
    nothing, then a line feed. *)
Definition strip_open_fence (text : str) : str :=
  if startsWith text fence_json_open then slice (length fence_json_open) text
  else if startsWith text fence_plain_open then slice (length fence_plain_open) text
  else text.

(** [text.replace(/\n```$/, '')]: without the [m] flag [$] is the end of the
    text, so the only match is the last four code units. *)
Definition strip_close_fence (text : str) : str :=
  if endsWith text fence_close
  then firstn (length text - length fence_close) text
  else text.

Definition cleanJsonResponse (text : str) : str :=
  (* Remove markdown code block syntax if present *)
  let text := strip_close_fence (strip_open_fence text) in
  (* Remove any leading/trailing whitespace *)
  trim text.


(** ** The streaming decode of [callOpenAI]

    The body is read in pieces; [decoder.decode(value, { stream: true })]
    turns each piece into text, and that text is what a read is here. *)

(** The accumulated text and the arguments of the calls to [onChunk], in
    order. *)
Record decoder := {
  fullContent : str;
  emitted : list value
}.

Definition decoder_init : decoder := {| fullContent := []; emitted := [] |}.

Definition data_prefix : str := lit "data: ".
Definition done_sentinel : str := lit "[DONE]".

Section Decoder.

Context (rt : js_runtime).

(** [parsed.choices?.[0]?.delta?.content] *)
Definition delta_content (parsed : value) : exc value :=
  choices <- get_prop parsed (lit "choices");;
  Ok (opt_prop (opt_prop (opt_prop choices (lit "0")) (lit "delta")) (lit "content")).

(** The body of [for (const line of lines)].  [onChunk] tells whether the
    caller gave a callback; the callback records its argument and returns. *)
Definition decode_line (onChunk : bool) (st : decoder) (line : str) : decoder :=
  if startsWith line data_prefix then
    let data := slice 6 line in
    if str_eqb data done_sentinel then st (* continue *)
    else
      match
        try_catch
          (parsed <- Json.parse data;;
           content <- delta_content parsed;;
           if truthy rt content then
             text <- to_js_string rt content;;
             Ok {| fullContent := fullContent st ++ text;
                   emitted := if onChunk then emitted st ++ [content] else emitted st |}
           else Ok st)
          (fun _ => Ok st) (* Skip invalid JSON chunks *)
      with
      | Ok st' => st'
      | Throw _ => st
      end
  else st.

(** [chunk.split('\n').filter(line => line.trim() !== '')] *)
Definition chunk_lines (chunk : str) : list str :=
  List.filter (fun line => negb (str_eqb (trim line) [])) (split_nl chunk).

(** One turn of [while (true)]: a read that is not [done]. *)
Definition decode_chunk (onChunk : bool) (st : decoder) (chunk : str) : decoder :=
  fold_left (decode_line onChunk) (chunk_lines chunk) st.

(** The whole loop, over the reads of the body in order. *)
Definition decode_reads (onChunk : bool) (reads : list str) : decoder :=
  fold_left (decode_chunk onChunk) reads decoder_init.

(** The decoder only ever appends.  The definitions below name what is
    appended, for the proofs. *)

(** The text a content is appended as; the decoder appends no content whose
    conversion throws. *)
Definition text_of (v : value) : str :=
  match to_js_string rt v with
  | Ok text => text
  | Throw _ => []
  end.

(** Appending contents to a decoder state, as the loop body does. *)
Definition push (onChunk : bool) (st : decoder) (vs : list value) : decoder :=
  {| fullContent := fullContent st ++ concat (map text_of vs);
     emitted := if onChunk then emitted st ++ vs else emitted st |}.

(** The contents one line yields: none or one. *)
Definition line_out (line : str) : list value :=
  emitted (decode_line true decoder_init line).

Definition chunk_out (chunk : str) : list value :=
  flat_map line_out (chunk_lines chunk).

(** What a line yields once the blank lines are filtered out. *)
Definition visible (line : str) : list value :=
  if negb (str_eqb (trim line) []) then line_out line else [].

End Decoder.

(** A runtime for the closed examples: a number is written back as its
    lexeme and is falsy when it has no digit from 1 to 9 before its
    exponent, a buffer is encoded as itself and [JSON.stringify] is a
    stub.  What the examples state does not depend on these choices. *)
Fixpoint mantissa_nonzero (lexeme : str) : bool :=
  match lexeme with
  | [] => false
  | c :: rest =>
      if (c =? 101) || (c =? 69) then false
      else ((49 <=? c) && (c <=? 57)) || mantissa_nonzero rest
  end.

Definition example_runtime : js_runtime := {|
  num_truthy := mantissa_nonzero;
  num_to_string := fun lexeme => lexeme;
  num_to_fixed := fun lexeme _ => lexeme;
  gt_zero := fun v => match v with VNum n => mantissa_nonzero n | _ => false end;
  percent_fixed1 := fun _ => lit "NaN";
  JSON_stringify := fun v => match v with VUndef => None | _ => Some (lit "{}") end;
  base64_decode := fun text => text;
  base64_encode := fun bytes => bytes
|}.

(** Lines of a body: [data: <frame>] and [data: [DONE]], each with its line
    feed. *)
Definition data_line (payload : str) : str := data_prefix ++ payload ++ [nl].
Definition done_line : str := data_line done_sentinel.

(** ** The statements of the specification about the stream *)

(** The pieces of a line on either side of a read boundary: what follows the
    last line feed before it, and what precedes the first line feed after
    it. *)
Definition last_line (before : str) : str := List.last (split_nl before) [].
Definition first_line (after : str) : str := List.hd [] (split_nl after).

Definition is_nil {A} (l : list A) : bool :=
  match l with [] => true | _ => false end.

(** No [data: ] line is cut by the boundary between [before] and [after]:
    the boundary is at an end of a line, or the line around it is not a
    [data: ] line. *)
Definition frame_intact (before after : str) : bool :=
  is_nil (last_line before) || is_nil (first_line after)
  || negb (startsWith (last_line before ++ first_line after) data_prefix).

(** The same, and the rest of the line after the boundary does not begin
    with [data: ] either. *)
Definition boundary_clean (before after : str) : bool :=
  is_nil (last_line before) || is_nil (first_line after)
  || (negb (startsWith (last_line before ++ first_line after) data_prefix)
      && negb (startsWith (first_line after) data_prefix)).

(** A condition on every read boundary of a body given as its reads;
    [before] is the text already read. *)
Fixpoint boundaries (ok : str -> str -> bool) (before : str) (reads : list str) : bool :=
  match reads with
  | [] => true
  | r :: rest => ok before (concat reads) && boundaries ok (before ++ r) rest
  end.

Definition no_frame_split (reads : list str) : bool := boundaries frame_intact [] reads.
Definition clean_boundaries (reads : list str) : bool := boundaries boundary_clean [] reads.

(** Decoding stops for good at the sentinel line: what follows it, in the
    same read or in later ones, changes nothing. *)
Definition stops_at_done (rt : js_runtime) : Prop :=
  forall (onChunk : bool) (reads later : list str) (pre post : str),
    last_line pre = [] ->
    decode_reads rt onChunk (reads ++ [pre ++ done_line ++ post] ++ later)
    = decode_reads rt onChunk (reads ++ [pre ++ done_line]).

(** A body read in pieces that cut no [data: ] line decodes to the text of
    the body read at once. *)
Definition split_invariant (rt : js_runtime) : Prop :=
  forall (onChunk : bool) (reads : list str),
    no_frame_split reads = true ->
    fullContent (decode_reads rt onChunk reads)
    = fullContent (decode_reads rt onChunk [concat reads]).

(** ** The surroundings of an instance

    The file system is a finite map from paths to contents.  The network,
    the SDKs, the clock and the environment variables are functions given in
    a [platform]; a call to one of them takes the number of the external
    calls made so far, so that two calls with the same arguments may end
    differently. *)

Record request := {
  url : str;
  headers : list (str * str);
  payload : value
}.

(** The body of a reply as its reader delivers it: the decoded text of each
    read that brings data, in order, and how the reading ends, with [done]
    or with the rejection of a read. *)
Record body_stream := {
  chunks : list str;
  read_error : option error
}.

(** A body that is read to its end. *)
Definition complete (reads : list str) : body_stream :=
  {| chunks := reads; read_error := None |}.

(** A [Response] of [fetch]: [json] is the outcome of [response.json()];
    [body] is [None] when [response.body] is missing. *)
Record http_response := {
  ok : bool;
  status : nat;
  statusText : str;
  json : exc value;
  body : option body_stream
}.

(** A [GenerativeModel] made by [genAI.getGenerativeModel]. *)
Record GenerativeModel := {
  gemini_key : str;
  gemini_model : str
}.

Record platform := {
  (* process.env.NAME *)
  process_env : str -> option str;
  (* Date.now() *)
  date_now : nat -> nat;
  (* fetch(url, init) *)
  fetch : nat -> request -> exc http_response;
  (* axios.post(url, data, config): response.data, or the rejection *)
  axios_post : nat -> request -> exc value;
  (* (await model.generateContent(parts)).response.text() *)
  generateContent : nat -> GenerativeModel -> list value -> exc str;
  (* new Kontext(config).vault.query(query) *)
  kontext_vault_query : nat -> value -> value -> exc value;
  (* await import('form-data') *)
  import_form_data : nat -> exc unit
}.

Record world := {
  clock : nat;
  files : gmap str str
}.

(** An asynchronous call, by its outcome and its effect on the world. *)
Definition io (A : Type) : Type := world -> exc A * world.

Definition io_ret {A} (a : A) : io A := fun w => (Ok a, w).
Definition io_throw {A} (e : error) : io A := fun w => (Throw e, w).

Definition io_bind {A B} (m : io A) (k : A -> io B) : io B :=
  fun w =>
    match m w with
    | (Ok a, w') => k a w'
    | (Throw e, w') => (Throw e, w')
    end.

Notation "x <~ m ;; k" := (io_bind m (fun x => k))
  (at level 100, m at next level, right associativity).

(** [try { body } catch (e) { handler(e) }] *)
Definition io_catch {A} (body : io A) (handler : error -> io A) : io A :=
  fun w =>
    match body w with
    | (Ok a, w') => (Ok a, w')
    | (Throw e, w') => handler e w'
    end.

(** [try { body } finally { cleanup }]: the outcome of [body], unless
    [cleanup] throws. *)
Definition io_finally {A} (body : io A) (cleanup : io unit) : io A :=
  fun w =>
    match body w with
    | (r, w') =>
        match cleanup w' with
        | (Ok _, w'') => (r, w'')
        | (Throw e, w'') => (Throw e, w'')
        end
    end.

(** An external call: it is given the current count, and counts. *)
Definition external {A} (call : nat -> exc A) : io A :=
  fun w => (call (clock w), {| clock := S (clock w); files := files w |}).

(** [fs.promises.writeFile(path, data)] *)
Definition writeFile (path data : str) : io unit :=
  fun w => (Ok tt, {| clock := clock w; files := <[path := data]> (files w) |}).

(** The rejection of a file operation on a path that does not exist. *)
Definition enoent (operation : string) (path : str) : error :=
  SystemError (lit "ENOENT")
    (lit "ENOENT: no such file or directory, " ++ lit operation ++ lit " '" ++ path ++ lit "'").

(** [fs.promises.readFile(path)] *)
Definition readFile (path : str) : io str :=
  fun w =>
    match files w !! path with
    | Some data => (Ok data, w)
    | None => (Throw (enoent "open" path), w)
    end.

(** [fs.promises.unlink(path)] *)
Definition unlink (path : str) : io unit :=
  fun w =>
    match files w !! path with
    | Some _ => (Ok tt, {| clock := clock w; files := delete path (files w) |})
    | None => (Throw (enoent "unlink" path), w)
    end.

(** ** The instance

    [ollamaModel] is declared a string; what is stored there can be any
    value of a reply of the server (see [getOllamaModels]). *)

Record LLMHelper := {
  model : option GenerativeModel;
  useOllama : bool;
  useOpenAI : bool;
  ollamaModel : value;
  ollamaUrl : str;
  openaiApiKey : str;
  openaiModel : str
}.

(** The field initialisers of the class. *)
Definition LLMHelper_fields : LLMHelper := {|
  model := None;
  useOllama := false;
  useOpenAI := false;
  ollamaModel := VStr (lit "llama3.2");
  ollamaUrl := lit "http://localhost:11434";
  openaiApiKey := [];
  openaiModel := lit "gpt-4o"
|}.

Definition systemPrompt : str :=
  lit "Procurement Negotiation Assistant. Expert in supplier negotiations, contracts, pricing, TCO."
  ++ [nl] ++ lit "Focus: Fast, data-driven, tactical advice."
  ++ [nl] ++ lit "Format: Concise bullet points. One-line actions."
  ++ [nl] ++ lit "Scope: Procurement/supply-chain ONLY.".

(** [if (x)] for an optional string argument: given and not empty. *)
Definition given (x : option str) : bool :=
  match x with
  | Some (_ :: _) => true
  | _ => false
  end.

Definition is_none {A} (x : option A) : bool :=
  match x with None => true | Some _ => false end.

(** [x || fallback] for an optional string argument. *)
Definition or_else (x : option str) (fallback : str) : str :=
  match x with
  | Some (c :: s) => c :: s
  | _ => fallback
  end.

Definition set_model (m : option GenerativeModel) (h : LLMHelper) : LLMHelper :=
  {| model := m; useOllama := useOllama h; useOpenAI := useOpenAI h;
     ollamaModel := ollamaModel h; ollamaUrl := ollamaUrl h;
     openaiApiKey := openaiApiKey h; openaiModel := openaiModel h |}.

Definition set_useOllama (b : bool) (h : LLMHelper) : LLMHelper :=
  {| model := model h; useOllama := b; useOpenAI := useOpenAI h;
     ollamaModel := ollamaModel h; ollamaUrl := ollamaUrl h;
     openaiApiKey := openaiApiKey h; openaiModel := openaiModel h |}.

Definition set_useOpenAI (b : bool) (h : LLMHelper) : LLMHelper :=
  {| model := model h; useOllama := useOllama h; useOpenAI := b;
     ollamaModel := ollamaModel h; ollamaUrl := ollamaUrl h;
     openaiApiKey := openaiApiKey h; openaiModel := openaiModel h |}.

Definition set_ollamaModel (s : value) (h : LLMHelper) : LLMHelper :=
  {| model := model h; useOllama := useOllama h; useOpenAI := useOpenAI h;
     ollamaModel := s; ollamaUrl := ollamaUrl h;
     openaiApiKey := openaiApiKey h; openaiModel := openaiModel h |}.

Definition set_ollamaUrl (s : str) (h : LLMHelper) : LLMHelper :=
  {| model := model h; useOllama := useOllama h; useOpenAI := useOpenAI h;
     ollamaModel := ollamaModel h; ollamaUrl := s;
     openaiApiKey := openaiApiKey h; openaiModel := openaiModel h |}.

Definition set_openaiApiKey (s : str) (h : LLMHelper) : LLMHelper :=
  {| model := model h; useOllama := useOllama h; useOpenAI := useOpenAI h;
     ollamaModel := ollamaModel h; ollamaUrl := ollamaUrl h;
     openaiApiKey := s; openaiModel := openaiModel h |}.

Definition set_openaiModel (s : str) (h : LLMHelper) : LLMHelper :=
  {| model := model h; useOllama := useOllama h; useOpenAI := useOpenAI h;
     ollamaModel := ollamaModel h; ollamaUrl := ollamaUrl h;
     openaiApiKey := openaiApiKey h; openaiModel := s |}.

(** [new GoogleGenerativeAI(apiKey).getGenerativeModel({ model: "gemini-2.0-flash" })] *)
Definition getGenerativeModel (apiKey : str) : GenerativeModel :=
  {| gemini_key := apiKey; gemini_model := lit "gemini-2.0-flash" |}.

(** The constructor, up to its return.  In the Ollama branch it also starts
    [initializeOllamaModel] without waiting for it; that call is a later
    step on the instance. *)
Definition constructor
  (apiKey : option str) (useOllama_arg : bool) (ollamaModel_arg ollamaUrl_arg : option str)
  (useOpenAI_arg : bool) (openaiModel_arg : option str) : exc LLMHelper :=
  let this := set_useOpenAI useOpenAI_arg (set_useOllama useOllama_arg LLMHelper_fields) in
  if useOpenAI_arg then
    let this := set_openaiApiKey (or_else apiKey []) this in
    let this := set_openaiModel (or_else openaiModel_arg (lit "gpt-4o")) this in
    if is_nil (openaiApiKey this) then
      Throw (Error (lit "OpenAI API key is required when useOpenAI is true"))
    else Ok this
  else if useOllama_arg then
    let this := set_ollamaUrl (or_else ollamaUrl_arg (lit "http://localhost:11434")) this in
    let this := set_ollamaModel (VStr (or_else ollamaModel_arg (lit "gemma:latest"))) this in
    Ok this
  else if given apiKey then
    Ok (set_model (Some (getGenerativeModel (or_else apiKey []))) this)
  else
    Throw (Error (lit "Either provide Gemini API key or enable Ollama mode")).

Definition getCurrentProvider (this : LLMHelper) : str :=
  if useOpenAI this then lit "openai"
  else if useOllama this then lit "ollama" else lit "gemini".

Definition getCurrentModel (this : LLMHelper) : value :=
  if useOpenAI this then VStr (openaiModel this)
  else if useOllama this then ollamaModel this else VStr (lit "gemini-2.0-flash").

Definition isUsingOllama (this : LLMHelper) : bool := useOllama this.
Definition isUsingOpenAI (this : LLMHelper) : bool := useOpenAI this.

Section Calls.

Context (rt : js_runtime) (pf : platform).

(** [array.map(f)] with a callback that may throw. *)
Fixpoint map_exc {A B} (f : A -> exc B) (l : list A) : exc (list B) :=
  match l with
  | [] => Ok []
  | x :: rest =>
      y <- f x;;
      ys <- map_exc f rest;;
      Ok (y :: ys)
  end.

(** [data.models?.map((model) => model.name) || []]: the [name] of every
    entry, undefined for an entry without one.  Only an array has [map]. *)
Definition model_names (data : value) : exc (list value) :=
  models <- get_prop data (lit "models");;
  match models with
  | VUndef | VNull => Ok []
  | VArr entries => map_exc (fun model => get_prop model (lit "name")) entries
  | _ => Throw (TypeError (lit "data.models?.map is not a function"))
  end.

Definition tags_request (this : LLMHelper) : request :=
  {| url := ollamaUrl this ++ lit "/api/tags"; headers := []; payload := VUndef |}.

Definition getOllamaModels (this : LLMHelper) : io (list value) :=
  if negb (useOllama this) then io_ret []
  else
    io_catch
      (response <~ external (fun t => fetch pf t (tags_request this));;
       if negb (ok response) then io_throw (Error (lit "Failed to fetch models"))
       else fun w => (data <- json response;; model_names data, w))
      (fun _ => io_ret []).

Definition callOllama (this : LLMHelper) (prompt : str) : io value :=
  io_catch
    (response <~ external (fun t => fetch pf t
        {| url := ollamaUrl this ++ lit "/api/generate";
           headers := [(lit "Content-Type", lit "application/json")];
           payload := VObj [(lit "model", ollamaModel this);
                            (lit "prompt", VStr prompt);
                            (lit "stream", VBool false);
                            (lit "options", VObj [(lit "temperature", VNum (lit "0.7"));
                                                  (lit "top_p", VNum (lit "0.9"))])] |});;
     if negb (ok response) then
       io_throw (Error (lit "Ollama API error: " ++ nat_to_string (status response)
                        ++ lit " " ++ statusText response))
     else
       fun w => (data <- json response;; get_prop data (lit "response"), w))
    (fun error =>
       io_throw (Error (lit "Failed to connect to Ollama: " ++ error_message error
                        ++ lit ". Make sure Ollama is running on " ++ ollamaUrl this))).

(** A template literal that is only logged, [`... ${v}`]: nothing is kept of
    it, but the conversion of [v] may throw. *)
Definition logged (v : value) : exc unit :=
  _ <- to_js_string rt v;; Ok tt.

(** The [try] block of [initializeOllamaModel]: the instance as the block
    leaves it, and how the block ends. *)
Definition initialize_attempt (this : LLMHelper) : world -> (LLMHelper * exc unit) * world :=
  fun w =>
    match getOllamaModels this w with
    | (Throw e, w1) => ((this, Throw e), w1)
    | (Ok [], w1) => ((this, Ok tt), w1)
    | (Ok (first :: rest), w1) =>
        (* Check if current model exists, if not use the first available *)
        let missing := negb (array_includes rt (first :: rest) (ollamaModel this)) in
        let this1 := if missing then set_ollamaModel first this else this in
        match (if missing then logged first else Ok tt) with
        | Throw e => ((this1, Throw e), w1)
        | Ok _ =>
            (* Test the selected model works *)
            match callOllama this1 (lit "Hello") w1 with
            | (Ok _, w2) => ((this1, logged (ollamaModel this1)), w2)
            | (Throw e, w2) => ((this1, Throw e), w2)
            end
        end
    end.

(** It never throws; it returns the instance with the model it settled on.
    In the handler the log that follows the assignment may throw; the inner
    [catch] swallows that. *)
Definition initializeOllamaModel (this : LLMHelper) : io LLMHelper :=
  fun w =>
    match initialize_attempt this w with
    | ((this1, Ok _), w1) => (Ok this1, w1)
    | ((this1, Throw _), w1) =>
        (* Try to use first available model as fallback *)
        match getOllamaModels this1 w1 with
        | (Ok (m :: _), w2) => (Ok (set_ollamaModel m this1), w2)
        | (_, w2) => (Ok this1, w2)
        end
    end.

(** The assignments of [switchToOllama].  They come before the only
    statement of the method that can throw, so the instance they leave is
    the instance after the call, whether the call returns or throws. *)
Definition switchToOllama_assignments
  (this : LLMHelper) (model_arg url_arg : option str) : io LLMHelper :=
  let this := set_useOllama true this in
  let this := if given url_arg then set_ollamaUrl (or_else url_arg []) this else this in
  if given model_arg then io_ret (set_ollamaModel (VStr (or_else model_arg [])) this)
  else
    (* Auto-detect first available model *)
    initializeOllamaModel this.

Definition switchToOllama (this : LLMHelper) (model_arg url_arg : option str) : io LLMHelper :=
  this <~ switchToOllama_assignments this model_arg url_arg;;
  (* console.log(`[LLMHelper] Switched to Ollama: ${this.ollamaModel} at ${this.ollamaUrl}`) *)
  _ <~ (fun w => (logged (ollamaModel this), w));;
  io_ret this.

Definition switchToGemini (this : LLMHelper) (apiKey : option str) : io LLMHelper :=
  let this := if given apiKey
              then set_model (Some (getGenerativeModel (or_else apiKey []))) this
              else this in
  if is_none (model this) && negb (given apiKey) then
    io_throw (Error (lit "No Gemini API key provided and no existing model instance"))
  else io_ret (set_useOpenAI false (set_useOllama false this)).

Definition switchToOpenAI (this : LLMHelper) (apiKey : str) (model_arg : option str) : io LLMHelper :=
  let this := set_openaiApiKey apiKey this in
  let this := set_openaiModel (or_else model_arg (lit "gpt-4o")) this in
  let this := set_useOpenAI true this in
  let this := set_useOllama false this in
  io_ret this.

Definition message (role : string) (content : value) : value :=
  VObj [(lit "role", VStr (lit role)); (lit "content", content)].

(** The decoder state at the end stands for the returned text and for the
    calls made to [onChunk] by a call that returns.  When a read is
    rejected the call throws after it has decoded the reads before; the
    calls it made to [onChunk] for them are not part of its outcome here. *)
Definition callOpenAI (this : LLMHelper) (messages : list value) (onChunk : bool)
  : io decoder :=
  io_catch
    (response <~ external (fun t => fetch pf t
        {| url := lit "https://api.openai.com/v1/chat/completions";
           headers := [(lit "Content-Type", lit "application/json");
                       (lit "Authorization", lit "Bearer " ++ openaiApiKey this)];
           payload := VObj [(lit "model", VStr (openaiModel this));
                            (lit "messages", VArr messages);
                            (lit "temperature", VNum (lit "0.7"));
                            (lit "max_completion_tokens", VNum (lit "4096"));
                            (lit "stream", VBool true)] |});;
     if negb (ok response) then
       let errorData := match json response with
                        | Ok data => data
                        | Throw _ => VObj []
                        end in
       io_throw (Error (lit "OpenAI API error: " ++ nat_to_string (status response)
                        ++ lit " " ++ statusText response ++ lit " - "
                        ++ stringified (JSON_stringify rt errorData)))
     else
       (* Handle streaming response *)
       match body response with
       | Some reader =>
           match read_error reader with
           | None => io_ret (decode_reads rt onChunk (chunks reader))
           | Some error => io_throw error
           end
       | None => io_ret decoder_init
       end)
    (fun error =>
       io_throw (Error (lit "Failed to connect to OpenAI: " ++ error_message error))).

(** [error.response?.data] *)
Definition error_response_data (e : error) : value :=
  match e with
  | AxiosError _ (Some data) => data
  | _ => VUndef
  end.

(** The multipart form of the upload: the audio and the model name. *)
Definition whisper_request (this : LLMHelper) (audio : str) : request :=
  {| url := lit "https://api.openai.com/v1/audio/transcriptions";
     headers := [(lit "Authorization", lit "Bearer " ++ openaiApiKey this)];
     payload := VObj [(lit "file", VStr audio);
                      (lit "model", VStr (lit "whisper-1"))] |}.

(** The upload reads the file while the request is sent: a missing file
    makes the request fail. *)
Definition transcribeAudioWithWhisper (this : LLMHelper) (audioPath : str) : io value :=
  io_catch
    (_ <~ external (import_form_data pf);;
     audio <~ readFile audioPath;;
     (* Use axios which handles form-data properly *)
     data <~ external (fun t => axios_post pf t (whisper_request this audio));;
     fun w => (text <- get_prop data (lit "text");; Ok (js_or rt text (VStr [])), w))
    (fun error =>
       let errorMsg :=
         if truthy rt (error_response_data error)
         then stringified (JSON_stringify rt (error_response_data error))
         else error_message error in
       io_throw (Error (lit "Failed to transcribe audio: " ++ errorMsg))).

(** The path of the temporary file of a call made at [now]. *)
Definition tempFilePath (now : nat) : str :=
  lit "/tmp/audio-" ++ nat_to_string now ++ lit ".mp3".

Definition transcribeAudioFromBase64WithWhisper
  (this : LLMHelper) (base64Data mimeType : str) : io value :=
  io_catch
    ((* Write base64 data to a temporary file first *)
     now <~ external (fun t => Ok (date_now pf t));;
     let audioBuffer := base64_decode rt base64Data in
     _ <~ writeFile (tempFilePath now) audioBuffer;;
     io_finally
       ((* Use the file-based transcription method *)
        transcribeAudioWithWhisper this (tempFilePath now))
       ((* Clean up temp file *)
        io_catch (unlink (tempFilePath now)) (fun _ => io_ret tt)))
    (fun error =>
       io_throw (Error (lit "Failed to transcribe audio: " ++ error_message error))).

(** ** Context retrieval *)

(** [process.env.NAME] as a condition and with a default. *)
Definition env (name : string) : option str := process_env pf (lit name).

(** [transcription.replace(/"/g, '\\"')] *)
Definition escape_quotes (s : str) : str :=
  flat_map (fun c => if c =? dq then [92; dq] else [c]) s.

(** [x?.toFixed(digits)] *)
Definition opt_toFixed (x : value) (digits : nat) : exc value :=
  match x with
  | VUndef | VNull => Ok VUndef
  | VNum n => Ok (VStr (num_to_fixed rt n digits))
  | _ => Throw (TypeError (lit "toFixed is not a function"))
  end.

(** [results.map((obj, idx) => ...)] with a callback that may throw. *)
Fixpoint map_indexed {A} (f : A -> nat -> exc str) (l : list A) (idx : nat)
  : exc (list str) :=
  match l with
  | [] => Ok []
  | x :: rest =>
      y <- f x idx;;
      ys <- map_indexed f rest (S idx);;
      Ok (y :: ys)
  end.

(** [.filter(Boolean)] on strings *)
Definition filter_Boolean (l : list str) : list str :=
  List.filter (fun s => negb (is_nil s)) l.

(** [if (v) parts.push(`label${v}`)] *)
Definition push_if (label : string) (v : value) (parts : list str) : exc (list str) :=
  if truthy rt v then
    text <- to_js_string rt v;;
    Ok (parts ++ [lit label ++ text])
  else Ok parts.

(** [v > 0] *)
Definition is_positive (v : value) : exc bool :=
  primitive <- to_primitive rt v;;
  Ok (gt_zero rt primitive).

Definition weaviate_query (collectionName contentField transcription : str) : str :=
  join [nl]
    [ [];
      lit "            {";
      lit "              Get {";
      lit "                " ++ collectionName ++ lit "(";
      lit "                  nearText: {";
      lit "                    concepts: [" ++ [dq] ++ escape_quotes transcription ++ [dq] ++ lit "]";
      lit "                  }";
      lit "                  limit: 5";
      lit "                ) {";
      lit "                  " ++ contentField;
      lit "                  name";
      lit "                  category";
      lit "                  supplierId";
      lit "                  annualSpend";
      lit "                  _additional {";
      lit "                    distance";
      lit "                  }";
      lit "                }";
      lit "              }";
      lit "            }";
      lit "          " ].

Definition weaviate_result (contentField : str) (obj : value) (idx : nat) : exc str :=
  additional <- get_prop obj (lit "_additional");;
  distance <- opt_toFixed (opt_prop additional (lit "distance")) 4;;
  distance_text <- to_js_string rt distance;;
  let parts := [lit "[Result " ++ nat_to_string (idx + 1) ++ lit " - Distance: "
                ++ distance_text ++ lit "]"] in
  parts <- push_if "Supplier: " (own_prop obj (lit "name")) parts;;
  parts <- push_if "Category: " (own_prop obj (lit "category")) parts;;
  parts <- push_if "ID: " (own_prop obj (lit "supplierId")) parts;;
  parts <- push_if "Annual Spend: $" (own_prop obj (lit "annualSpend")) parts;;
  parts <- push_if "Details: " (own_prop obj contentField) parts;;
  Ok (join [nl] parts).

(** [list && list.length > 0], then [list.map(render).filter(Boolean).join('\n\n')];
    the empty text when the condition fails.  Mapping over a value that is
    not an array is a TypeError. *)
Definition render_list (render : value -> nat -> exc str) (list : value) : exc str :=
  match list with
  | VArr [] => Ok []
  | VArr elems =>
      texts <- map_indexed render elems 0;;
      Ok (join [nl; nl] (filter_Boolean texts))
  | _ =>
      if truthy rt list then
        positive <- is_positive (own_prop list (lit "length"));;
        if positive then Throw (TypeError (lit "map is not a function"))
        else Ok []
      else Ok []
  end.

Definition weaviate_collection : str :=
  or_else (env "WEAVIATE_COLLECTION") (lit "ProcurementContext").
Definition weaviate_field : str :=
  or_else (env "WEAVIATE_CONTENT_FIELD") (lit "summary").

Definition weaviate_request (transcription : str) : request :=
  {| url := or_else (env "WEAVIATE_URL") [] ++ lit "/v1/graphql";
     headers := [(lit "Authorization", lit "Bearer " ++ or_else (env "WEAVIATE_API_KEY") []);
                 (lit "Content-Type", lit "application/json");
                 (lit "X-Weaviate-Cluster-Url", or_else (env "WEAVIATE_URL") [])];
     payload := VObj [(lit "query",
                       VStr (weaviate_query weaviate_collection weaviate_field transcription))] |}.

(** Extract context from results: [data] is [response.data]. *)
Definition weaviate_context (data : value) : exc str :=
  let results :=
    opt_prop (opt_prop (opt_prop data (lit "data")) (lit "Get")) weaviate_collection in
  render_list (weaviate_result weaviate_field) results.

Definition fetchWeaviateContext (transcription : str) : io str :=
  io_catch
    (let weaviateURL := env "WEAVIATE_URL" in
     let weaviateApiKey := env "WEAVIATE_API_KEY" in
     if negb (given weaviateURL) || negb (given weaviateApiKey) then io_ret []
     else
       (* Use GraphQL API to query Weaviate with semantic search *)
       data <~ external (fun t => axios_post pf t (weaviate_request transcription));;
       fun w => (weaviate_context data, w))
    (fun _ => io_ret []).

(** [kontextApiUrl.replace(/\/$/, '')] *)
Definition strip_trailing_slash (s : str) : str :=
  if endsWith s (lit "/") then firstn (length s - 1) s else s.

Definition kontextUserId : str := lit "d7d3cb73-edf1-46c8-84c4-72703585fdd5".

Definition kontext_hit (hit : value) (idx : nat) : exc str :=
  attributes <- get_prop hit (lit "attributes");;
  let parts := [lit "[Document " ++ nat_to_string (idx + 1) ++ lit "]"] in
  (* Extract text from various possible attributes *)
  let text := js_or rt (opt_prop attributes (lit "text"))
             (js_or rt (opt_prop attributes (lit "content"))
             (js_or rt (opt_prop attributes (lit "snippet"))
                    (match JSON_stringify rt attributes with
                     | Some json_text => VStr json_text
                     | None => VUndef
                     end))) in
  parts <- push_if "Source: " (opt_prop attributes (lit "fileName")) parts;;
  let score := own_prop hit (lit "score") in
  parts <- (if truthy rt score then
              number <- to_primitive rt score;;
              Ok (parts ++ [lit "Relevance: " ++ percent_fixed1 rt number ++ lit "%"])
            else Ok parts);;
  content_text <- to_js_string rt text;;
  Ok (join [nl] (parts ++ [lit "Content: " ++ content_text])).

(** The configuration given to [new Kontext]. *)
Definition kontext_config : value :=
  let kontextApiUrl := or_else (env "KONTEXT_API_URL") (lit "https://api.kontext.dev") in
  (* Remove trailing slash from URL if present (critical for SDK) *)
  let kontextApiUrl := strip_trailing_slash kontextApiUrl in
  VObj ([(lit "apiKey", VStr (or_else (env "KONTEXT_API_KEY") []));
         (lit "userId", VStr kontextUserId)]
        (* Add custom API URL if specified *)
        ++ (if negb (is_nil kontextApiUrl)
               && negb (str_eqb kontextApiUrl (lit "https://api.kontext.dev"))
            then [(lit "apiUrl", VStr kontextApiUrl)] else [])).

Definition kontext_query (transcription : str) : value :=
  VObj [(lit "userId", VStr kontextUserId);
        (lit "query", VStr transcription);
        (lit "includeAnswer", VBool true);
        (lit "topK", VNum (lit "5"))].

(** Extract context from vault results. *)
Definition kontext_context (vaultResult : value) : exc str :=
  hits <- get_prop vaultResult (lit "hits");;
  (* Include the AI-generated answer if available *)
  let answer_text := opt_prop (own_prop vaultResult (lit "answer")) (lit "text") in
  context <- (if truthy rt answer_text then
                text <- to_js_string rt answer_text;;
                Ok (lit "AI Answer: " ++ text ++ [nl; nl])
              else Ok []);;
  (* Add retrieved documents *)
  documentTexts <- render_list kontext_hit hits;;
  Ok (context ++ documentTexts).

Definition fetchKontextContext (transcription : str) : io str :=
  io_catch
    (let kontextApiKey := env "KONTEXT_API_KEY" in
     if negb (given kontextApiKey) then io_ret []
     else
       (* Query the vault with enhanced parameters for better retrieval *)
       vaultResult <~ external (fun t =>
          kontext_vault_query pf t kontext_config (kontext_query transcription));;
       fun w => (kontext_context vaultResult, w))
    (fun _ => io_ret []).

(** [process.env.USE_KONTEXT === 'true'] *)
Definition useKontext : bool :=
  match env "USE_KONTEXT" with
  | Some v => str_eqb v (lit "true")
  | None => false
  end.

(** Fetch context based on environment configuration (Weaviate or Kontext) *)
Definition fetchContext (transcription : str) : io str :=
  if useKontext then fetchKontextContext transcription
  else fetchWeaviateContext transcription.

(** The credentials of the configured backend are missing. *)
Definition credentials_missing : bool :=
  if useKontext then negb (given (env "KONTEXT_API_KEY"))
  else negb (given (env "WEAVIATE_URL")) || negb (given (env "WEAVIATE_API_KEY")).

(** The lookup made at [w] fails: the request to the configured backend is
    rejected, or its reply cannot be turned into a context. *)
Definition lookup_fails (transcription : str) (w : world) : bool :=
  if useKontext then
    match kontext_vault_query pf (clock w) kontext_config (kontext_query transcription) with
    | Ok vaultResult => negb (is_ok (kontext_context vaultResult))
    | Throw _ => true
    end
  else
    match axios_post pf (clock w) (weaviate_request transcription) with
    | Ok data => negb (is_ok (weaviate_context data))
    | Throw _ => true
    end.

(** ** Image analysis *)

Record analysis := {
  text : str;
  timestamp : nat
}.

Definition inlineData (data : str) (mimeType : string) : value :=
  VObj [(lit "inlineData", VObj [(lit "data", VStr data); (lit "mimeType", VStr (lit mimeType))])].

(** [this.model.generateContent(parts)], a TypeError when [this.model] is
    null. *)
Definition model_generateContent (this : LLMHelper) (parts : list value) : io str :=
  match model this with
  | Some m => external (fun t => generateContent pf t m parts)
  | None =>
      io_throw (TypeError (lit "Cannot read properties of null (reading 'generateContent')"))
  end.

Definition image_prompt : str :=
  systemPrompt ++ [nl; nl] ++ lit "Image analysis. Short answer with next actions.".

Definition analyzeImageFile (this : LLMHelper) (imagePath : str) : io analysis :=
  io_catch
    (if useOpenAI this then
       (* OpenAI vision API *)
       imageData <~ readFile imagePath;;
       let base64Image := base64_encode rt imageData in
       result <~ callOpenAI this
         [message "user"
            (VArr [VObj [(lit "type", VStr (lit "text")); (lit "text", VStr image_prompt)];
                   VObj [(lit "type", VStr (lit "image_url"));
                         (lit "image_url",
                          VObj [(lit "url", VStr (lit "data:image/png;base64," ++ base64Image))])]])]
         false;;
       now <~ external (fun t => Ok (date_now pf t));;
       io_ret {| text := fullContent result; timestamp := now |}
     else
       (* Gemini or Ollama (Gemini only for now since Ollama doesn't support vision well) *)
       imageData <~ readFile imagePath;;
       let imagePart := inlineData (base64_encode rt imageData) "image/png" in
       result <~ model_generateContent this [VStr image_prompt; imagePart];;
       now <~ external (fun t => Ok (date_now pf t));;
       io_ret {| text := result; timestamp := now |})
    (fun error => io_throw error).

End Calls.

(** ** Surroundings for the closed examples *)

(** No environment variable is set and every service is unreachable. *)
Definition offline : platform := {|
  process_env := fun _ => None;
  date_now := fun t => (1000 + t)%nat;
  fetch := fun _ _ => Throw (TypeError (lit "fetch failed"));
  axios_post := fun _ _ => Throw (AxiosError (lit "Network Error") None);
  generateContent := fun _ _ _ =>
    Throw (SdkError (lit "GoogleGenerativeAIFetchError") (lit "fetch failed"));
  kontext_vault_query := fun _ _ _ => Throw (SdkError (lit "KontextError") (lit "fetch failed"));
  import_form_data := fun _ => Ok tt
|}.

Definition with_env (vars : list (str * str)) (pf : platform) : platform := {|
  process_env := fun name =>
    match List.find (fun kv => str_eqb (fst kv) name) vars with
    | Some kv => Some (snd kv)
    | None => None
    end;
  date_now := date_now pf;
  fetch := fetch pf;
  axios_post := axios_post pf;
  generateContent := generateContent pf;
  kontext_vault_query := kontext_vault_query pf;
  import_form_data := import_form_data pf
|}.

Definition with_axios_post (reply : exc value) (pf : platform) : platform := {|
  process_env := process_env pf;
  date_now := date_now pf;
  fetch := fetch pf;
  axios_post := fun _ _ => reply;
  generateContent := generateContent pf;
  kontext_vault_query := kontext_vault_query pf;
  import_form_data := import_form_data pf
|}.

Definition with_generateContent (reply : exc str) (pf : platform) : platform := {|
  process_env := process_env pf;
  date_now := date_now pf;
  fetch := fetch pf;
  axios_post := axios_post pf;
  generateContent := fun _ _ _ => reply;
  kontext_vault_query := kontext_vault_query pf;
  import_form_data := import_form_data pf
|}.

(** The two credentials of the Weaviate binding. *)
Definition weaviate_env : list (str * str) :=
  [(lit "WEAVIATE_URL", lit "http://weaviate"); (lit "WEAVIATE_API_KEY", lit "w-key")].

Definition empty_world : world := {| clock := 0; files := ∅ |}.

Definition world_with_file (path data : str) : world :=
  {| clock := 0; files := {[ path := data ]} |}.

(** A reply of the transcription backend with status 500. *)
Definition whisper_500 : exc value :=
  Throw (AxiosError (lit "Request failed with status code 500")
           (Some (VObj [(lit "error", VObj [(lit "message", VStr (lit "server error"))])]))).

(** ** The statement of the specification about images *)

(** With the local-server provider active, [analyzeImageFile] fails with an
    error named [UnsupportedOperationError], for every image path. *)
Definition ollama_image_unsupported (rt : js_runtime) (pf : platform) : Prop :=
  forall (this : LLMHelper) (imagePath : str) (w : world),
    getCurrentProvider this = lit "ollama" ->
    exists e, fst (analyzeImageFile rt pf this imagePath w) = Throw e
              /\ error_name e = lit "UnsupportedOperationError".

(** ** The remaining operations of the class *)

Definition lines_of (ls : list str) : str := join [nl] ls.

(** A line [  "name": "text"] of the JSON formats shown in the prompts. *)
Definition format_member (indent name text : string) : str :=
  lit indent ++ quoted name ++ lit ": " ++ quoted text.

Definition format_responses (indent : string) : str :=
  lit indent ++ quoted "suggested_responses" ++ lit ": ["
  ++ quoted "First possible answer or action" ++ lit ", "
  ++ quoted "Second possible answer or action" ++ lit ", "
  ++ quoted "..." ++ lit "],".

(** The format asked of [generateSolution] and [debugSolutionWithImages]. *)
Definition solution_format : str :=
  lines_of
    [ lit "{";
      lit "  " ++ quoted "solution" ++ lit ": {";
      format_member "    " "code" "The code or main answer here." ++ lit ",";
      format_member "    " "problem_statement" "Restate the problem or situation." ++ lit ",";
      format_member "    " "context" "Relevant background/context." ++ lit ",";
      format_responses "    ";
      format_member "    " "reasoning" "Explanation of why these suggestions are appropriate.";
      lit "  }";
      lit "}" ].

Definition only_json_notice : str :=
  lit "Important: Return ONLY the JSON object, without any markdown formatting or code blocks.".

(** The instruction [chatWithGemini] appends to the message. *)
Definition chat_instruction : str :=
  lines_of
    [ [];
      [];
      lit "Respond in plain text, NO markdown. Provide 3 key negotiation points:";
      lit "1. [Point] - one line";
      lit "2. [Point] - one line  ";
      lit "3. [Point] - one line";
      [];
      lit "Keep it concise and tactical." ].

Definition audio_file_instruction : str :=
  lit "Negotiate with this supplier. Short answer with next actions.".

Definition audio_base64_instruction : str :=
  lines_of
    [ lit "Provide negotiation strategy. Use plain text only, NO markdown, NO ## headers, NO ** bold:";
      [];
      lit "LEVERAGE POINTS:";
      lit "- [Key advantage] - one line why";
      lit "- [Key advantage] - one line why";
      [];
      lit "NEXT ACTIONS:";
      lit "1. [Tactical move] - one line reason";
      lit "2. [Tactical move] - one line reason";
      [];
      lit "Use data from context. Be concise. Plain text only." ].

Definition audio_file_gemini_prompt : str :=
  systemPrompt ++ [nl; nl]
  ++ lit "Audio clip analysis. Short answer with suggested next actions.".

Definition audio_base64_gemini_prompt : str :=
  systemPrompt ++ [nl; nl]
  ++ lines_of
       [ lit "Provide strategy. Plain text only, NO markdown:";
         [];
         lit "LEVERAGE:";
         lit "- Key advantage - one line";
         [];
         lit "NEXT MOVE:";
         lit "1. Tactical action - one line";
         [];
         lit "Short, data-driven. Plain text." ].

(** The result of [testConnection]. *)
Record connection_result := {
  success : bool;
  error_text : option str
}.

(** The result of [analyzeAudioFromBase64], with the calls made to
    [onStreamChunk]. *)
Record streamed_analysis := {
  outcome : analysis;
  stream_chunks : list value
}.

Section Operations.

Context (rt : js_runtime) (pf : platform).

(** [JSON.stringify(v, null, 2)]: a string, or undefined for undefined. *)
Context (JSON_stringify_pretty : value -> option str).

Definition inline_part (data mimeType : str) : value :=
  VObj [(lit "inlineData", VObj [(lit "data", VStr data); (lit "mimeType", VStr mimeType)])].

Definition fileToGenerativePart (imagePath : str) : io value :=
  imageData <~ readFile imagePath;;
  io_ret (inline_part (base64_encode rt imageData) (lit "image/png")).

(** [Promise.all(paths.map(path => this.fileToGenerativePart(path)))].  A
    read changes nothing, so the order of the reads shows only when several
    images are missing: the error is then the one of the first of them in
    the list here, and the one of the read that fails first at run time. *)
Fixpoint all_parts (paths : list str) : io (list value) :=
  match paths with
  | [] => io_ret []
  | path :: rest =>
      part <~ fileToGenerativePart path;;
      parts <~ all_parts rest;;
      io_ret (part :: parts)
  end.

(** The TypeError of [x.replace(...)] for an [x] that is not a string,
    where [x] is written [name] in the source: reading [replace] of
    undefined or of null is one error, calling what is not there is
    another. *)
Definition replace_error (name : string) (x : value) : error :=
  match x with
  | VUndef => cannot_read "undefined" (lit "replace")
  | VNull => cannot_read "null" (lit "replace")
  | _ => TypeError (lit name ++ lit ".replace is not a function")
  end.

(** The receiver of [x.replace(...)]: only a string has [replace]. *)
Definition replace_receiver (name : string) (x : value) : exc str :=
  match x with
  | VStr s => Ok s
  | _ => Throw (replace_error name x)
  end.

(** [this.cleanJsonResponse(text)] on a value that may not be a string. *)
Definition cleanJsonResponse_of (text : value) : exc str :=
  s <- replace_receiver "text" text;;
  Ok (cleanJsonResponse s).

(** [JSON.parse(this.cleanJsonResponse(text))] *)
Definition parse_cleaned (text : value) : exc value :=
  cleaned <- cleanJsonResponse_of text;;
  Json.parse cleaned.

Definition extract_prompt : str :=
  systemPrompt ++ [nl; nl]
  ++ lit "You are a wingman. Please analyze these images and extract the following information in JSON format:"
  ++ [nl]
  ++ lines_of
       [ lit "{";
         format_member "  " "problem_statement"
           "A clear statement of the problem or situation depicted in the images." ++ lit ",";
         format_member "  " "context" "Relevant background or context from the images." ++ lit ",";
         format_responses "  ";
         format_member "  " "reasoning" "Explanation of why these suggestions are appropriate.";
         lit "}" ]
  ++ [nl] ++ only_json_notice.

Definition extractProblemFromImages (this : LLMHelper) (imagePaths : list str) : io value :=
  io_catch
    (imageParts <~ all_parts imagePaths;;
     response_text <~ model_generateContent pf this (VStr extract_prompt :: imageParts);;
     fun w => (parse_cleaned (VStr response_text), w))
    (fun error => io_throw error).

Definition solution_prompt (problemInfo : value) : str :=
  systemPrompt ++ [nl; nl] ++ lit "Given this problem or situation:" ++ [nl]
  ++ stringified (JSON_stringify_pretty problemInfo) ++ [nl; nl]
  ++ lit "Please provide your response in the following JSON format:" ++ [nl]
  ++ solution_format ++ [nl] ++ only_json_notice.

(** The text of the active provider for a system prompt and a user prompt:
    OpenAI first, then Ollama, then the Gemini model. *)
Definition generateSolution (this : LLMHelper) (problemInfo : value) : io value :=
  let prompt := solution_prompt problemInfo in
  io_catch
    (response_text <~
       (if useOpenAI this then
          result <~ callOpenAI rt pf this
            [message "system" (VStr systemPrompt); message "user" (VStr prompt)] false;;
          io_ret (VStr (fullContent result))
        else if useOllama this then callOllama pf this prompt
        else
          result <~ model_generateContent pf this [VStr prompt];;
          io_ret (VStr result));;
     fun w => (parse_cleaned response_text, w))
    (fun error => io_throw error).

Definition debug_prompt (problemInfo : value) (currentCode : str) : str :=
  systemPrompt ++ [nl; nl] ++ lit "You are a wingman. Given:" ++ [nl]
  ++ lit "1. The original problem or situation: "
  ++ stringified (JSON_stringify_pretty problemInfo) ++ [nl]
  ++ lit "2. The current response or approach: " ++ currentCode ++ [nl]
  ++ lit "3. The debug information in the provided images" ++ [nl; nl]
  ++ lit "Please analyze the debug information and provide feedback in this JSON format:" ++ [nl]
  ++ solution_format ++ [nl] ++ only_json_notice.

Definition debugSolutionWithImages
  (this : LLMHelper) (problemInfo : value) (currentCode : str) (debugImagePaths : list str)
  : io value :=
  io_catch
    (imageParts <~ all_parts debugImagePaths;;
     response_text <~ model_generateContent pf this
       (VStr (debug_prompt problemInfo currentCode) :: imageParts);;
     fun w => (parse_cleaned (VStr response_text), w))
    (fun error => io_throw error).

(** [fetchKontextContext] and [fetchContext] for a transcription that is not
    a string: the Weaviate binding stops at [transcription.replace], inside
    its [try]; the Kontext binding passes the value on as the query. *)
Definition kontext_query_of (transcription : value) : value :=
  VObj [(lit "userId", VStr kontextUserId);
        (lit "query", transcription);
        (lit "includeAnswer", VBool true);
        (lit "topK", VNum (lit "5"))].

Definition fetchContext_of (transcription : value) : io str :=
  match transcription with
  | VStr s => fetchContext rt pf s
  | _ =>
      if useKontext pf then
        io_catch
          (if negb (given (env pf "KONTEXT_API_KEY")) then io_ret []
           else
             vaultResult <~ external (fun t =>
                kontext_vault_query pf t (kontext_config pf) (kontext_query_of transcription));;
             fun w => (kontext_context rt vaultResult, w))
          (fun _ => io_ret [])
      else
        io_catch
          (if negb (given (env pf "WEAVIATE_URL")) || negb (given (env pf "WEAVIATE_API_KEY"))
           then io_ret []
           else io_throw (replace_error "transcription" transcription))
          (fun _ => io_ret [])
  end.

(** [if (context && context.trim().length > 0)] *)
Definition has_context (context : str) : bool := negb (is_nil (trim context)).

(** The prompts are template literals over the transcription: building
    one throws when the transcription cannot be converted to a string. *)
Definition audio_file_prompt (transcription : value) (context : str) : exc str :=
  transcript <- to_js_string rt transcription;;
  Ok (lit "Audio: " ++ [dq] ++ transcript ++ [dq] ++ [nl; nl]
      ++ (if has_context context then lit "Context:" ++ [nl] ++ context ++ [nl; nl] else [])
      ++ audio_file_instruction).

Definition audio_base64_prompt (transcription : value) (context : str) : exc str :=
  transcript <- to_js_string rt transcription;;
  Ok (lit "The following is a transcription of an audio clip:" ++ [nl; nl]
      ++ [dq] ++ transcript ++ [dq] ++ [nl; nl]
      ++ (if has_context context
          then lit "**Relevant Context from Knowledge Base:**" ++ [nl] ++ context ++ [nl; nl]
          else [])
      ++ audio_base64_instruction).

Definition now : io nat := external (fun t => Ok (date_now pf t)).

Definition analyzeAudioFile (this : LLMHelper) (audioPath : str) : io analysis :=
  io_catch
    (if useOpenAI this then
       (* Use OpenAI Whisper to transcribe audio *)
       transcription <~ transcribeAudioWithWhisper rt pf this audioPath;;
       (* Fetch context from Weaviate or Kontext based on env config *)
       context <~ fetchContext_of transcription;;
       (* Build prompt with context if available *)
       userPrompt <~ (fun w => (audio_file_prompt transcription context, w));;
       result <~ callOpenAI rt pf this
         [message "system" (VStr systemPrompt); message "user" (VStr userPrompt)] false;;
       timestamp <~ now;;
       io_ret {| text := fullContent result; timestamp := timestamp |}
     else
       (* Gemini supports audio directly *)
       audioData <~ readFile audioPath;;
       let audioPart := inline_part (base64_encode rt audioData) (lit "audio/mp3") in
       result <~ model_generateContent pf this [VStr audio_file_gemini_prompt; audioPart];;
       timestamp <~ now;;
       io_ret {| text := result; timestamp := timestamp |})
    (fun error => io_throw error).

Definition analyzeAudioFromBase64
  (this : LLMHelper) (data mimeType : str) (onStreamChunk : bool) : io streamed_analysis :=
  io_catch
    (if useOpenAI this then
       (* Use OpenAI Whisper to transcribe audio from base64 *)
       transcription <~ transcribeAudioFromBase64WithWhisper rt pf this data mimeType;;
       (* Fetch context from Weaviate or Kontext based on env config *)
       context <~ fetchContext_of transcription;;
       (* Build prompt with context if available *)
       userPrompt <~ (fun w => (audio_base64_prompt transcription context, w));;
       result <~ callOpenAI rt pf this
         [message "system" (VStr systemPrompt); message "user" (VStr userPrompt)] onStreamChunk;;
       timestamp <~ now;;
       io_ret {| outcome := {| text := fullContent result; timestamp := timestamp |};
                 stream_chunks := emitted result |}
     else
       (* Gemini supports audio *)
       let audioPart := inline_part data mimeType in
       result <~ model_generateContent pf this [VStr audio_base64_gemini_prompt; audioPart];;
       timestamp <~ now;;
       io_ret {| outcome := {| text := result; timestamp := timestamp |};
                 stream_chunks := [] |})
    (fun error => io_throw error).

Definition chatWithGemini (this : LLMHelper) (user_message : str) : io value :=
  (* Add instruction for plain text output with 3 negotiation points *)
  let formattedMessage := user_message ++ chat_instruction in
  io_catch
    (if useOpenAI this then
       result <~ callOpenAI rt pf this
         [message "system" (VStr systemPrompt); message "user" (VStr formattedMessage)] false;;
       io_ret (VStr (fullContent result))
     else if useOllama this then callOllama pf this formattedMessage
     else
       match model this with
       | Some _ =>
           result <~ model_generateContent pf this [VStr formattedMessage];;
           io_ret (VStr result)
       | None => io_throw (Error (lit "No LLM provider configured"))
       end)
    (fun error => io_throw error).

Definition chat (this : LLMHelper) (user_message : str) : io value :=
  chatWithGemini this user_message.

Definition checkOllamaAvailable (this : LLMHelper) : io bool :=
  io_catch
    (response <~ external (fun t => fetch pf t
        {| url := ollamaUrl this ++ lit "/api/tags"; headers := []; payload := VUndef |});;
     io_ret (ok response))
    (fun _ => io_ret false).

Definition connected : connection_result := {| success := true; error_text := None |}.
Definition not_connected (reason : str) : connection_result :=
  {| success := false; error_text := Some reason |}.

Definition testConnection (this : LLMHelper) : io connection_result :=
  io_catch
    (if useOpenAI this then
       (* Test OpenAI with a simple prompt *)
       result <~ callOpenAI rt pf this [message "user" (VStr (lit "Hello"))] false;;
       if negb (is_nil (fullContent result)) then io_ret connected
       else io_ret (not_connected (lit "Empty response from OpenAI"))
     else if useOllama this then
       available <~ checkOllamaAvailable this;;
       if negb available then
         io_ret (not_connected (lit "Ollama not available at " ++ ollamaUrl this))
       else
         (* Test with a simple prompt *)
         _ <~ callOllama pf this (lit "Hello");;
         io_ret connected
     else
       match model this with
       | None => io_ret (not_connected (lit "No Gemini model configured"))
       | Some _ =>
           (* Test with a simple prompt *)
           result <~ model_generateContent pf this [VStr (lit "Hello")];;
           if negb (is_nil result) then io_ret connected
           else io_ret (not_connected (lit "Empty response from Gemini"))
       end)
    (fun error => io_ret (not_connected (error_message error))).

End Operations.

(** ** The states an instance can be in *)

(** A constructed instance, after any number of switches and of runs of
    [initializeOllamaModel], in any surroundings.  A call of
    [switchToOllama] leaves the instance its assignments made, also when
    the call throws; a call of [switchToGemini] that throws has changed
    nothing. *)
Inductive reachable (rt : js_runtime) (pf : platform) : LLMHelper -> Prop :=
| reach_constructor apiKey useOllama_arg ollamaModel_arg ollamaUrl_arg useOpenAI_arg
    openaiModel_arg this :
    constructor apiKey useOllama_arg ollamaModel_arg ollamaUrl_arg useOpenAI_arg
      openaiModel_arg = Ok this ->
    reachable rt pf this
| reach_initialize this this' w :
    reachable rt pf this ->
    fst (initializeOllamaModel rt pf this w) = Ok this' ->
    reachable rt pf this'
| reach_switchToOllama this this' model_arg url_arg w :
    reachable rt pf this ->
    fst (switchToOllama_assignments rt pf this model_arg url_arg w) = Ok this' ->
    reachable rt pf this'
| reach_switchToGemini this this' apiKey w :
    reachable rt pf this ->
    fst (switchToGemini this apiKey w) = Ok this' ->
    reachable rt pf this'
| reach_switchToOpenAI this this' apiKey model_arg w :
    reachable rt pf this ->
    fst (switchToOpenAI this apiKey model_arg w) = Ok this' ->
    reachable rt pf this'.

(** A stub of [JSON.stringify(v, null, 2)] for the closed examples. *)
Definition example_pretty (v : value) : option str :=
  match v with VUndef => None | _ => Some (lit "{}") end.

(** ** Notions used by the properties *)

Definition no_line_feed (s : str) : bool := forallb (fun c => negb (c =? nl)) s.

(** The payload of a [data: ] line that yields [content]: JSON text on one
    line whose [choices[0].delta.content] is [content], a truthy value that
    can be converted to a string. *)
Definition frame_yields (rt : js_runtime) (frame_text : str) (content : value) : Prop :=
  no_line_feed frame_text = true
  /\ exists parsed,
       Json.parse frame_text = Ok parsed
       /\ delta_content parsed = Ok content
       /\ truthy rt content = true
       /\ is_ok (to_js_string rt content) = true.

(** An operation that leaves every file as it is, whatever its outcome. *)
Definition keeps_files {A} (m : io A) : Prop :=
  forall w, files (snd (m w)) = files w.

(** An outcome that is a failure of the provider that was called. *)
Definition provider_failure (pf : platform) (this : LLMHelper) (e : error) : Prop :=
  (exists m, e = Error (lit "Failed to connect to OpenAI: " ++ m))
  \/ (exists m, e = Error (lit "Failed to connect to Ollama: " ++ m
                           ++ lit ". Make sure Ollama is running on " ++ ollamaUrl this))
  \/ (exists t m parts, model this = Some m /\ generateContent pf t m parts = Throw e).


(** The requests [callOllama] and [callOpenAI] send, and the reads of a
    response. *)
Definition ollama_request (this : LLMHelper) (prompt : str) : request :=
  {| url := ollamaUrl this ++ lit "/api/generate";
     headers := [(lit "Content-Type", lit "application/json")];
     payload := VObj [(lit "model", ollamaModel this);
                      (lit "prompt", VStr prompt);
                      (lit "stream", VBool false);
                      (lit "options", VObj [(lit "temperature", VNum (lit "0.7"));
                                            (lit "top_p", VNum (lit "0.9"))])] |}.

Definition openai_request (this : LLMHelper) (messages : list value) : request :=
  {| url := lit "https://api.openai.com/v1/chat/completions";
     headers := [(lit "Content-Type", lit "application/json");
                 (lit "Authorization", lit "Bearer " ++ openaiApiKey this)];
     payload := VObj [(lit "model", VStr (openaiModel this));
                      (lit "messages", VArr messages);
                      (lit "temperature", VNum (lit "0.7"));
                      (lit "max_completion_tokens", VNum (lit "4096"));
                      (lit "stream", VBool true)] |}.

Definition reads_of (response : http_response) : list str :=
  match body response with
  | Some reader => chunks reader
  | None => []
  end.

(** The rejection of a read of the body, if there is one. *)
Definition read_failure (response : http_response) : option error :=
  match body response with
  | Some reader => read_error reader
  | None => None
  end.

(** One more external call has been made. *)
Definition tick (w : world) : world := {| clock := S (clock w); files := files w |}.

Definition transcribe_prefix : str := lit "Failed to transcribe audio: ".

(** The cause [transcribeAudioWithWhisper] reports for a failure: the body
    of the backend's reply when there is one, else the message. *)
Definition whisper_cause (rt : js_runtime) (e : error) : str :=
  if truthy rt (error_response_data e)
  then stringified (JSON_stringify rt (error_response_data e))
  else error_message e.

(** What every reachable instance satisfies. *)
Definition instance_invariant (this : LLMHelper) : Prop :=
  (useOpenAI this = false -> useOllama this = false -> model this <> None)
  /\ openaiModel this <> []
  /\ ollamaUrl this <> [].

Definition gemini_then_ollama_then_gemini : LLMHelper :=
  set_useOpenAI false (set_useOllama false
    (set_ollamaModel (VStr (lit "llama3.2")) (set_useOllama true
       (set_model (Some (getGenerativeModel (lit "g-key")))
          (set_useOpenAI false (set_useOllama false LLMHelper_fields)))))).

(** A server that lists the models [a] and [b] and answers every request:
    one reply that holds both the list of [/api/tags] and the answer of
    [/api/generate]. *)
Definition two_models : platform := {|
  process_env := process_env offline;
  date_now := date_now offline;
  fetch := fun _ _ =>
    Ok {| ok := true; status := 200; statusText := lit "OK";
          json := Ok (VObj [(lit "models", VArr [VObj [(lit "name", VStr (lit "a"))];
                                                 VObj [(lit "name", VStr (lit "b"))]]);
                            (lit "response", VStr (lit "Hi")); (lit "done", VBool true)]);
          body := None |};
  axios_post := axios_post offline;
  generateContent := generateContent offline;
  kontext_vault_query := kontext_vault_query offline;
  import_form_data := import_form_data offline
|}.

Definition with_fetch (reply : exc http_response) (pf : platform) : platform := {|
  process_env := process_env pf;
  date_now := date_now pf;
  fetch := fun _ _ => reply;
  axios_post := axios_post pf;
  generateContent := generateContent pf;
  kontext_vault_query := kontext_vault_query pf;
  import_form_data := import_form_data pf
|}.

(** A streamed reply of the chat API with the frames [Hi] and [Yo]. *)
Definition streamed_reply : http_response :=
  {| ok := true; status := 200; statusText := lit "OK"; json := Ok VNull;
     body := Some (complete [data_line (frame_of "Hi"); data_line (frame_of "Yo") ++ done_line]) |}.

Definition server_error_reply : http_response :=
  {| ok := false; status := 500; statusText := lit "Internal Server Error";
     json := Throw (SyntaxError (lit "Unexpected end of JSON input")); body := None |}.

Definition openai_instance : LLMHelper :=
  set_openaiApiKey (lit "sk-key") (set_useOpenAI true LLMHelper_fields).

Definition ollama_instance : LLMHelper :=
  set_ollamaModel (VStr (lit "llama3.2")) (set_useOllama true LLMHelper_fields).

Definition gemini_instance : LLMHelper :=
  set_model (Some (getGenerativeModel (lit "g-key"))) LLMHelper_fields.

(** A reply of the Ollama server whose [response] is JSON inside a fence. *)
Definition ollama_fenced_reply : http_response :=
  {| ok := true; status := 200; statusText := lit "OK";
     json := Ok (VObj [(lit "response", VStr (fence_json_open ++ lit "[true]" ++ fence_close));
                       (lit "done", VBool true)]);
     body := None |}.

(** A transcription backend that answers [hello], with the chat API
    answering the streamed reply. *)
Definition talking : platform :=
  with_fetch (Ok streamed_reply)
    (with_axios_post (Ok (VObj [(lit "text", VStr (lit "hello"))])) offline).

(** ** The statement of the specification about cleaning *)



(** ** The statement of the specification about a reply without a text *)

(** When the upload is answered with a body that holds no [text], the
    transcription returns the empty string. *)
Definition no_text_is_empty (rt : js_runtime) (pf : platform) : Prop :=
  forall (this : LLMHelper) (audioPath audio : str) (data : value) (w : world),
    import_form_data pf (clock w) = Ok tt ->
    files w !! audioPath = Some audio ->
    axios_post pf (S (clock w)) (whisper_request this audio) = Ok data ->
    opt_prop data (lit "text") = VUndef ->
    fst (transcribeAudioWithWhisper rt pf this audioPath w) = Ok (VStr []).

(** A server whose list of models holds one entry without a name. *)
Definition nameless_model : platform := {|
  process_env := process_env offline;
  date_now := date_now offline;
  fetch := fun _ _ =>
    Ok {| ok := true; status := 200; statusText := lit "OK";
          json := Ok (VObj [(lit "models", VArr [VObj [(lit "model", VStr (lit "a"))]]);
                            (lit "response", VStr (lit "Hi"))]);
          body := None |};
  axios_post := axios_post offline;
  generateContent := generateContent offline;
  kontext_vault_query := kontext_vault_query offline;
  import_form_data := import_form_data offline
|}.


(** A server whose only listed model has an object for a name, with a
    member called [toString]. *)
Definition unprintable_model : platform := {|
  process_env := process_env offline;
  date_now := date_now offline;
  fetch := fun _ _ =>
    Ok {| ok := true; status := 200; statusText := lit "OK";
          json := Ok (VObj [(lit "models",
                             VArr [VObj [(lit "name",
                                          VObj [(lit "toString", VBool true)])]])]);
          body := None |};
  axios_post := axios_post offline;
  generateContent := generateContent offline;
  kontext_vault_query := kontext_vault_query offline;
  import_form_data := import_form_data offline
|}.

(** * Properties *)

(** ** Sanity checks of the string and JSON layers *)

Example split_nl_ex :
  split_nl (lit "a" ++ [nl] ++ [nl] ++ lit "bc") = [lit "a"; []; lit "bc"].
Proof. reflexivity. Qed.

Example trim_ex : trim (lit "  ab c" ++ [nl; 160]) = lit "ab c".
Proof. reflexivity. Qed.

Example nat_to_string_ex : nat_to_string 105 = lit "105".
Proof. reflexivity. Qed.

Example parse_frame_hi : Json.parse (frame_of "Hi") = Ok (value_of_frame "Hi").
Proof. vm_compute. reflexivity. Qed.

Example parse_mixed :
  Json.parse (lit " [1.5e3, true ,null," ++ dq :: lit "aA\n" ++ dq :: lit ", {}] ")
  = Ok (VArr [VNum (lit "1.5e3"); VBool true; VNull;
              VStr (lit "aA" ++ [nl]); VObj []]).
Proof. vm_compute. reflexivity. Qed.

Example parse_done_fails : is_ok (Json.parse (lit "[DONE]")) = false.
Proof. vm_compute. reflexivity. Qed.

Example parse_bad_number : is_ok (Json.parse (lit "01")) = false.
Proof. vm_compute. reflexivity. Qed.

Example parse_trailing : is_ok (Json.parse (lit "{} x")) = false.
Proof. vm_compute. reflexivity. Qed.

Example own_prop_dup :
  own_prop (VObj [(lit "a", VNull); (lit "a", VBool true)]) (lit "a") = VBool true.
Proof. vm_compute. reflexivity. Qed.

Example own_prop_index :
  own_prop (VArr [VNull; VBool true]) (lit "1") = VBool true
  /\ own_prop (VArr [VNull; VBool true]) (lit "01") = VUndef.
Proof. split; vm_compute; reflexivity. Qed.

Example clean_fenced :
  cleanJsonResponse (fence_json_open ++ lit "{}" ++ fence_close) = lit "{}".
Proof. vm_compute. reflexivity. Qed.

Example clean_fenced_trailing_newline :
  cleanJsonResponse (fence_json_open ++ lit "{}" ++ fence_close ++ [nl])
  = lit "{}" ++ fence_close.
Proof. vm_compute. reflexivity. Qed.

(** ** Prefixes, suffixes and substrings *)

Lemma startsWith_spec (s p : str) :
  startsWith s p = true <-> exists r, s = p ++ r.
Proof.
  revert s. induction p as [|c p IH]; intros s; simpl.
  - split; [intros _; exists s; reflexivity | reflexivity].
  - destruct s as [|d s].
    + split; [discriminate | intros [r Hr]; discriminate].
    + rewrite andb_true_iff, N.eqb_eq, IH. split.
      * intros [-> [r ->]]. exists r. reflexivity.
      * intros [r Hr]. injection Hr as -> ->. split; [reflexivity | exists r; reflexivity].
Qed.

Lemma startsWith_app (p r : str) : startsWith (p ++ r) p = true.
Proof. apply startsWith_spec. exists r. reflexivity. Qed.


(** A text that starts with [p] still does when it is extended. *)
Lemma startsWith_extend (s t p : str) :
  startsWith s p = true -> startsWith (s ++ t) p = true.
Proof.
  rewrite !startsWith_spec. intros [r ->]. exists (r ++ t).
  rewrite <- app_assoc. reflexivity.
Qed.

Lemma endsWith_spec (s p : str) :
  endsWith s p = true <-> exists r, s = r ++ p.
Proof.
  unfold endsWith. rewrite startsWith_spec. split.
  - intros [r Hr]. exists (rev r).
    rewrite <- (rev_involutive s), Hr, rev_app_distr, rev_involutive. reflexivity.
  - intros [r ->]. exists (rev r). apply rev_app_distr.
Qed.




(** ** Trimming *)

Lemma trimStart_split (s : str) :
  exists w, s = w ++ trimStart s /\ forallb is_js_space w = true.
Proof.
  induction s as [|c s (w & Hs & Hw)]; simpl.
  - exists []. split; reflexivity.
  - destruct (is_js_space c) eqn:Hc.
    + exists (c :: w). simpl. rewrite Hc, Hw. split; [f_equal; exact Hs | reflexivity].
    + exists []. split; reflexivity.
Qed.

Lemma trimEnd_split (s : str) :
  exists w, s = trimEnd s ++ w /\ forallb is_js_space w = true.
Proof.
  unfold trimEnd. destruct (trimStart_split (rev s)) as (w & Hs & Hw).
  exists (rev w). split.
  - rewrite <- (rev_involutive s) at 1. rewrite Hs at 1. apply rev_app_distr.
  - rewrite forallb_forall in *. intros x Hx. apply Hw, in_rev, Hx.
Qed.

(** ** The scanner ignores what [trim] removes *)

Module JsonFacts.
Import Json.

Lemma js_space_cases (c : N) :
  is_js_space c = true ->
  c = 9 \/ c = 10 \/ c = 11 \/ c = 12 \/ c = 13 \/ c = 32 \/ 160 <= c.
Proof.
  unfold is_js_space.
  rewrite !orb_true_iff, !andb_true_iff, !N.eqb_eq, !N.leb_le. lia.
Qed.

Lemma json_ws_cases (c : N) :
  is_json_ws c = false -> c <> 32 /\ c <> 9 /\ c <> 10 /\ c <> 13.
Proof.
  unfold is_json_ws. rewrite !orb_false_iff, !N.eqb_neq. tauto.
Qed.

Ltac char_tests :=
  repeat match goal with
  | |- context [N.eqb ?a ?b] => destruct (N.eqb_spec a b); try lia
  | |- context [N.leb ?a ?b] => destruct (N.leb_spec a b); try lia
  | |- context [N.ltb ?a ?b] => destruct (N.ltb_spec a b); try lia
  end; simpl; try reflexivity; try lia.

(** A space is neither a letter nor part of a number. *)
Lemma space_not_lower c : is_js_space c = true -> is_lower c = false.
Proof. intros H%js_space_cases. unfold is_lower. char_tests. Qed.

Lemma space_not_number_char c : is_js_space c = true -> is_number_char c = false.
Proof. intros H%js_space_cases. unfold is_number_char, is_digit. char_tests. Qed.

Lemma space_hex_val c : is_js_space c = true -> hex_val c = None.
Proof. intros H%js_space_cases. unfold hex_val, is_digit. char_tests. Qed.

Lemma space_escape_char c : is_js_space c = true -> escape_char c = None.
Proof. intros H%js_space_cases. unfold escape_char. char_tests. Qed.

(** Between tokens a space is skipped when it is JSON whitespace and is an
    error otherwise. *)
Lemma idle_step_space ts c :
  is_js_space c = true ->
  idle_step ts c = if is_json_ws c then Some {| toks := ts; mode := LIdle |} else None.
Proof.
  intros H%js_space_cases. unfold idle_step.
  destruct (is_json_ws c) eqn:Hws; [reflexivity|].
  apply json_ws_cases in Hws.
  unfold punct, is_digit, is_lower. char_tests.
Qed.

Lemma lex_run_app st a b :
  lex_run st (a ++ b) =
  match lex_run st a with
  | Some st' => lex_run st' b
  | None => None
  end.
Proof.
  revert st. induction a as [|c a IH]; intros st; simpl; [reflexivity|].
  destruct (lex_step st c); [apply IH | reflexivity].
Qed.

(** Leading spaces: when the scan succeeds they were all skipped. *)
Lemma lex_run_leading ts w s st :
  forallb is_js_space w = true ->
  lex_run {| toks := ts; mode := LIdle |} (w ++ s) = Some st ->
  lex_run {| toks := ts; mode := LIdle |} s = Some st.
Proof.
  induction w as [|c w IH]; simpl; [intros _ H; exact H|].
  intros [Hc Hw]%andb_true_iff. unfold lex_step. simpl.
  rewrite (idle_step_space _ _ Hc).
  destruct (is_json_ws c); [apply IH, Hw | discriminate].
Qed.

(** Trailing spaces: they add no token, and the scan cannot succeed when
    they are read inside a string. *)
Lemma lex_run_trailing w st st' ts :
  forallb is_js_space w = true ->
  lex_run st w = Some st' ->
  lex_finish st' = Some ts ->
  lex_finish st = Some ts.
Proof.
  revert st. induction w as [|c w IH]; simpl; intros st Hw Hrun Hfin.
  - injection Hrun as ->. exact Hfin.
  - apply andb_true_iff in Hw as [Hc Hw].
    destruct (lex_step st c) as [st1|] eqn:Hstep; [|discriminate].
    specialize (IH st1 Hw Hrun Hfin).
    destruct st as [ts0 m]. unfold lex_step in Hstep. simpl in Hstep.
    destruct m as [|buf|buf|buf|buf|buf hex].
    + rewrite (idle_step_space _ _ Hc) in Hstep.
      destruct (is_json_ws c); [|discriminate].
      injection Hstep as <-. exact IH.
    + rewrite (space_not_lower _ Hc), (idle_step_space _ _ Hc) in Hstep.
      destruct (is_json_ws c); [|discriminate].
      injection Hstep as <-. exact IH.
    + rewrite (space_not_number_char _ Hc), (idle_step_space _ _ Hc) in Hstep.
      destruct (is_json_ws c); [|discriminate].
      injection Hstep as <-. exact IH.
    + apply js_space_cases in Hc.
      destruct (N.eqb_spec c 34); [lia|].
      destruct (N.eqb_spec c 92); [lia|].
      destruct (c <? 32); [discriminate|].
      injection Hstep as <-. discriminate IH.
    + rewrite (space_escape_char _ Hc) in Hstep.
      apply js_space_cases in Hc.
      destruct (N.eqb_spec c 117); [lia | discriminate].
    + rewrite (space_hex_val _ Hc) in Hstep. discriminate.
Qed.

Lemma tokenize_trim (s : str) ts :
  tokenize s = Some ts -> tokenize (trim s) = Some ts.
Proof.
  unfold tokenize, trim.
  destruct (trimStart_split s) as (w1 & Hs & Hw1).
  destruct (trimEnd_split (trimStart s)) as (w2 & Hs2 & Hw2).
  destruct (lex_run _ s) as [st|] eqn:Hrun; [|discriminate].
  intros Hfin. rewrite Hs in Hrun.
  apply (lex_run_leading _ _ _ _ Hw1) in Hrun.
  rewrite Hs2, lex_run_app in Hrun.
  destruct (lex_run _ (trimEnd (trimStart s))) as [st2|]; [|discriminate].
  exact (lex_run_trailing _ _ _ _ Hw2 Hrun Hfin).
Qed.

(** [JSON.parse] accepts a trimmed text whenever it accepts the text. *)
Lemma parse_trim (s : str) v :
  parse s = Ok v -> parse (trim s) = Ok v.
Proof.
  unfold parse. destruct (tokenize s) as [ts|] eqn:Htok; [|discriminate].
  rewrite (tokenize_trim _ _ Htok). intros H; exact H.
Qed.

End JsonFacts.

(** ** [cleanJsonResponse] *)

Lemma strip_open_fence_json (rest : str) :
  strip_open_fence (fence_json_open ++ rest) = rest.
Proof. reflexivity. Qed.

Lemma strip_open_fence_plain (rest : str) :
  strip_open_fence (fence_plain_open ++ rest) = rest.
Proof. reflexivity. Qed.

Lemma strip_close_fence_app (body : str) :
  strip_close_fence (body ++ fence_close) = body.
Proof.
  unfold strip_close_fence.
  replace (endsWith (body ++ fence_close) fence_close) with true
    by (symmetry; apply endsWith_spec; exists body; reflexivity).
  rewrite length_app, Nat.add_sub.
  rewrite firstn_app, Nat.sub_diag, firstn_all. simpl. apply app_nil_r.
Qed.





(** ** Lines of a text and of its pieces *)

Lemma split_nl_nonempty (s : str) : split_nl s <> [].
Proof.
  induction s as [|c s IH]; simpl; [discriminate|].
  destruct (c =? nl); [discriminate|].
  destruct (split_nl s); [contradiction | discriminate].
Qed.

Lemma split_nl_hd_tl (s : str) : split_nl s = first_line s :: tl (split_nl s).
Proof.
  unfold first_line. pose proof (split_nl_nonempty s).
  destruct (split_nl s); [contradiction | reflexivity].
Qed.

Lemma split_nl_init_last (s : str) :
  split_nl s = removelast (split_nl s) ++ [last_line s].
Proof. apply app_removelast_last, split_nl_nonempty. Qed.

Lemma split_nl_cons (c : N) (s : str) :
  split_nl (c :: s) =
  if c =? nl then [] :: split_nl s else (c :: first_line s) :: tl (split_nl s).
Proof.
  simpl. destruct (c =? nl); [reflexivity|].
  rewrite (split_nl_hd_tl s) at 1. reflexivity.
Qed.

(** The lines of [a ++ b]: the last line of [a] and the first line of [b]
    are one line. *)
Lemma split_nl_app (a b : str) :
  split_nl (a ++ b) =
  removelast (split_nl a) ++ (last_line a ++ first_line b) :: tl (split_nl b).
Proof.
  induction a as [|c a IH].
  - simpl. apply split_nl_hd_tl.
  - rewrite <- app_comm_cons, !split_nl_cons. unfold last_line.
    rewrite split_nl_cons.
    pose proof (split_nl_nonempty a) as Hne.
    destruct (c =? nl).
    + rewrite IH. unfold last_line.
      destruct (split_nl a) as [|x xs]; [contradiction | reflexivity].
    + unfold first_line at 1. rewrite IH. unfold last_line, first_line.
      destruct (split_nl a) as [|x [|y ys]]; [contradiction | reflexivity | reflexivity].
Qed.

(** When [a] ends at an end of line, the lines of [a ++ b] are those of [a]
    without its empty last line, then those of [b]. *)
Lemma split_nl_app_aligned (a b : str) :
  last_line a = [] ->
  split_nl (a ++ b) = removelast (split_nl a) ++ split_nl b.
Proof.
  intros H. rewrite split_nl_app, H. simpl.
  rewrite <- split_nl_hd_tl. reflexivity.
Qed.

Lemma split_nl_no_nl (s : str) :
  forallb (fun c => negb (c =? nl)) s = true -> split_nl s = [s].
Proof.
  induction s as [|c s IH]; simpl; [reflexivity|].
  intros [Hc Hs]%andb_true_iff. rewrite (IH Hs).
  destruct (c =? nl); [discriminate | reflexivity].
Qed.

(** The first line of [r] begins the first line of [r ++ t]. *)
Lemma first_line_app (r t : str) :
  exists u, first_line (r ++ t) = first_line r ++ u.
Proof.
  unfold first_line at 1. rewrite split_nl_app.
  pose proof (split_nl_init_last r) as Hr.
  change (first_line r) with (List.hd [] (split_nl r)).
  destruct (removelast (split_nl r)) as [|x xs]; rewrite Hr; simpl.
  - exists (first_line t). reflexivity.
  - exists []. symmetry. apply app_nil_r.
Qed.

(** ** What the decoder emits *)

Section DecoderFacts.

Context (rt : js_runtime).

Lemma push_nil onChunk st : push rt onChunk st [] = st.
Proof.
  destruct st as [f e]. unfold push. simpl.
  rewrite app_nil_r. destruct onChunk; [rewrite app_nil_r|]; reflexivity.
Qed.

Lemma push_app onChunk st a b :
  push rt onChunk (push rt onChunk st a) b = push rt onChunk st (a ++ b).
Proof.
  unfold push. simpl. rewrite map_app, concat_app, <- !app_assoc.
  destruct onChunk; [rewrite <- app_assoc|]; reflexivity.
Qed.

Lemma decode_line_push onChunk st line :
  decode_line rt onChunk st line = push rt onChunk st (line_out rt line).
Proof.
  unfold line_out, decode_line.
  destruct (startsWith line data_prefix); [|symmetry; apply push_nil].
  destruct (str_eqb (slice 6 line) done_sentinel); [symmetry; apply push_nil|].
  destruct (Json.parse (slice 6 line)) as [parsed|e]; simpl;
    [|symmetry; apply push_nil].
  destruct (delta_content parsed) as [content|e]; simpl;
    [|symmetry; apply push_nil].
  destruct (truthy rt content); simpl; [|symmetry; apply push_nil].
  destruct (to_js_string rt content) as [text|e] eqn:Htext; simpl;
    [|symmetry; apply push_nil].
  unfold push, text_of. simpl. rewrite Htext, app_nil_r. reflexivity.
Qed.

Lemma decode_lines_push onChunk st lines :
  fold_left (decode_line rt onChunk) lines st
  = push rt onChunk st (flat_map (line_out rt) lines).
Proof.
  revert st. induction lines as [|l lines IH]; intros st; simpl.
  - symmetry. apply push_nil.
  - rewrite IH, decode_line_push, push_app. reflexivity.
Qed.

Lemma decode_chunk_push onChunk st chunk :
  decode_chunk rt onChunk st chunk = push rt onChunk st (chunk_out rt chunk).
Proof. apply decode_lines_push. Qed.

Lemma decode_chunks_push onChunk st reads :
  fold_left (decode_chunk rt onChunk) reads st
  = push rt onChunk st (flat_map (chunk_out rt) reads).
Proof.
  revert st. induction reads as [|r reads IH]; intros st; simpl.
  - symmetry. apply push_nil.
  - rewrite IH, decode_chunk_push, push_app. reflexivity.
Qed.

Lemma decode_reads_push onChunk reads :
  decode_reads rt onChunk reads
  = push rt onChunk decoder_init (flat_map (chunk_out rt) reads).
Proof. apply decode_chunks_push. Qed.

(** A line that does not begin with [data: ] yields nothing; neither does
    the sentinel line. *)
Lemma line_out_not_data line :
  startsWith line data_prefix = false -> line_out rt line = [].
Proof. intros H. unfold line_out, decode_line. rewrite H. reflexivity. Qed.

Lemma line_out_done : line_out rt (data_prefix ++ done_sentinel) = [].
Proof. reflexivity. Qed.

Lemma chunk_out_visible chunk :
  chunk_out rt chunk = flat_map (visible rt) (split_nl chunk).
Proof.
  unfold chunk_out, chunk_lines, visible.
  induction (split_nl chunk) as [|l ls IH]; simpl; [reflexivity|].
  destruct (negb (str_eqb (trim l) [])); simpl; rewrite IH; reflexivity.
Qed.

Lemma visible_nil : visible rt [] = [].
Proof. reflexivity. Qed.

Lemma visible_not_data line :
  startsWith line data_prefix = false -> visible rt line = [].
Proof.
  intros H. unfold visible. rewrite (line_out_not_data _ H).
  destruct (negb _); reflexivity.
Qed.

(** Two consecutive pieces of text decode like their concatenation when the
    line around the boundary yields what its two halves yield. *)
Lemma chunk_out_app a b :
  visible rt (last_line a ++ first_line b)
  = visible rt (last_line a) ++ visible rt (first_line b) ->
  chunk_out rt (a ++ b) = chunk_out rt a ++ chunk_out rt b.
Proof.
  intros H. rewrite !chunk_out_visible, split_nl_app.
  rewrite (split_nl_init_last a) at 2. rewrite (split_nl_hd_tl b) at 2.
  rewrite !flat_map_app. simpl. rewrite H, app_nil_r, <- !app_assoc.
  reflexivity.
Qed.

Lemma boundary_clean_visible l1 l2 :
  is_nil l1 || is_nil l2
  || (negb (startsWith (l1 ++ l2) data_prefix) && negb (startsWith l2 data_prefix))
  = true ->
  visible rt (l1 ++ l2) = visible rt l1 ++ visible rt l2.
Proof.
  intros H. apply orb_true_iff in H as [H|H]; [apply orb_true_iff in H as [H|H]|].
  - destruct l1; [|discriminate]. reflexivity.
  - destruct l2; [|discriminate]. rewrite app_nil_r, visible_nil, app_nil_r. reflexivity.
  - apply andb_true_iff in H as [H12 H2].
    apply negb_true_iff in H12, H2.
    rewrite (visible_not_data _ H12), (visible_not_data _ H2), app_nil_r.
    symmetry. apply visible_not_data.
    destruct (startsWith l1 data_prefix) eqn:H1; [|reflexivity].
    rewrite (startsWith_extend _ l2 _ H1) in H12. discriminate.
Qed.

(** A clean boundary before [r ++ t] is a clean boundary before [r]. *)
Lemma boundary_clean_shrink before r t :
  boundary_clean before (r ++ t) = true ->
  visible rt (last_line before ++ first_line r)
  = visible rt (last_line before) ++ visible rt (first_line r).
Proof.
  intros H. apply boundary_clean_visible.
  destruct (first_line_app r t) as [u Hu].
  unfold boundary_clean in H. rewrite Hu in H.
  apply orb_true_iff in H as [H|H]; [apply orb_true_iff in H as [H|H]|].
  - rewrite H. reflexivity.
  - destruct (first_line r); [|discriminate]. rewrite orb_true_r. reflexivity.
  - apply andb_true_iff in H as [H12 H2].
    apply negb_true_iff in H12, H2.
    assert (startsWith (last_line before ++ first_line r) data_prefix = false) as ->.
    { destruct (startsWith (last_line before ++ first_line r) data_prefix) eqn:E;
        [|reflexivity].
      apply (startsWith_extend _ u) in E. rewrite <- app_assoc in E. congruence. }
    assert (startsWith (first_line r) data_prefix = false) as ->.
    { destruct (startsWith (first_line r) data_prefix) eqn:E; [|reflexivity].
      apply (startsWith_extend _ u) in E. congruence. }
    simpl. apply orb_true_r.
Qed.

Lemma chunk_out_reads before reads :
  boundaries boundary_clean before reads = true ->
  chunk_out rt (before ++ concat reads)
  = chunk_out rt before ++ flat_map (chunk_out rt) reads.
Proof.
  revert before. induction reads as [|r rest IH]; intros before; simpl.
  - intros _. rewrite !app_nil_r. reflexivity.
  - intros [Hb Hrest]%andb_true_iff.
    rewrite app_assoc, (IH _ Hrest).
    rewrite (chunk_out_app before r (boundary_clean_shrink _ _ _ Hb)).
    rewrite <- app_assoc. reflexivity.
Qed.

End DecoderFacts.

(** ** The sentinel line *)

(** C1, counterexample.  A body of two lines, the sentinel and then a frame
    whose content is [Hi], read at once: the frame after the sentinel is
    decoded and passed to the callback. *)
Lemma data_after_done_is_decoded :
  decode_reads example_runtime true [done_line ++ data_line (frame_of "Hi")]
  = {| fullContent := lit "Hi"; emitted := [VStr (lit "Hi")] |}
  /\ decode_reads example_runtime true [done_line] = decoder_init
  /\ ~ stops_at_done example_runtime.
Proof.
  split; [vm_compute; reflexivity|].
  split; [vm_compute; reflexivity|].
  intros H.
  specialize (H true [] [] [] (data_line (frame_of "Hi")) eq_refl).
  vm_compute in H. discriminate H.
Qed.

(** The same on every runtime: the frame holds a string, and a string is
    appended as it is. *)
Lemma data_after_done_any_runtime (rt : js_runtime) (onChunk : bool) :
  fullContent (decode_reads rt onChunk [done_line ++ data_line (frame_of "Hi")])
  = lit "Hi".
Proof. destruct onChunk; vm_compute; reflexivity. Qed.

(** C1, amended.  The sentinel line yields no text and no callback call and
    does not end the decoding: a body decodes as it does with the sentinel
    line taken out, whatever precedes and follows the line. *)
Theorem done_line_is_skipped
  (rt : js_runtime) (onChunk : bool) (reads later : list str) (pre post : str) :
  last_line pre = [] ->
  decode_reads rt onChunk (reads ++ [pre ++ done_line ++ post] ++ later)
  = decode_reads rt onChunk (reads ++ [pre ++ post] ++ later).
Proof.
  intros Hpre. rewrite !decode_reads_push, !flat_map_app. simpl.
  do 3 f_equal.
  rewrite !chunk_out_visible, !(split_nl_app_aligned pre _ Hpre), !flat_map_app.
  f_equal.
Qed.

Lemma done_line_is_skipped_witness :
  decode_reads example_runtime true
    ([lit "x"] ++ [data_line (frame_of "Hi") ++ done_line ++ data_line (frame_of "Yo")]
     ++ [data_line (frame_of "!")])
  = decode_reads example_runtime true
    ([lit "x"] ++ [data_line (frame_of "Hi") ++ data_line (frame_of "Yo")]
     ++ [data_line (frame_of "!")]).
Proof.
  apply (done_line_is_skipped example_runtime true [lit "x"] [data_line (frame_of "!")]).
  vm_compute. reflexivity.
Defined.

Example sentinel_between_frames_value :
  fullContent (decode_reads example_runtime true
    [data_line (frame_of "Hi") ++ done_line ++ data_line (frame_of "Yo")])
  = lit "HiYo".
Proof. vm_compute. reflexivity. Qed.

(** ** Reads that cut lines *)

(** C2, counterexample.  The body is the single line [xdata: <frame>]; it is
    not a [data: ] line, so no frame is cut when the first read ends after
    [x].  Read at once the body yields nothing; read in two pieces the second
    read begins with [data: ] and yields [Hi]. *)
Lemma split_read_creates_text :
  no_frame_split [lit "x"; data_line (frame_of "Hi")] = true
  /\ fullContent (decode_reads example_runtime true [lit "x"; data_line (frame_of "Hi")])
     = lit "Hi"
  /\ fullContent (decode_reads example_runtime true [lit "x" ++ data_line (frame_of "Hi")])
     = []
  /\ ~ split_invariant example_runtime.
Proof.
  split; [vm_compute; reflexivity|].
  split; [vm_compute; reflexivity|].
  split; [vm_compute; reflexivity|].
  intros H.
  specialize (H true [lit "x"; data_line (frame_of "Hi")] eq_refl).
  vm_compute in H. discriminate H.
Qed.

Lemma split_read_any_runtime (rt : js_runtime) (onChunk : bool) :
  fullContent (decode_reads rt onChunk [lit "x"; data_line (frame_of "Hi")]) = lit "Hi"
  /\ fullContent (decode_reads rt onChunk [lit "x" ++ data_line (frame_of "Hi")]) = [].
Proof. destruct onChunk; split; vm_compute; reflexivity. Qed.

(** A read boundary inside the [data: ] prefix, before the JSON text of the
    frame, loses the frame. *)
Example split_inside_prefix_loses_text :
  fullContent (decode_reads example_runtime true
                 [lit "da"; lit "ta: " ++ frame_of "Hi" ++ [nl]]) = []
  /\ fullContent (decode_reads example_runtime true
                    [lit "da" ++ lit "ta: " ++ frame_of "Hi" ++ [nl]]) = lit "Hi".
Proof. split; vm_compute; reflexivity. Qed.

(** C2, amended.  A body read in pieces decodes to the same text, and to the
    same callback calls, as the body read at once when every read boundary
    is at the start or the end of a line, or inside a line such that
    neither the line nor its part after the boundary begins with [data: ]. *)
Theorem decode_reads_clean_boundaries
  (rt : js_runtime) (onChunk : bool) (reads : list str) :
  clean_boundaries reads = true ->
  decode_reads rt onChunk reads = decode_reads rt onChunk [concat reads].
Proof.
  intros H. rewrite !decode_reads_push. f_equal. simpl.
  rewrite app_nil_r. symmetry.
  apply (chunk_out_reads rt [] reads H).
Qed.

Lemma decode_reads_clean_boundaries_witness :
  decode_reads example_runtime true
    [lit ": keep"; lit "-alive" ++ [nl] ++ lit "data: " ++ frame_of "Hi";
     [nl] ++ data_line (frame_of "Yo"); done_line]
  = decode_reads example_runtime true
    [concat [lit ": keep"; lit "-alive" ++ [nl] ++ lit "data: " ++ frame_of "Hi";
             [nl] ++ data_line (frame_of "Yo"); done_line]].
Proof.
  apply decode_reads_clean_boundaries. vm_compute. reflexivity.
Defined.

(** In particular reads that each end at an end of line decode like the
    whole body. *)
Lemma last_line_app_aligned (a b : str) :
  last_line a = [] -> last_line (a ++ b) = last_line b.
Proof.
  intros H. unfold last_line at 1. rewrite (split_nl_app_aligned _ _ H).
  rewrite (split_nl_init_last b), app_assoc. apply last_last.
Qed.

Lemma line_aligned_reads_clean (before : str) (reads : list str) :
  last_line before = [] ->
  forallb (fun r => is_nil (last_line r)) reads = true ->
  boundaries boundary_clean before reads = true.
Proof.
  revert before. induction reads as [|r rest IH]; intros before Hb; simpl; [reflexivity|].
  intros [Hr Hrest]%andb_true_iff.
  unfold boundary_clean at 1. rewrite Hb. simpl.
  apply IH; [|exact Hrest].
  rewrite (last_line_app_aligned _ _ Hb).
  destruct (last_line r); [reflexivity | discriminate].
Qed.

Lemma decode_reads_line_aligned (rt : js_runtime) (onChunk : bool) (reads : list str) :
  forallb (fun r => is_nil (last_line r)) reads = true ->
  decode_reads rt onChunk reads = decode_reads rt onChunk [concat reads].
Proof.
  intros H. rewrite !decode_reads_push. f_equal. simpl.
  rewrite app_nil_r. symmetry.
  apply (chunk_out_reads rt [] reads), line_aligned_reads_clean; [reflexivity | exact H].
Qed.

Example keep_alive_split_value :
  fullContent (decode_reads example_runtime true
    [lit ": keep"; lit "-alive" ++ [nl] ++ lit "data: " ++ frame_of "Hi";
     [nl] ++ data_line (frame_of "Yo"); done_line])
  = lit "HiYo".
Proof. vm_compute. reflexivity. Qed.

(** ** Switching providers *)

(** What each switch does to the two flags.  [switchToGemini] and
    [switchToOpenAI] set both; [switchToOllama] sets [useOllama] and leaves
    [useOpenAI] as it was. *)
Lemma switchToGemini_flags this apiKey w this' w' :
  switchToGemini this apiKey w = (Ok this', w') ->
  useOpenAI this' = false /\ useOllama this' = false.
Proof.
  unfold switchToGemini.
  destruct (_ && _); intros H; inversion H; subst. split; reflexivity.
Qed.

Lemma switchToOpenAI_flags this apiKey model_arg w :
  exists this',
    switchToOpenAI this apiKey model_arg w = (Ok this', w)
    /\ useOpenAI this' = true /\ useOllama this' = false.
Proof. eexists. split; [reflexivity | split; reflexivity]. Qed.

Lemma set_ollamaModel_same this : set_ollamaModel (ollamaModel this) this = this.
Proof. destruct this; reflexivity. Qed.

(** The [try] block of [initializeOllamaModel] changes at most the Ollama
    model, and so does the whole method, which never throws. *)
Lemma initialize_attempt_sets_model rt pf this w :
  exists m, fst (fst (initialize_attempt rt pf this w)) = set_ollamaModel m this.
Proof.
  unfold initialize_attempt.
  destruct (getOllamaModels pf this w) as [[[|first rest]|e] w1];
    try (exists (ollamaModel this); symmetry; apply set_ollamaModel_same).
  destruct (negb (array_includes rt (first :: rest) (ollamaModel this))).
  - exists first. destruct (logged rt first); [|reflexivity].
    destruct (callOllama pf _ _ w1) as [[v|e] w2]; reflexivity.
  - exists (ollamaModel this). rewrite set_ollamaModel_same.
    destruct (callOllama pf _ _ w1) as [[v|e] w2]; reflexivity.
Qed.

Lemma initializeOllamaModel_sets_model rt pf this w :
  exists m, fst (initializeOllamaModel rt pf this w) = Ok (set_ollamaModel m this).
Proof.
  unfold initializeOllamaModel.
  destruct (initialize_attempt_sets_model rt pf this w) as [m Hm].
  destruct (initialize_attempt rt pf this w) as [[this1 r] w1].
  cbn [fst] in Hm. subst this1.
  destruct r as [u|e]; [exists m; reflexivity|].
  destruct (getOllamaModels pf _ w1) as [[[|m' ms]|e'] w2];
    [exists m | exists m' | exists m]; reflexivity.
Qed.

Lemma initializeOllamaModel_flags rt pf this w :
  exists this',
    fst (initializeOllamaModel rt pf this w) = Ok this'
    /\ useOpenAI this' = useOpenAI this /\ useOllama this' = useOllama this.
Proof.
  destruct (initializeOllamaModel_sets_model rt pf this w) as [m Hm].
  eexists. split; [exact Hm | split; reflexivity].
Qed.

(** The instance a call of [switchToOllama] leaves, whether the call
    returns or throws at its closing log. *)
Lemma switchToOllama_flags rt pf this model_arg url_arg w :
  exists this',
    fst (switchToOllama_assignments rt pf this model_arg url_arg w) = Ok this'
    /\ useOpenAI this' = useOpenAI this /\ useOllama this' = true.
Proof.
  unfold switchToOllama_assignments.
  destruct (given model_arg).
  - eexists. split; [reflexivity|]. destruct (given url_arg); split; reflexivity.
  - destruct (initializeOllamaModel_flags rt pf
                (if given url_arg
                 then set_ollamaUrl (or_else url_arg []) (set_useOllama true this)
                 else set_useOllama true this) w) as (this' & H & Ho & Hl).
    exists this'. split; [exact H|].
    rewrite Ho, Hl. destruct (given url_arg); split; reflexivity.
Qed.

(** How a call of [switchToOllama] ends: it returns the instance its
    assignments left, unless the model cannot be converted to a string for
    the closing log; then it throws, with the assignments made. *)
Lemma switchToOllama_outcome rt pf this model_arg url_arg w :
  exists this' w',
    switchToOllama_assignments rt pf this model_arg url_arg w = (Ok this', w')
    /\ switchToOllama rt pf this model_arg url_arg w
       = (match to_js_string rt (ollamaModel this') with
          | Ok _ => Ok this'
          | Throw e => Throw e
          end, w').
Proof.
  destruct (switchToOllama_flags rt pf this model_arg url_arg w) as (this' & H & _).
  unfold switchToOllama, io_bind.
  destruct (switchToOllama_assignments rt pf this model_arg url_arg w) as [r w'].
  cbn [fst] in H. subst r. exists this', w'. split; [reflexivity|].
  unfold logged. destruct (to_js_string rt (ollamaModel this')); reflexivity.
Qed.

(** A switch that throws: the server lists a model whose name is an object
    with a member called [toString]. *)
Example switchToOllama_unprintable_model :
  fst (switchToOllama example_runtime unprintable_model gemini_instance None None empty_world)
  = Throw (TypeError (lit "Cannot convert object to primitive value"))
  /\ exists this',
       fst (switchToOllama_assignments example_runtime unprintable_model gemini_instance
              None None empty_world) = Ok this'
       /\ useOllama this' = true
       /\ ollamaModel this' = VObj [(lit "toString", VBool true)].
Proof.
  split; [vm_compute; reflexivity|].
  eexists. split; [vm_compute; reflexivity|]. split; reflexivity.
Qed.

(** C3, the failing trace.  An instance constructed for OpenAI and then
    switched to Ollama has both flags set and still reports [openai],
    whatever the surroundings. *)
Theorem switchToOllama_leaves_openai_active
  (rt : js_runtime) (pf : platform) (w : world) :
  exists this0 this1,
    constructor (Some (lit "sk-key")) false None None true None = Ok this0
    /\ getCurrentProvider this0 = lit "openai"
    /\ switchToOllama rt pf this0 (Some (lit "llama3.2")) None w = (Ok this1, w)
    /\ useOllama this1 = true
    /\ useOpenAI this1 = true
    /\ getCurrentProvider this1 = lit "openai".
Proof. do 2 eexists. repeat split. Qed.

(** C4, the failing trace.  An instance constructed for Ollama, switched to
    OpenAI and switched back to Ollama with its original model and URL
    reports [openai] and the OpenAI model instead of [ollama] and its
    model. *)
Theorem ollama_round_trip_not_restored
  (rt : js_runtime) (pf : platform) (w : world) :
  exists this0 this1 this2,
    constructor None true (Some (lit "llama3.2")) (Some (lit "http://localhost:11434"))
      false None = Ok this0
    /\ getCurrentProvider this0 = lit "ollama"
    /\ getCurrentModel this0 = VStr (lit "llama3.2")
    /\ switchToOpenAI this0 (lit "sk-key") None w = (Ok this1, w)
    /\ switchToOllama rt pf this1 (Some (lit "llama3.2")) (Some (lit "http://localhost:11434")) w
       = (Ok this2, w)
    /\ getCurrentProvider this2 = lit "openai"
    /\ getCurrentModel this2 = VStr (lit "gpt-4o").
Proof. do 3 eexists. repeat split. Qed.

(** The round trips that do restore the provider and the model: away from
    Gemini and back, and away from OpenAI and back. *)
Lemma gemini_round_trip this other apiKey w this' w' :
  getCurrentProvider this = lit "gemini" ->
  switchToGemini other apiKey w = (Ok this', w') ->
  getCurrentProvider this' = getCurrentProvider this
  /\ getCurrentModel this' = getCurrentModel this.
Proof.
  intros Hg Hs. apply switchToGemini_flags in Hs as [Ho Hl].
  unfold getCurrentProvider, getCurrentModel in *.
  rewrite Ho, Hl. destruct (useOpenAI this); [discriminate|].
  destruct (useOllama this); [discriminate|]. split; reflexivity.
Qed.

Lemma openai_round_trip this other model_arg w :
  useOpenAI this = true ->
  openaiModel this = or_else model_arg (lit "gpt-4o") ->
  exists this',
    switchToOpenAI other (openaiApiKey this) model_arg w = (Ok this', w)
    /\ getCurrentProvider this' = getCurrentProvider this
    /\ getCurrentModel this' = getCurrentModel this.
Proof.
  intros Ho Hm. eexists. split; [reflexivity|].
  unfold getCurrentProvider, getCurrentModel. rewrite Ho. simpl.
  split; [reflexivity | f_equal; symmetry; exact Hm].
Qed.

(** C9.  [switchToOpenAI] never fails and checks no key: it stores the key
    it is given, the empty one included, and makes OpenAI the provider.
    The constructor rejects a missing or empty key in OpenAI mode, so no
    constructed OpenAI instance has an empty key, while a switched one
    can. *)
Theorem switchToOpenAI_accepts_any_key :
  (forall (this : LLMHelper) (apiKey : str) (model_arg : option str) (w : world),
      exists this',
        switchToOpenAI this apiKey model_arg w = (Ok this', w)
        /\ openaiApiKey this' = apiKey
        /\ useOpenAI this' = true
        /\ getCurrentProvider this' = lit "openai")
  /\ (forall (apiKey : option str) useOllama_arg ollamaModel_arg ollamaUrl_arg openaiModel_arg,
        given apiKey = false ->
        constructor apiKey useOllama_arg ollamaModel_arg ollamaUrl_arg true openaiModel_arg
        = Throw (Error (lit "OpenAI API key is required when useOpenAI is true")))
  /\ (forall apiKey useOllama_arg ollamaModel_arg ollamaUrl_arg useOpenAI_arg openaiModel_arg this,
        constructor apiKey useOllama_arg ollamaModel_arg ollamaUrl_arg useOpenAI_arg
          openaiModel_arg = Ok this ->
        useOpenAI this = true -> openaiApiKey this <> []).
Proof.
  split; [|split].
  - intros. eexists. repeat split.
  - intros apiKey ? ? ? ? Hkey. unfold constructor.
    destruct apiKey as [[|c k]|]; [reflexivity | discriminate | reflexivity].
  - intros apiKey uo om ou ua oa this Hc Hopen. unfold constructor in Hc.
    destruct ua.
    + destruct apiKey as [[|c k]|]; simpl in Hc; try discriminate.
      injection Hc as <-. discriminate.
    + destruct uo; [injection Hc as <-; discriminate Hopen|].
      destruct (given apiKey); [injection Hc as <-; discriminate Hopen | discriminate].
Qed.

Lemma switchToOpenAI_accepts_any_key_witness :
  (exists this',
      switchToOpenAI LLMHelper_fields [] None empty_world
      = (Ok this', empty_world)
      /\ openaiApiKey this' = []
      /\ useOpenAI this' = true
      /\ getCurrentProvider this' = lit "openai")
  /\ constructor (Some []) false None None true None
     = Throw (Error (lit "OpenAI API key is required when useOpenAI is true"))
  /\ openaiApiKey (set_openaiApiKey (lit "sk-key") (set_useOpenAI true LLMHelper_fields)) <> [].
Proof.
  destruct switchToOpenAI_accepts_any_key as (Hswitch & Hreject & Hkey).
  split; [apply Hswitch|].
  split; [apply Hreject; reflexivity|].
  apply (Hkey (Some (lit "sk-key")) false None None true None); reflexivity.
Defined.

(** ** Image analysis under the local-server provider *)

(** C5, counterexample.  An instance constructed for Ollama holds no Gemini
    model: with the image on disk the call fails with the TypeError of
    reading [generateContent] of null, which is not an
    UnsupportedOperationError. *)
Lemma analyzeImageFile_ollama_TypeError :
  exists this,
    constructor None true (Some (lit "llama3.2")) None false None = Ok this
    /\ getCurrentProvider this = lit "ollama"
    /\ fst (analyzeImageFile example_runtime offline this (lit "/tmp/shot.png")
              (world_with_file (lit "/tmp/shot.png") (lit "PNG")))
       = Throw (TypeError (lit "Cannot read properties of null (reading 'generateContent')"))
    /\ ~ ollama_image_unsupported example_runtime offline.
Proof.
  eexists. split; [reflexivity|]. split; [reflexivity|].
  split; [vm_compute; reflexivity|].
  intros H.
  destruct (H (set_ollamaModel (VStr (lit "llama3.2")) (set_useOllama true LLMHelper_fields))
              (lit "/tmp/shot.png")
              (world_with_file (lit "/tmp/shot.png") (lit "PNG")) eq_refl)
    as (e & He & Hname).
  vm_compute in He. injection He as <-. vm_compute in Hname. discriminate Hname.
Qed.

(** An instance that was given a Gemini key before it was switched to
    Ollama answers the image through Gemini. *)
Example analyzeImageFile_ollama_after_gemini :
  exists this0 this1,
    constructor (Some (lit "g-key")) false None None false None = Ok this0
    /\ switchToOllama example_runtime offline this0 (Some (lit "llama3.2")) None empty_world
       = (Ok this1, empty_world)
    /\ getCurrentProvider this1 = lit "ollama"
    /\ fst (analyzeImageFile example_runtime
              (with_generateContent (Ok (lit "a chart")) offline) this1 (lit "/tmp/shot.png")
              (world_with_file (lit "/tmp/shot.png") (lit "PNG")))
       = Ok {| text := lit "a chart"; timestamp := 1001 |}.
Proof.
  do 2 eexists. split; [reflexivity|]. split; [reflexivity|].
  split; [reflexivity|]. vm_compute. reflexivity.
Qed.

(** C5, amended.  With Ollama active the call takes the Gemini branch: the
    image is read, then [generateContent] is called on the stored Gemini
    model.  A missing image is the error of the read; a missing model is
    the TypeError of the runtime; with a model the outcome is the one of
    the Gemini request. *)
Theorem analyzeImageFile_under_ollama
  (rt : js_runtime) (pf : platform) (this : LLMHelper) (imagePath : str) (w : world) :
  getCurrentProvider this = lit "ollama" ->
  analyzeImageFile rt pf this imagePath w =
  match files w !! imagePath with
  | None => (Throw (enoent "open" imagePath), w)
  | Some imageData =>
      match model this with
      | None =>
          (Throw (TypeError (lit "Cannot read properties of null (reading 'generateContent')")), w)
      | Some m =>
          match generateContent pf (clock w) m
                  [VStr image_prompt; inlineData (base64_encode rt imageData) "image/png"] with
          | Ok answer =>
              (Ok {| text := answer; timestamp := date_now pf (S (clock w)) |},
               {| clock := S (S (clock w)); files := files w |})
          | Throw e => (Throw e, {| clock := S (clock w); files := files w |})
          end
      end
  end.
Proof.
  intros Hprov. unfold getCurrentProvider in Hprov.
  destruct (useOpenAI this) eqn:Hopen; [discriminate|].
  unfold analyzeImageFile, io_catch, io_bind, readFile. rewrite Hopen.
  destruct (files w !! imagePath) as [imageData|]; [|reflexivity].
  unfold model_generateContent.
  destruct (model this) as [m|]; [|reflexivity].
  unfold external. simpl.
  destruct (generateContent pf (clock w) m _); reflexivity.
Qed.

Lemma analyzeImageFile_under_ollama_witness :
  analyzeImageFile example_runtime (with_generateContent (Ok (lit "a chart")) offline)
    (set_model (Some (getGenerativeModel (lit "g-key")))
       (set_ollamaModel (VStr (lit "llama3.2")) (set_useOllama true LLMHelper_fields)))
    (lit "/tmp/shot.png") (world_with_file (lit "/tmp/shot.png") (lit "PNG"))
  = (Ok {| text := lit "a chart"; timestamp := 1001 |},
     {| clock := 2; files := {[ lit "/tmp/shot.png" := lit "PNG" ]} |}).
Proof.
  rewrite analyzeImageFile_under_ollama by reflexivity.
  vm_compute. reflexivity.
Defined.

(** ** Context retrieval *)

Lemma fetchWeaviateContext_ok rt pf q w :
  exists context,
    fst (fetchWeaviateContext rt pf q w) = Ok context
    /\ (negb (given (env pf "WEAVIATE_URL")) || negb (given (env pf "WEAVIATE_API_KEY")) = true
        -> context = [])
    /\ (match axios_post pf (clock w) (weaviate_request pf q) with
        | Ok data => negb (is_ok (weaviate_context rt pf data))
        | Throw _ => true
        end = true -> context = []).
Proof.
  unfold fetchWeaviateContext, io_catch, io_bind, external, io_ret.
  destruct (negb (given (env pf "WEAVIATE_URL")) || negb (given (env pf "WEAVIATE_API_KEY"))).
  - exists []. repeat split.
  - destruct (axios_post pf (clock w) (weaviate_request pf q)) as [data|e]; simpl.
    + destruct (weaviate_context rt pf data) as [context|e]; simpl.
      * exists context. repeat split; discriminate.
      * exists []. repeat split.
    + exists []. repeat split.
Qed.

Lemma fetchKontextContext_ok rt pf q w :
  exists context,
    fst (fetchKontextContext rt pf q w) = Ok context
    /\ (negb (given (env pf "KONTEXT_API_KEY")) = true -> context = [])
    /\ (match kontext_vault_query pf (clock w) (kontext_config pf) (kontext_query q) with
        | Ok vaultResult => negb (is_ok (kontext_context rt vaultResult))
        | Throw _ => true
        end = true -> context = []).
Proof.
  unfold fetchKontextContext, io_catch, io_bind, external, io_ret.
  destruct (negb (given (env pf "KONTEXT_API_KEY"))).
  - exists []. repeat split.
  - destruct (kontext_vault_query pf (clock w) _ _) as [vaultResult|e]; simpl.
    + destruct (kontext_context rt vaultResult) as [context|e]; simpl.
      * exists context. repeat split; discriminate.
      * exists []. repeat split.
    + exists []. repeat split.
Qed.

(** C7.  [fetchContext] returns for every query, in every surroundings: it
    never throws.  What it returns is the empty text when the credentials
    of the configured backend are missing, and when the request is rejected
    or its reply cannot be turned into a context. *)
Theorem fetchContext_never_raises
  (rt : js_runtime) (pf : platform) (transcription : str) (w : world) :
  exists context,
    fst (fetchContext rt pf transcription w) = Ok context
    /\ (credentials_missing pf = true -> context = [])
    /\ (lookup_fails rt pf transcription w = true -> context = []).
Proof.
  unfold fetchContext, credentials_missing, lookup_fails.
  destruct (useKontext pf).
  - apply fetchKontextContext_ok.
  - apply fetchWeaviateContext_ok.
Qed.

Lemma fetchContext_never_raises_witness :
  fst (fetchContext example_runtime offline (lit "price of steel") empty_world) = Ok []
  /\ fst (fetchContext example_runtime (with_env weaviate_env offline)
            (lit "price of steel") empty_world) = Ok [].
Proof.
  split.
  - destruct (fetchContext_never_raises example_runtime offline
                (lit "price of steel") empty_world) as (context & Hok & Hmissing & _).
    rewrite Hok, Hmissing; reflexivity.
  - destruct (fetchContext_never_raises example_runtime (with_env weaviate_env offline)
                (lit "price of steel") empty_world) as (context & Hok & _ & Hfails).
    rewrite Hok, Hfails; reflexivity.
Defined.

(** A reply that holds a null where a result is expected cannot be
    rendered; the context is empty. *)
Example fetchContext_malformed_reply :
  fst (fetchContext example_runtime
         (with_env weaviate_env
            (with_axios_post
               (Ok (VObj [(lit "data",
                     VObj [(lit "Get", VObj [(lit "ProcurementContext", VArr [VNull])])])]))
               offline))
         (lit "price of steel") empty_world) = Ok [].
Proof. vm_compute. reflexivity. Qed.

(** ** Transcription *)

(** The file-based transcription touches no file. *)
Lemma transcribeAudioWithWhisper_files rt pf this audioPath w :
  files (snd (transcribeAudioWithWhisper rt pf this audioPath w)) = files w.
Proof.
  unfold transcribeAudioWithWhisper, io_catch, io_bind, external, readFile, io_throw.
  destruct (import_form_data pf (clock w)); simpl; [|reflexivity].
  destruct (files w !! audioPath) as [audio|]; simpl; [|reflexivity].
  destruct (axios_post pf _ _) as [data|e]; simpl; [|reflexivity].
  destruct (get_prop data (lit "text")); reflexivity.
Qed.

(** C8.  After a call of the base64 transcription the temporary file it
    wrote is not on disk, whether the transcription returned or threw, and
    every other file is as it was before the call. *)
Theorem temp_audio_file_removed
  (rt : js_runtime) (pf : platform) (this : LLMHelper) (base64Data mimeType : str)
  (w : world) :
  let path := tempFilePath (date_now pf (clock w)) in
  let after := snd (transcribeAudioFromBase64WithWhisper rt pf this base64Data mimeType w) in
  files after !! path = None
  /\ forall other : str, other <> path -> files after !! other = files w !! other.
Proof.
  intros path after. subst after.
  unfold transcribeAudioFromBase64WithWhisper, io_catch, io_bind, io_finally,
    external, writeFile, unlink, io_ret, io_throw.
  simpl. fold path.
  set (w2 := {| clock := S (clock w); files := <[path := base64_decode rt base64Data]> (files w) |}).
  pose proof (transcribeAudioWithWhisper_files rt pf this path w2) as Hfiles.
  destruct (transcribeAudioWithWhisper rt pf this path w2) as [r w3].
  simpl in Hfiles. rewrite Hfiles. subst w2. simpl.
  rewrite lookup_insert_eq.
  destruct r; simpl.
  - split; [apply lookup_delete_eq|].
    intros other Hne. rewrite lookup_delete_ne, lookup_insert_ne by congruence. reflexivity.
  - split; [apply lookup_delete_eq|].
    intros other Hne. rewrite lookup_delete_ne, lookup_insert_ne by congruence. reflexivity.
Qed.

(** The two exit paths on concrete surroundings: a reply with a text, and a
    reply with status 500.  The file that was on disk before is still
    there; the temporary file is not. *)
Example temp_file_after_success :
  transcribeAudioFromBase64WithWhisper example_runtime
    (with_axios_post (Ok (VObj [(lit "text", VStr (lit "hello"))])) offline)
    LLMHelper_fields (lit "QUJD") (lit "audio/mp3")
    (world_with_file (lit "/tmp/keep.txt") (lit "kept"))
  = (Ok (VStr (lit "hello")),
     {| clock := 3; files := {[ lit "/tmp/keep.txt" := lit "kept" ]} |}).
Proof. vm_compute. reflexivity. Qed.

Example temp_file_after_failure :
  exists e,
    transcribeAudioFromBase64WithWhisper example_runtime
      (with_axios_post whisper_500 offline)
      LLMHelper_fields (lit "QUJD") (lit "audio/mp3")
      (world_with_file (lit "/tmp/keep.txt") (lit "kept"))
    = (Throw e, {| clock := 3; files := {[ lit "/tmp/keep.txt" := lit "kept" ]} |}).
Proof. eexists. vm_compute. reflexivity. Qed.

(** C10, counterexample.  A successful reply whose body is the JSON value
    [null] holds no [text]; reading [text] of it throws, and the
    transcription throws the wrapped TypeError. *)
Lemma whisper_null_body_throws :
  fst (transcribeAudioWithWhisper example_runtime
         (with_axios_post (Ok VNull) offline)
         LLMHelper_fields (lit "/tmp/a.mp3")
         (world_with_file (lit "/tmp/a.mp3") (lit "ID3")))
  = Throw (Error (lit "Failed to transcribe audio: Cannot read properties of null (reading 'text')"))
  /\ ~ no_text_is_empty example_runtime (with_axios_post (Ok VNull) offline).
Proof.
  split; [vm_compute; reflexivity|].
  intros H.
  specialize (H LLMHelper_fields (lit "/tmp/a.mp3") (lit "ID3") VNull
                (world_with_file (lit "/tmp/a.mp3") (lit "ID3"))
                eq_refl eq_refl eq_refl eq_refl).
  vm_compute in H. discriminate H.
Qed.

(** C10, amended.  When the request is sent and the backend replies with a
    body that holds no [text], the transcription returns the empty string
    if the body is an object, an array, a string, a number or a boolean;
    if the body is null (or undefined) the transcription throws, with the
    message of the TypeError of the runtime behind its own prefix. *)
Theorem whisper_no_text_returns_empty
  (rt : js_runtime) (pf : platform) (this : LLMHelper) (audioPath audio : str)
  (data : value) (w : world) :
  import_form_data pf (clock w) = Ok tt ->
  files w !! audioPath = Some audio ->
  axios_post pf (S (clock w)) (whisper_request this audio) = Ok data ->
  opt_prop data (lit "text") = VUndef ->
  fst (transcribeAudioWithWhisper rt pf this audioPath w)
  = match data with
    | VNull =>
        Throw (Error (lit "Failed to transcribe audio: Cannot read properties of null (reading 'text')"))
    | VUndef =>
        Throw (Error (lit "Failed to transcribe audio: Cannot read properties of undefined (reading 'text')"))
    | _ => Ok (VStr [])
    end.
Proof.
  intros Himport Hfile Hpost Htext.
  unfold transcribeAudioWithWhisper, io_catch, io_bind, external, readFile.
  rewrite Himport. simpl. rewrite Hfile. simpl. rewrite Hpost.
  destruct data; try reflexivity;
    cbn [fst bind get_prop opt_prop] in *; rewrite Htext; reflexivity.
Qed.

Lemma whisper_no_text_returns_empty_witness :
  fst (transcribeAudioWithWhisper example_runtime
         (with_axios_post (Ok (VObj [(lit "language", VStr (lit "en"))])) offline)
         LLMHelper_fields (lit "/tmp/a.mp3")
         (world_with_file (lit "/tmp/a.mp3") (lit "ID3")))
  = Ok (VStr []).
Proof.
  apply (whisper_no_text_returns_empty example_runtime
           (with_axios_post (Ok (VObj [(lit "language", VStr (lit "en"))])) offline)
           LLMHelper_fields (lit "/tmp/a.mp3") (lit "ID3")
           (VObj [(lit "language", VStr (lit "en"))])
           (world_with_file (lit "/tmp/a.mp3") (lit "ID3")));
    vm_compute; reflexivity.
Defined.

(** The same holds for a [text] member that is falsy. *)
Lemma whisper_falsy_text_returns_empty
  (rt : js_runtime) (pf : platform) (this : LLMHelper) (audioPath audio : str)
  (data : value) (w : world) :
  import_form_data pf (clock w) = Ok tt ->
  files w !! audioPath = Some audio ->
  axios_post pf (S (clock w)) (whisper_request this audio) = Ok data ->
  data <> VNull -> data <> VUndef ->
  truthy rt (own_prop data (lit "text")) = false ->
  fst (transcribeAudioWithWhisper rt pf this audioPath w) = Ok (VStr []).
Proof.
  intros Himport Hfile Hpost Hnull Hundef Htext.
  unfold transcribeAudioWithWhisper, io_catch, io_bind, external, readFile.
  rewrite Himport. simpl. rewrite Hfile. simpl. rewrite Hpost.
  destruct data; try contradiction;
    cbn [fst bind get_prop]; unfold js_or; rewrite Htext; reflexivity.
Qed.

(** * Further properties of the class *)

(** ** The stream decoder *)

Section DecoderProperties.

Context (rt : js_runtime).

Lemma emitted_decode_reads reads :
  emitted (decode_reads rt true reads) = flat_map (chunk_out rt) reads.
Proof. rewrite decode_reads_push. reflexivity. Qed.

Lemma fullContent_decode_reads onChunk reads :
  fullContent (decode_reads rt onChunk reads)
  = concat (map (text_of rt) (flat_map (chunk_out rt) reads)).
Proof. rewrite decode_reads_push. reflexivity. Qed.

(** What a line yields is truthy and has been converted to a string. *)
Lemma line_out_truthy line v :
  In v (line_out rt line) ->
  truthy rt v = true /\ to_js_string rt v = Ok (text_of rt v).
Proof.
  unfold line_out, decode_line.
  destruct (startsWith line data_prefix); [|intros []].
  destruct (str_eqb (slice 6 line) done_sentinel); [intros []|].
  destruct (Json.parse (slice 6 line)) as [parsed|e]; simpl; [|intros []].
  destruct (delta_content parsed) as [content|e]; simpl; [|intros []].
  destruct (truthy rt content) eqn:Ht; simpl; [|intros []].
  destruct (to_js_string rt content) as [text|e] eqn:Htext; simpl; [|intros []].
  intros [<-|[]]. split; [exact Ht|]. unfold text_of. rewrite Htext. reflexivity.
Qed.

Lemma chunks_out_truthy reads v :
  In v (flat_map (chunk_out rt) reads) ->
  truthy rt v = true /\ to_js_string rt v = Ok (text_of rt v).
Proof.
  intros Hv. apply in_flat_map in Hv as (chunk & _ & Hv).
  unfold chunk_out in Hv. apply in_flat_map in Hv as (line & _ & Hv).
  exact (line_out_truthy line v Hv).
Qed.

(** The texts of contents that convert. *)
Lemma texts_of_converted (contents : list value) :
  (forall v, In v contents -> to_js_string rt v = Ok (text_of rt v)) ->
  Forall2 (fun chunk text => to_js_string rt chunk = Ok text)
          contents (map (text_of rt) contents).
Proof.
  induction contents as [|v vs IH]; intros H; simpl; constructor.
  - apply H. left. reflexivity.
  - apply IH. intros x Hx. apply H. right. exact Hx.
Qed.

(** X1.  The text [callOpenAI] returns is the concatenation, in order, of
    the chunks it passed to [onChunk], each converted to a string; it is the
    same text when no callback is given, and then nothing is recorded. *)
Theorem decoded_text_is_the_chunks_joined (reads : list str) :
  (exists texts,
      Forall2 (fun chunk text => to_js_string rt chunk = Ok text)
              (emitted (decode_reads rt true reads)) texts
      /\ fullContent (decode_reads rt true reads) = concat texts)
  /\ fullContent (decode_reads rt false reads) = fullContent (decode_reads rt true reads)
  /\ emitted (decode_reads rt false reads) = [].
Proof.
  rewrite emitted_decode_reads, !fullContent_decode_reads.
  split; [|split; [reflexivity | rewrite decode_reads_push; reflexivity]].
  exists (map (text_of rt) (flat_map (chunk_out rt) reads)).
  split; [|reflexivity].
  apply texts_of_converted. intros v Hv. apply (chunks_out_truthy reads v Hv).
Qed.

(** X2.  Every chunk passed to [onChunk] is truthy: an empty string, a
    null, or a missing [content] never reaches the callback. *)
Theorem emitted_chunks_are_truthy (reads : list str) :
  Forall (fun v => truthy rt v = true) (emitted (decode_reads rt true reads)).
Proof.
  rewrite emitted_decode_reads. apply List.Forall_forall. intros v Hv.
  apply (chunks_out_truthy reads v Hv).
Qed.

(** X3.  Nothing but the accumulated text is carried from one read to the
    next: the reads [a ++ b] decode to the text of [a] followed by the text
    of [b], and to the chunks of [a] followed by the chunks of [b]. *)
Theorem decode_reads_app (onChunk : bool) (a b : list str) :
  fullContent (decode_reads rt onChunk (a ++ b))
  = fullContent (decode_reads rt onChunk a) ++ fullContent (decode_reads rt onChunk b)
  /\ emitted (decode_reads rt onChunk (a ++ b))
     = emitted (decode_reads rt onChunk a) ++ emitted (decode_reads rt onChunk b).
Proof.
  rewrite !decode_reads_push, flat_map_app. unfold push. simpl.
  rewrite map_app, concat_app. destruct onChunk; split; reflexivity.
Qed.

(** A line of its own in a text. *)
Lemma split_nl_line (line rest : str) :
  no_line_feed line = true ->
  split_nl (line ++ nl :: rest) = line :: split_nl rest.
Proof.
  intros H. rewrite split_nl_app. unfold last_line, first_line.
  rewrite (split_nl_no_nl line H). simpl. rewrite app_nil_r. reflexivity.
Qed.

Lemma line_out_undecodable line :
  startsWith line data_prefix = false \/ is_ok (Json.parse (slice 6 line)) = false ->
  line_out rt line = [].
Proof.
  intros [H|H]; [apply line_out_not_data, H|].
  unfold line_out, decode_line.
  destruct (startsWith line data_prefix); [|reflexivity].
  destruct (str_eqb (slice 6 line) done_sentinel); [reflexivity|].
  destruct (Json.parse (slice 6 line)); [discriminate | reflexivity].
Qed.

(** X4.  A line that does not begin with [data: ], or whose payload is not
    JSON, is skipped and the decoding goes on: the body decodes as it does
    without that line. *)
Theorem undecodable_line_is_skipped
  (onChunk : bool) (reads later : list str) (pre line post : str) :
  last_line pre = [] ->
  no_line_feed line = true ->
  startsWith line data_prefix = false \/ is_ok (Json.parse (slice 6 line)) = false ->
  decode_reads rt onChunk (reads ++ [pre ++ (line ++ [nl]) ++ post] ++ later)
  = decode_reads rt onChunk (reads ++ [pre ++ post] ++ later).
Proof.
  intros Hpre Hline Hbad. rewrite !decode_reads_push, !flat_map_app. simpl.
  do 3 f_equal.
  rewrite !chunk_out_visible, !(split_nl_app_aligned pre _ Hpre), !flat_map_app.
  f_equal. rewrite <- app_assoc. simpl. rewrite (split_nl_line _ _ Hline). simpl.
  replace (visible rt line) with (@nil value); [reflexivity|].
  unfold visible. rewrite (line_out_undecodable _ Hbad).
  destruct (negb _); reflexivity.
Qed.

Lemma trimStart_keeps_nonspace (x y : str) (c : N) :
  is_js_space c = false -> trimStart (x ++ c :: y) <> [].
Proof.
  intros Hc. induction x as [|d x IH]; simpl.
  - rewrite Hc. discriminate.
  - destruct (is_js_space d); [exact IH | discriminate].
Qed.

(** A line that begins with [data: ] is not blank. *)
Lemma data_line_not_blank (line : str) :
  startsWith line data_prefix = true -> str_eqb (trim line) [] = false.
Proof.
  intros [r ->]%startsWith_spec. unfold str_eqb. apply bool_decide_eq_false.
  unfold trim. change (trimStart (data_prefix ++ r)) with (100 :: lit "ata: " ++ r).
  unfold trimEnd. simpl rev. intros H.
  apply (f_equal (@rev N)) in H. rewrite rev_involutive in H. simpl in H.
  exact (trimStart_keeps_nonspace _ [] 100 eq_refl H).
Qed.

Lemma visible_line_out (line : str) : visible rt line = line_out rt line.
Proof.
  unfold visible. destruct (startsWith line data_prefix) eqn:H.
  - rewrite (data_line_not_blank _ H). reflexivity.
  - rewrite (line_out_not_data rt _ H). destruct (negb _); reflexivity.
Qed.

Lemma parse_done_sentinel : is_ok (Json.parse done_sentinel) = false.
Proof. vm_compute. reflexivity. Qed.

Lemma line_out_frame (frame_text : str) (content : value) :
  frame_yields rt frame_text content ->
  line_out rt (data_prefix ++ frame_text) = [content].
Proof.
  intros (_ & parsed & Hparse & Hdelta & Htruthy & Htext).
  unfold line_out, decode_line. rewrite startsWith_app.
  change (slice 6 (data_prefix ++ frame_text)) with frame_text.
  destruct (str_eqb frame_text done_sentinel) eqn:Hdone.
  - apply bool_decide_eq_true in Hdone. subst frame_text.
    pose proof parse_done_sentinel as H. rewrite Hparse in H. discriminate H.
  - rewrite Hparse. simpl. rewrite Hdelta. simpl. rewrite Htruthy.
    destruct (to_js_string rt content); [reflexivity | discriminate Htext].
Qed.

Lemma data_line_app (frame_text rest : str) :
  data_line frame_text ++ rest = (data_prefix ++ frame_text) ++ nl :: rest.
Proof. unfold data_line. rewrite <- !app_assoc. reflexivity. Qed.

Lemma last_line_nl (s : str) : last_line (s ++ [nl]) = [].
Proof.
  unfold last_line. rewrite split_nl_app.
  change (tl (split_nl [nl])) with [@nil N].
  generalize (last_line s ++ first_line [nl]). intros x.
  induction (removelast (split_nl s)) as [|y ys IH]; [reflexivity|].
  cbn [app List.last]. destruct (ys ++ [x; []]) eqn:E; [|exact IH].
  destruct ys; discriminate E.
Qed.

Lemma last_line_data_lines (frames : list str) :
  last_line (concat (map data_line frames)) = [].
Proof.
  induction frames as [|f fs IH]; [reflexivity|].
  cbn [map concat]. rewrite last_line_app_aligned; [exact IH|].
  unfold data_line. rewrite app_assoc. apply last_line_nl.
Qed.

Lemma data_prefix_no_line_feed (frame_text : str) :
  no_line_feed frame_text = true -> no_line_feed (data_prefix ++ frame_text) = true.
Proof. intros H. unfold no_line_feed in *. rewrite forallb_app, H. reflexivity. Qed.

Lemma chunk_out_frames (frames : list str) (contents : list value) :
  Forall2 (frame_yields rt) frames contents ->
  chunk_out rt (concat (map data_line frames)) = contents.
Proof.
  rewrite chunk_out_visible.
  induction 1 as [|frame_text content frames contents Hy _ IH]; [reflexivity|].
  cbn [map concat]. rewrite data_line_app, split_nl_line.
  - cbn [flat_map]. rewrite visible_line_out, (line_out_frame _ _ Hy), IH. reflexivity.
  - apply data_prefix_no_line_feed. destruct Hy as [Hnl _]. exact Hnl.
Qed.

(** X5.  A body made of complete frames, each on its [data: ] line, read at
    once, every frame holding a content that is truthy and can be converted
    to a string, as every string that is not empty can: the callback
    receives the content of every frame, once and in the order of the body,
    and the returned text is the concatenation of their conversions; a
    closing sentinel line changes nothing. *)
Theorem frames_are_delivered_in_order (frames : list str) (contents : list value) :
  Forall2 (frame_yields rt) frames contents ->
  emitted (decode_reads rt true [concat (map data_line frames) ++ done_line]) = contents
  /\ exists texts,
       Forall2 (fun content text => to_js_string rt content = Ok text) contents texts
       /\ fullContent (decode_reads rt true [concat (map data_line frames) ++ done_line])
          = concat texts.
Proof.
  intros H.
  assert (Hout : chunk_out rt (concat (map data_line frames) ++ done_line) = contents).
  { rewrite chunk_out_app.
    - rewrite (chunk_out_frames _ _ H). apply app_nil_r.
    - rewrite last_line_data_lines. reflexivity. }
  rewrite emitted_decode_reads, fullContent_decode_reads. cbn [flat_map].
  rewrite app_nil_r, Hout. split; [reflexivity|].
  exists (map (text_of rt) contents). split; [|reflexivity].
  apply texts_of_converted. intros v Hv.
  apply (chunks_out_truthy [concat (map data_line frames) ++ done_line] v).
  cbn [flat_map]. rewrite app_nil_r, Hout. exact Hv.
Qed.

End DecoderProperties.

Lemma undecodable_line_is_skipped_witness :
  decode_reads example_runtime true
    ([] ++ [data_line (frame_of "Hi") ++ (lit "data: {oops" ++ [nl]) ++ data_line (frame_of "Yo")]
     ++ [])
  = decode_reads example_runtime true
    ([] ++ [data_line (frame_of "Hi") ++ data_line (frame_of "Yo")] ++ []).
Proof.
  apply undecodable_line_is_skipped.
  - vm_compute. reflexivity.
  - vm_compute. reflexivity.
  - right. vm_compute. reflexivity.
Defined.

Lemma frame_of_yields (content : string) :
  no_line_feed (frame_of content) = true ->
  Json.parse (frame_of content) = Ok (value_of_frame content) ->
  lit content <> [] ->
  frame_yields example_runtime (frame_of content) (VStr (lit content)).
Proof.
  intros Hnl Hparse Hne. split; [exact Hnl|].
  exists (value_of_frame content). split; [exact Hparse|].
  split; [reflexivity|]. split; [|reflexivity].
  simpl. unfold str_eqb. rewrite bool_decide_eq_false_2; [reflexivity | exact Hne].
Qed.

Lemma frames_are_delivered_in_order_witness :
  emitted (decode_reads example_runtime true
             [concat (map data_line [frame_of "Hi"; frame_of "Yo"]) ++ done_line])
  = [VStr (lit "Hi"); VStr (lit "Yo")]
  /\ exists texts,
       Forall2 (fun content text => to_js_string example_runtime content = Ok text)
               [VStr (lit "Hi"); VStr (lit "Yo")] texts
       /\ fullContent (decode_reads example_runtime true
                         [concat (map data_line [frame_of "Hi"; frame_of "Yo"]) ++ done_line])
          = concat texts.
Proof.
  apply frames_are_delivered_in_order.
  repeat constructor; apply frame_of_yields;
    solve [vm_compute; reflexivity | discriminate].
Defined.

(** A frame whose content is an object with a member named [toString]: the
    conversion throws inside the inner [try], so the frame adds no text and
    the callback is not called; the frames around it are decoded. *)
Example unconvertible_content_is_skipped :
  decode_reads example_runtime true
    [data_line (frame_of "Hi")
     ++ data_line (lit "{" ++ quoted "choices" ++ lit ":[{" ++ quoted "delta" ++ lit ":{"
                   ++ quoted "content" ++ lit ":{" ++ quoted "toString" ++ lit ":1}}}]}")
     ++ data_line (frame_of "Yo")]
  = {| fullContent := lit "HiYo"; emitted := [VStr (lit "Hi"); VStr (lit "Yo")] |}.
Proof. vm_compute. reflexivity. Qed.

(** ** Cleaning a reply *)

Lemma trimStart_fixed (s : str) :
  match s with [] => True | c :: _ => is_js_space c = false end ->
  trimStart s = s.
Proof. destruct s as [|c s]; simpl; [reflexivity|]. intros ->. reflexivity. Qed.

Lemma trimStart_head (s : str) :
  match trimStart s with [] => True | c :: _ => is_js_space c = false end.
Proof.
  induction s as [|c s IH]; simpl; [exact I|].
  destruct (is_js_space c) eqn:Hc; [exact IH | exact Hc].
Qed.

Lemma trimStart_idempotent (s : str) : trimStart (trimStart s) = trimStart s.
Proof. apply trimStart_fixed, trimStart_head. Qed.

Lemma trimEnd_idempotent (s : str) : trimEnd (trimEnd s) = trimEnd s.
Proof. unfold trimEnd. rewrite rev_involutive, trimStart_idempotent. reflexivity. Qed.

(** Trimming the end keeps the first character. *)
Lemma trimEnd_head (s : str) :
  match s with [] => True | c :: _ => is_js_space c = false end ->
  match trimEnd s with [] => True | c :: _ => is_js_space c = false end.
Proof.
  destruct (trimEnd_split s) as (w & Hs & _).
  destruct (trimEnd s) as [|c r]; [intros _; exact I|].
  rewrite Hs. simpl. intros H; exact H.
Qed.

Lemma trim_idempotent (s : str) : trim (trim s) = trim s.
Proof.
  unfold trim at 1.
  rewrite (trimStart_fixed (trim s)).
  - unfold trim. apply trimEnd_idempotent.
  - unfold trim. apply trimEnd_head, trimStart_head.
Qed.

Lemma trim_part (s : str) : exists a b, s = a ++ trim s ++ b.
Proof.
  destruct (trimStart_split s) as (a & Ha & _).
  destruct (trimEnd_split (trimStart s)) as (b & Hb & _).
  exists a, b. unfold trim. rewrite <- Hb. exact Ha.
Qed.

Lemma strip_open_fence_part (s : str) : exists a, s = a ++ strip_open_fence s.
Proof.
  unfold strip_open_fence, slice.
  destruct (startsWith s fence_json_open);
    [exists (firstn (length fence_json_open) s); symmetry; apply firstn_skipn|].
  destruct (startsWith s fence_plain_open);
    [exists (firstn (length fence_plain_open) s); symmetry; apply firstn_skipn|].
  exists []. reflexivity.
Qed.

Lemma strip_close_fence_part (s : str) : exists b, s = strip_close_fence s ++ b.
Proof.
  unfold strip_close_fence. destruct (endsWith s fence_close).
  - exists (skipn (length s - length fence_close) s). symmetry. apply firstn_skipn.
  - exists []. symmetry. apply app_nil_r.
Qed.

(** X6.  Cleaning only cuts at the two ends: the cleaned text is a
    contiguous part of the reply, so nothing inside the JSON is altered;
    and the cleaned text carries no white space at either end, so cleaning
    it again only trims nothing more. *)
Theorem cleanJsonResponse_cuts_only_the_ends (reply : str) :
  (exists before after, reply = before ++ cleanJsonResponse reply ++ after)
  /\ trim (cleanJsonResponse reply) = cleanJsonResponse reply.
Proof.
  split.
  - unfold cleanJsonResponse.
    destruct (strip_open_fence_part reply) as (a1 & H1).
    destruct (strip_close_fence_part (strip_open_fence reply)) as (b1 & H2).
    destruct (trim_part (strip_close_fence (strip_open_fence reply))) as (a2 & b2 & H3).
    exists (a1 ++ a2), (b2 ++ b1).
    rewrite H1 at 1. rewrite H2 at 1. rewrite H3 at 1.
    rewrite <- !app_assoc. reflexivity.
  - unfold cleanJsonResponse. apply trim_idempotent.
Qed.

(** The two replacements are independent: an opening fence is removed
    without a closing one, and a closing fence without an opening one. *)
Example cleanJsonResponse_one_fence :
  cleanJsonResponse (fence_json_open ++ lit "[1]") = lit "[1]"
  /\ cleanJsonResponse (lit "[1]" ++ fence_close) = lit "[1]".
Proof. split; vm_compute; reflexivity. Qed.

(** ** Construction and the states of an instance *)

(** X7.  The constructor fails exactly for OpenAI mode without a key and
    for neither mode without a key; an empty key counts as none.  When it
    succeeds the provider is OpenAI if [useOpenAI] was asked, else Ollama if
    [useOllama] was asked, else Gemini, and a Gemini model is stored only in
    that last case. *)
Theorem constructor_outcome
  (apiKey : option str) (useOllama_arg : bool) (ollamaModel_arg ollamaUrl_arg : option str)
  (useOpenAI_arg : bool) (openaiModel_arg : option str) :
  match constructor apiKey useOllama_arg ollamaModel_arg ollamaUrl_arg useOpenAI_arg
          openaiModel_arg with
  | Ok this =>
      (if useOpenAI_arg then given apiKey else useOllama_arg || given apiKey) = true
      /\ getCurrentProvider this
         = (if useOpenAI_arg then lit "openai"
            else if useOllama_arg then lit "ollama" else lit "gemini")
      /\ is_none (model this) = useOpenAI_arg || useOllama_arg
  | Throw e =>
      (if useOpenAI_arg then given apiKey else useOllama_arg || given apiKey) = false
      /\ e = Error (if useOpenAI_arg
                    then lit "OpenAI API key is required when useOpenAI is true"
                    else lit "Either provide Gemini API key or enable Ollama mode")
  end.
Proof.
  unfold constructor.
  destruct useOpenAI_arg, useOllama_arg, apiKey as [[|c k]|]; simpl; repeat split.
Qed.

Lemma or_else_nonempty (x : option str) (fallback : str) :
  fallback <> [] -> or_else x fallback <> [].
Proof. intros H. destruct x as [[|c s]|]; simpl; [exact H | discriminate | exact H]. Qed.

Lemma instance_invariant_set_ollamaModel m this :
  instance_invariant this -> instance_invariant (set_ollamaModel m this).
Proof. intros H. exact H. Qed.

Lemma reachable_invariant rt pf this : reachable rt pf this -> instance_invariant this.
Proof.
  induction 1 as
    [apiKey uo om ou ua oa this Hc
    |this this' w _ IH Hstep
    |this this' model_arg url_arg w _ IH Hstep
    |this this' apiKey w _ IH Hstep
    |this this' apiKey model_arg w _ IH Hstep].
  - unfold constructor in Hc.
    destruct ua.
    + destruct apiKey as [[|c k]|]; simpl in Hc; try discriminate.
      injection Hc as <-. repeat split; try discriminate.
      apply (or_else_nonempty oa). discriminate.
    + destruct uo.
      * injection Hc as <-. repeat split; try discriminate.
        apply (or_else_nonempty ou). discriminate.
      * destruct (given apiKey); [|discriminate].
        injection Hc as <-. repeat split; discriminate.
  - destruct (initializeOllamaModel_sets_model rt pf this w) as [m Hm].
    rewrite Hm in Hstep. injection Hstep as <-. exact IH.
  - unfold switchToOllama_assignments in Hstep.
    assert (Hurl : instance_invariant
                     (if given url_arg
                      then set_ollamaUrl (or_else url_arg []) (set_useOllama true this)
                      else set_useOllama true this)).
    { destruct IH as (_ & Hm & Hu). destruct url_arg as [[|c u]|]; simpl;
        repeat split; try discriminate; assumption. }
    destruct (given model_arg).
    + injection Hstep as <-. exact Hurl.
    + destruct (initializeOllamaModel_sets_model rt pf
                  (if given url_arg
                   then set_ollamaUrl (or_else url_arg []) (set_useOllama true this)
                   else set_useOllama true this) w) as [m Hm].
      rewrite Hm in Hstep. injection Hstep as <-. exact Hurl.
  - unfold switchToGemini in Hstep. destruct IH as (_ & Hm & Hu).
    destruct (given apiKey) eqn:Hkey; simpl in Hstep.
    + injection Hstep as <-. repeat split; try assumption. discriminate.
    + destruct (model this) as [g|] eqn:Hmodel; simpl in Hstep; [|discriminate].
      injection Hstep as <-. repeat split; try assumption.
      simpl. rewrite Hmodel. discriminate.
  - injection Hstep as <-. destruct IH as (_ & _ & Hu).
    repeat split; try discriminate; try assumption.
    apply (or_else_nonempty model_arg). discriminate.
Qed.

(** X8.  In every state an instance can reach, by construction and then any
    switches in any surroundings: when Gemini is the provider a Gemini
    model is stored, and the OpenAI model name and the Ollama URL are never
    empty. *)
Theorem reachable_instance_is_usable
  (rt : js_runtime) (pf : platform) (this : LLMHelper) :
  reachable rt pf this ->
  (getCurrentProvider this = lit "gemini" -> exists m, model this = Some m)
  /\ openaiModel this <> []
  /\ ollamaUrl this <> [].
Proof.
  intros H. destruct (reachable_invariant rt pf this H) as (Hg & Hm & Hu).
  split; [|split; assumption].
  unfold getCurrentProvider. intros Hp.
  destruct (useOpenAI this); [discriminate|].
  destruct (useOllama this); [discriminate|].
  destruct (model this) as [m|]; [exists m; reflexivity|].
  exfalso. apply Hg; reflexivity.
Qed.

Lemma reachable_instance_is_usable_witness :
  (getCurrentProvider gemini_then_ollama_then_gemini = lit "gemini" ->
   exists m, model gemini_then_ollama_then_gemini = Some m)
  /\ openaiModel gemini_then_ollama_then_gemini <> []
  /\ ollamaUrl gemini_then_ollama_then_gemini <> [].
Proof.
  apply (reachable_instance_is_usable example_runtime offline).
  apply (reach_switchToGemini example_runtime offline
           (set_ollamaModel (VStr (lit "llama3.2")) (set_useOllama true
              (set_model (Some (getGenerativeModel (lit "g-key")))
                 (set_useOpenAI false (set_useOllama false LLMHelper_fields)))))
           _ None empty_world); [|reflexivity].
  apply (reach_switchToOllama example_runtime offline
           (set_model (Some (getGenerativeModel (lit "g-key")))
              (set_useOpenAI false (set_useOllama false LLMHelper_fields)))
           _ (Some (lit "llama3.2")) None empty_world); [|reflexivity].
  apply (reach_constructor example_runtime offline
           (Some (lit "g-key")) false None None false None).
  reflexivity.
Defined.

(** ** Choosing the Ollama model *)

(** [getOllamaModels] never throws. *)
Lemma getOllamaModels_returns pf this w :
  exists names, fst (getOllamaModels pf this w) = Ok names.
Proof.
  unfold getOllamaModels. destruct (negb (useOllama this)); [eexists; reflexivity|].
  unfold io_catch, io_bind, external, io_throw, io_ret.
  destruct (fetch pf (clock w) (tags_request this)) as [response|e];
    [|eexists; reflexivity].
  destruct (negb (ok response)); [eexists; reflexivity|].
  cbn [fst snd]. destruct (bind (json response) model_names) as [names|e];
    eexists; reflexivity.
Qed.

(** What it returns: nothing unless Ollama is the mode, the request is
    answered 2xx and the body is JSON with an array under [models]; then the
    [name] of every entry, undefined where an entry has none. *)
Lemma getOllamaModels_names pf this w response data entries :
  useOllama this = true ->
  fetch pf (clock w) (tags_request this) = Ok response ->
  ok response = true ->
  json response = Ok data ->
  own_prop data (lit "models") = VArr entries ->
  Forall (fun entry => entry <> VNull /\ entry <> VUndef) entries ->
  getOllamaModels pf this w
  = (Ok (map (fun entry => own_prop entry (lit "name")) entries), tick w).
Proof.
  intros Hmode Hfetch Hok Hjson Hmodels Hentries.
  unfold getOllamaModels, io_catch, io_bind, external, io_throw, io_ret.
  rewrite Hmode. cbn [negb]. rewrite Hfetch, Hok. cbn [negb fst snd].
  rewrite Hjson. cbn [bind]. unfold model_names.
  assert (Hget : get_prop data (lit "models") = Ok (VArr entries)).
  { destruct data; cbn [get_prop]; try (rewrite <- Hmodels; reflexivity);
      cbn [own_prop] in Hmodels; discriminate Hmodels. }
  rewrite Hget. cbn [bind].
  assert (Hmap : map_exc (fun model => get_prop model (lit "name")) entries
                 = Ok (map (fun entry => own_prop entry (lit "name")) entries)).
  { clear Hmodels Hget.
    induction Hentries as [|entry rest [Hnull Hundef] _ IH]; [reflexivity|].
    cbn [map_exc map].
    destruct entry; try congruence; cbn [get_prop bind]; rewrite IH; reflexivity. }
  rewrite Hmap. reflexivity.
Qed.

(** X9.  [initializeOllamaModel] never throws and changes nothing but the
    Ollama model.  The model it leaves is the one it found, or the first
    name of the list its first request brought, or, when its attempt failed
    after that, the first name of the list its second request brought; when
    Ollama is not the mode it sends nothing and changes nothing. *)
Theorem initializeOllamaModel_selects_listed_model
  (rt : js_runtime) (pf : platform) (this : LLMHelper) (w : world) :
  (exists this',
      fst (initializeOllamaModel rt pf this w) = Ok this'
      /\ this' = set_ollamaModel (ollamaModel this') this
      /\ (ollamaModel this' = ollamaModel this
          \/ (exists rest,
                 fst (getOllamaModels pf this w) = Ok (ollamaModel this' :: rest))
          \/ (exists this1 e w1 rest,
                 initialize_attempt rt pf this w = ((this1, Throw e), w1)
                 /\ fst (getOllamaModels pf this1 w1) = Ok (ollamaModel this' :: rest))))
  /\ (useOllama this = false -> initializeOllamaModel rt pf this w = (Ok this, w)).
Proof.
  split.
  - unfold initializeOllamaModel.
    assert (Hfirst : forall this1 r w1,
               initialize_attempt rt pf this w = ((this1, r), w1) ->
               this1 = set_ollamaModel (ollamaModel this1) this
               /\ (ollamaModel this1 = ollamaModel this
                   \/ exists rest,
                        fst (getOllamaModels pf this w) = Ok (ollamaModel this1 :: rest))).
    { unfold initialize_attempt.
      destruct (getOllamaModels pf this w) as [[[|first rest]|e] w1];
        try (intros this1 r w1' H; injection H as <- _ _;
             split; [symmetry; apply set_ollamaModel_same | left; reflexivity]).
      destruct (negb (array_includes rt (first :: rest) (ollamaModel this))).
      - assert (Hgoal : set_ollamaModel first this
                        = set_ollamaModel (ollamaModel (set_ollamaModel first this)) this
                        /\ (ollamaModel (set_ollamaModel first this) = ollamaModel this
                            \/ exists rest0,
                                 fst (Ok (first :: rest) : exc (list value), w1)
                                 = Ok (ollamaModel (set_ollamaModel first this) :: rest0))).
        { split; [reflexivity|]. right. exists rest. reflexivity. }
        destruct (logged rt first);
          [|intros this1 r w1' H; injection H as <- _ _; exact Hgoal].
        destruct (callOllama pf _ _ w1) as [[v|e] w2];
          intros this1 r w1' H; injection H as <- _ _; exact Hgoal.
      - destruct (callOllama pf _ _ w1) as [[v|e] w2];
          intros this1 r w1' H; injection H as <- _ _;
          (split; [symmetry; apply set_ollamaModel_same | left; reflexivity]). }
    destruct (initialize_attempt rt pf this w) as [[this1 r] w1] eqn:Hattempt.
    destruct (Hfirst this1 r w1 eq_refl) as [Hsame Hmodel]. clear Hfirst.
    assert (Hkept : exists this',
               Ok this1 = Ok this'
               /\ this' = set_ollamaModel (ollamaModel this') this
               /\ (ollamaModel this' = ollamaModel this
                   \/ (exists rest,
                          fst (getOllamaModels pf this w) = Ok (ollamaModel this' :: rest))
                   \/ (exists this0 e0 w0 rest,
                          (this1, r, w1) = ((this0, Throw e0), w0)
                          /\ fst (getOllamaModels pf this0 w0)
                             = Ok (ollamaModel this' :: rest)))).
    { exists this1. split; [reflexivity|]. split; [exact Hsame|].
      destruct Hmodel as [H|H]; [left; exact H | right; left; exact H]. }
    destruct r as [u|e]; [exact Hkept|].
    destruct (getOllamaModels pf this1 w1) as [[[|m ms]|e'] w2] eqn:Hsecond;
      [exact Hkept | | exact Hkept].
    exists (set_ollamaModel m this1). split; [reflexivity|]. split.
    + rewrite Hsame. reflexivity.
    + right. right. exists this1, e, w1, ms. split; [reflexivity|].
      rewrite Hsecond. reflexivity.
  - intros Hmode. unfold initializeOllamaModel, initialize_attempt, getOllamaModels.
    rewrite Hmode. reflexivity.
Qed.

(** The scenario of the specification: the server lists [a] and [b], the
    configured model [c] is not among them, the probe succeeds: the model
    becomes [a]. *)
Example initializeOllamaModel_picks_first :
  exists this,
    constructor None true (Some (lit "c")) None false None = Ok this
    /\ fst (initializeOllamaModel example_runtime two_models this empty_world)
       = Ok (set_ollamaModel (VStr (lit "a")) this).
Proof. eexists. split; [reflexivity | vm_compute; reflexivity]. Qed.

(** A listed entry without a [name]: the model becomes undefined. *)
Example initializeOllamaModel_nameless_entry :
  exists this,
    constructor None true (Some (lit "c")) None false None = Ok this
    /\ fst (initializeOllamaModel example_runtime nameless_model this empty_world)
       = Ok (set_ollamaModel VUndef this)
    /\ getCurrentModel (set_ollamaModel VUndef this) = VUndef.
Proof.
  eexists. split; [reflexivity|]. split; [vm_compute; reflexivity | reflexivity].
Qed.

(** ** Operations and the file system *)

Lemma keeps_ret {A} (a : A) : keeps_files (io_ret a).
Proof. intros w. reflexivity. Qed.

Lemma keeps_throw {A} (e : error) : keeps_files (@io_throw A e).
Proof. intros w. reflexivity. Qed.

Lemma keeps_pure {A} (r : exc A) : keeps_files (fun w => (r, w)).
Proof. intros w. reflexivity. Qed.

Lemma keeps_external {A} (call : nat -> exc A) : keeps_files (external call).
Proof. intros w. reflexivity. Qed.

Lemma keeps_readFile (path : str) : keeps_files (readFile path).
Proof. intros w. unfold readFile. destruct (files w !! path); reflexivity. Qed.

Lemma keeps_bind {A B} (m : io A) (k : A -> io B) :
  keeps_files m -> (forall a, keeps_files (k a)) -> keeps_files (io_bind m k).
Proof.
  intros Hm Hk w. unfold io_bind. specialize (Hm w).
  destruct (m w) as [[a|e] w']; simpl in *; [rewrite Hk|]; exact Hm.
Qed.

Lemma keeps_catch {A} (body : io A) (handler : error -> io A) :
  keeps_files body -> (forall e, keeps_files (handler e)) -> keeps_files (io_catch body handler).
Proof.
  intros Hb Hh w. unfold io_catch. specialize (Hb w).
  destruct (body w) as [[a|e] w']; simpl in *; [|rewrite Hh]; exact Hb.
Qed.

(** What follows an operation does not matter to the files when it keeps
    them. *)
Lemma files_after_bind {A B} (m : io A) (k : A -> io B) w :
  (forall a, keeps_files (k a)) ->
  files (snd (io_bind m k w)) = files (snd (m w)).
Proof.
  intros Hk. unfold io_bind.
  destruct (m w) as [[a|e] w']; simpl; [apply Hk | reflexivity].
Qed.

Lemma files_after_catch {A} (body : io A) (handler : error -> io A) w :
  (forall e, keeps_files (handler e)) ->
  files (snd (io_catch body handler w)) = files (snd (body w)).
Proof.
  intros Hh. unfold io_catch.
  destruct (body w) as [[a|e] w']; simpl; [reflexivity | apply Hh].
Qed.

Ltac keeps_step :=
  first
    [ apply keeps_ret | apply keeps_throw | apply keeps_external | apply keeps_readFile
    | apply keeps_pure
    | apply keeps_catch; [|intros ?]
    | apply keeps_bind; [|intros ?]
    | match goal with
      | |- keeps_files (if ?b then _ else _) => destruct b
      | |- keeps_files (match ?x with _ => _ end) => destruct x
      end ].

Ltac keeps := repeat keeps_step.

Section FileFacts.

Context (rt : js_runtime) (pf : platform) (pretty : value -> option str).

Lemma keeps_callOllama this prompt : keeps_files (callOllama pf this prompt).
Proof. unfold callOllama. keeps. Qed.

Lemma keeps_callOpenAI this messages onChunk :
  keeps_files (callOpenAI rt pf this messages onChunk).
Proof. unfold callOpenAI. keeps. Qed.

Lemma keeps_model_generateContent this parts :
  keeps_files (model_generateContent pf this parts).
Proof. unfold model_generateContent. keeps. Qed.

Lemma keeps_transcribeAudioWithWhisper this audioPath :
  keeps_files (transcribeAudioWithWhisper rt pf this audioPath).
Proof. unfold transcribeAudioWithWhisper. keeps. Qed.

Lemma keeps_fetchContext transcription : keeps_files (fetchContext rt pf transcription).
Proof. unfold fetchContext, fetchKontextContext, fetchWeaviateContext. keeps. Qed.

Lemma keeps_fetchContext_of transcription : keeps_files (fetchContext_of rt pf transcription).
Proof.
  unfold fetchContext_of. destruct transcription; try apply keeps_fetchContext; keeps.
Qed.

Lemma keeps_now : keeps_files (now pf).
Proof. unfold now. keeps. Qed.

Lemma keeps_all_parts paths : keeps_files (all_parts rt paths).
Proof.
  induction paths as [|path rest IH]; simpl; [apply keeps_ret|].
  unfold fileToGenerativePart. keeps. exact IH.
Qed.

Lemma keeps_checkOllamaAvailable this : keeps_files (checkOllamaAvailable pf this).
Proof. unfold checkOllamaAvailable. keeps. Qed.

Lemma keeps_getOllamaModels this : keeps_files (getOllamaModels pf this).
Proof. unfold getOllamaModels. keeps. Qed.

Lemma keeps_analyzeAudioFile this audioPath :
  keeps_files (analyzeAudioFile rt pf this audioPath).
Proof.
  unfold analyzeAudioFile.
  apply keeps_catch; [|intros; apply keeps_throw].
  destruct (useOpenAI this).
  - apply keeps_bind; [apply keeps_transcribeAudioWithWhisper | intros t].
    apply keeps_bind; [apply keeps_fetchContext_of | intros c].
    apply keeps_bind; [apply keeps_pure | intros prompt].
    apply keeps_bind; [apply keeps_callOpenAI | intros d].
    apply keeps_bind; [apply keeps_now | intros n]. apply keeps_ret.
  - apply keeps_bind; [apply keeps_readFile | intros a].
    apply keeps_bind; [apply keeps_model_generateContent | intros r].
    apply keeps_bind; [apply keeps_now | intros n]. apply keeps_ret.
Qed.

Lemma keeps_analyzeImageFile this imagePath :
  keeps_files (analyzeImageFile rt pf this imagePath).
Proof.
  unfold analyzeImageFile.
  apply keeps_catch; [|intros; apply keeps_throw].
  destruct (useOpenAI this).
  - apply keeps_bind; [apply keeps_readFile | intros a].
    apply keeps_bind; [apply keeps_callOpenAI | intros d]. keeps.
  - apply keeps_bind; [apply keeps_readFile | intros a].
    apply keeps_bind; [apply keeps_model_generateContent | intros r]. keeps.
Qed.

Lemma keeps_chat this user_message : keeps_files (chat rt pf this user_message).
Proof.
  unfold chat, chatWithGemini.
  apply keeps_catch; [|intros; apply keeps_throw].
  destruct (useOpenAI this);
    [apply keeps_bind; [apply keeps_callOpenAI | intros; apply keeps_ret]|].
  destruct (useOllama this); [apply keeps_callOllama|].
  destruct (model this); [|apply keeps_throw].
  apply keeps_bind; [apply keeps_model_generateContent | intros; apply keeps_ret].
Qed.

Lemma keeps_generateSolution this problemInfo :
  keeps_files (generateSolution rt pf pretty this problemInfo).
Proof.
  unfold generateSolution.
  apply keeps_catch; [|intros; apply keeps_throw].
  apply keeps_bind; [|intros; apply keeps_pure].
  destruct (useOpenAI this);
    [apply keeps_bind; [apply keeps_callOpenAI | intros; apply keeps_ret]|].
  destruct (useOllama this); [apply keeps_callOllama|].
  apply keeps_bind; [apply keeps_model_generateContent | intros; apply keeps_ret].
Qed.

Lemma keeps_extractProblemFromImages this imagePaths :
  keeps_files (extractProblemFromImages rt pf this imagePaths).
Proof.
  unfold extractProblemFromImages.
  apply keeps_catch; [|intros; apply keeps_throw].
  apply keeps_bind; [apply keeps_all_parts | intros parts].
  apply keeps_bind; [apply keeps_model_generateContent | intros; apply keeps_pure].
Qed.

Lemma keeps_debugSolutionWithImages this problemInfo currentCode paths :
  keeps_files (debugSolutionWithImages rt pf pretty this problemInfo currentCode paths).
Proof.
  unfold debugSolutionWithImages.
  apply keeps_catch; [|intros; apply keeps_throw].
  apply keeps_bind; [apply keeps_all_parts | intros parts].
  apply keeps_bind; [apply keeps_model_generateContent | intros; apply keeps_pure].
Qed.

Lemma keeps_testConnection this : keeps_files (testConnection rt pf this).
Proof.
  unfold testConnection.
  apply keeps_catch; [|intros; apply keeps_ret].
  destruct (useOpenAI this).
  { apply keeps_bind; [apply keeps_callOpenAI | intros d].
    destruct (negb _); apply keeps_ret. }
  destruct (useOllama this).
  { apply keeps_bind; [apply keeps_checkOllamaAvailable | intros a].
    destruct (negb a); [apply keeps_ret|].
    apply keeps_bind; [apply keeps_callOllama | intros; apply keeps_ret]. }
  destruct (model this); [|apply keeps_ret].
  apply keeps_bind; [apply keeps_model_generateContent | intros r].
  destruct (negb _); apply keeps_ret.
Qed.

Lemma keeps_initialize_attempt this w :
  files (snd (initialize_attempt rt pf this w)) = files w.
Proof.
  unfold initialize_attempt.
  pose proof (keeps_getOllamaModels this w) as H1.
  destruct (getOllamaModels pf this w) as [[[|first rest]|e] w1]; cbn [snd] in *;
    try exact H1.
  destruct (negb (array_includes rt (first :: rest) (ollamaModel this)));
    [destruct (logged rt first); [|exact H1]|];
    match goal with
    | |- context [callOllama pf ?this1 ?prompt w1] =>
        pose proof (keeps_callOllama this1 prompt w1) as H2;
        destruct (callOllama pf this1 prompt w1) as [[v|e] w2]
    end; cbn [snd] in *; congruence.
Qed.

Lemma keeps_initializeOllamaModel this : keeps_files (initializeOllamaModel rt pf this).
Proof.
  intros w. unfold initializeOllamaModel.
  pose proof (keeps_initialize_attempt this w) as H1.
  destruct (initialize_attempt rt pf this w) as [[this1 [u|e]] w1]; cbn [snd] in *;
    [exact H1|].
  pose proof (keeps_getOllamaModels this1 w1) as H2.
  destruct (getOllamaModels pf this1 w1) as [[[|m ms]|e'] w2]; cbn [snd] in *; congruence.
Qed.

(** X10.  Apart from the base64 transcription, no operation of the class
    writes, replaces or removes a file, whatever its outcome. *)
Theorem operations_keep_the_files (this : LLMHelper) :
  (forall paths, keeps_files (extractProblemFromImages rt pf this paths))
  /\ (forall info, keeps_files (generateSolution rt pf pretty this info))
  /\ (forall info code paths,
        keeps_files (debugSolutionWithImages rt pf pretty this info code paths))
  /\ (forall path, keeps_files (analyzeAudioFile rt pf this path))
  /\ (forall path, keeps_files (analyzeImageFile rt pf this path))
  /\ (forall text, keeps_files (chat rt pf this text))
  /\ keeps_files (testConnection rt pf this)
  /\ (forall m u, keeps_files (switchToOllama rt pf this m u))
  /\ (forall query, keeps_files (fetchContext rt pf query)).
Proof.
  repeat split; intros.
  - apply keeps_extractProblemFromImages.
  - apply keeps_generateSolution.
  - apply keeps_debugSolutionWithImages.
  - apply keeps_analyzeAudioFile.
  - apply keeps_analyzeImageFile.
  - apply keeps_chat.
  - apply keeps_testConnection.
  - unfold switchToOllama, switchToOllama_assignments.
    apply keeps_bind; [|intros this'; apply keeps_bind; [apply keeps_pure | intros; apply keeps_ret]].
    destruct (given m); [apply keeps_ret | apply keeps_initializeOllamaModel].
  - apply keeps_fetchContext.
Qed.

(** The base64 transcription leaves the files of before, less the
    temporary path. *)
Lemma transcribeAudioFromBase64WithWhisper_files this base64Data mimeType w :
  files (snd (transcribeAudioFromBase64WithWhisper rt pf this base64Data mimeType w))
  = delete (tempFilePath (date_now pf (clock w))) (files w).
Proof.
  unfold transcribeAudioFromBase64WithWhisper.
  rewrite files_after_catch by (intros; apply keeps_throw).
  unfold io_bind, io_finally, io_catch, external, writeFile, unlink, io_ret. simpl.
  set (path := tempFilePath (date_now pf (clock w))).
  set (w2 := {| clock := S (clock w); files := <[path := base64_decode rt base64Data]> (files w) |}).
  pose proof (keeps_transcribeAudioWithWhisper this path w2) as Hfiles.
  destruct (transcribeAudioWithWhisper rt pf this path w2) as [r w3].
  simpl in Hfiles. rewrite Hfiles. subst w2. simpl.
  rewrite lookup_insert_eq. simpl. apply delete_insert_eq.
Qed.

(** X11.  [analyzeAudioFromBase64] under OpenAI leaves the files of before
    less the temporary audio file, whether the transcription, the context
    lookup or the chat request fail or not; under the other providers it
    touches no file. *)
Theorem analyzeAudioFromBase64_files
  (this : LLMHelper) (data mimeType : str) (onStreamChunk : bool) (w : world) :
  files (snd (analyzeAudioFromBase64 rt pf this data mimeType onStreamChunk w))
  = if useOpenAI this
    then delete (tempFilePath (date_now pf (clock w))) (files w)
    else files w.
Proof.
  unfold analyzeAudioFromBase64.
  rewrite files_after_catch by (intros; apply keeps_throw).
  destruct (useOpenAI this).
  - rewrite files_after_bind; [apply transcribeAudioFromBase64WithWhisper_files|].
    intros t.
    apply keeps_bind; [apply keeps_fetchContext_of | intros c].
    apply keeps_bind; [apply keeps_pure | intros prompt].
    apply keeps_bind; [apply keeps_callOpenAI | intros d].
    apply keeps_bind; [apply keeps_now | intros n]. apply keeps_ret.
  - assert (H : keeps_files
                  (io_bind (model_generateContent pf this
                              [VStr audio_base64_gemini_prompt; inline_part data mimeType])
                     (fun result => io_bind (now pf) (fun timestamp =>
                        io_ret {| outcome := {| text := result; timestamp := timestamp |};
                                  stream_chunks := [] |})))).
    { apply keeps_bind; [apply keeps_model_generateContent | intros r].
      apply keeps_bind; [apply keeps_now | intros n]. apply keeps_ret. }
    apply H.
Qed.

End FileFacts.

(** ** Failures of the provider calls *)

Lemma Throw_inj {A} (e1 e2 : error) : @Throw A e1 = Throw e2 -> e1 = e2.
Proof. intros H. injection H as ->. reflexivity. Qed.

Section CallFacts.

Ltac io_simpl := cbn -[lit app nat_to_string to_js_string tempFilePath stringified].

Context (rt : js_runtime) (pf : platform).

Lemma callOllama_throws this prompt w e :
  fst (callOllama pf this prompt w) = Throw e ->
  exists cause,
    e = Error (lit "Failed to connect to Ollama: " ++ cause
               ++ lit ". Make sure Ollama is running on " ++ ollamaUrl this).
Proof.
  unfold callOllama, io_catch, io_bind, external, io_throw.
  destruct (fetch pf (clock w) _) as [response|e0]; io_simpl.
  - destruct (negb (ok response)); io_simpl.
    + intros <-%Throw_inj. eexists. reflexivity.
    + destruct (json response) as [data|e1]; io_simpl.
      * destruct (get_prop data (lit "response")) as [v|e2]; io_simpl; [discriminate|].
        intros <-%Throw_inj. eexists. reflexivity.
      * intros <-%Throw_inj. eexists. reflexivity.
  - intros <-%Throw_inj. eexists. reflexivity.
Qed.

(** X12.  Every failure of [callOllama] is an [Error] whose message names
    the server URL of the instance; for a reply that is not 2xx the message
    carries the status code and the status text, and for a 2xx reply with a
    JSON object the call returns its [response] member. *)
Theorem callOllama_outcomes (this : LLMHelper) (prompt : str) (w : world) :
  (forall e, fst (callOllama pf this prompt w) = Throw e ->
     exists cause,
       e = Error (lit "Failed to connect to Ollama: " ++ cause
                  ++ lit ". Make sure Ollama is running on " ++ ollamaUrl this))
  /\ (forall response,
        fetch pf (clock w) (ollama_request this prompt) = Ok response ->
        ok response = false ->
        fst (callOllama pf this prompt w)
        = Throw (Error (lit "Failed to connect to Ollama: "
                        ++ (lit "Ollama API error: " ++ nat_to_string (status response)
                            ++ lit " " ++ statusText response)
                        ++ lit ". Make sure Ollama is running on " ++ ollamaUrl this)))
  /\ (forall response props,
        fetch pf (clock w) (ollama_request this prompt) = Ok response ->
        ok response = true ->
        json response = Ok (VObj props) ->
        callOllama pf this prompt w = (Ok (own_prop (VObj props) (lit "response")), tick w)).
Proof.
  split; [intros e; apply callOllama_throws|].
  split.
  - intros response Hfetch Hok.
    unfold callOllama, io_catch, io_bind, external, io_throw.
    change (fetch pf (clock w) _) with (fetch pf (clock w) (ollama_request this prompt)).
    rewrite Hfetch. io_simpl. rewrite Hok. reflexivity.
  - intros response props Hfetch Hok Hjson.
    unfold callOllama, io_catch, io_bind, external, io_throw.
    change (fetch pf (clock w) _) with (fetch pf (clock w) (ollama_request this prompt)).
    rewrite Hfetch. io_simpl. rewrite Hok. io_simpl. rewrite Hjson. reflexivity.
Qed.

Lemma callOpenAI_throws this messages onChunk w e :
  fst (callOpenAI rt pf this messages onChunk w) = Throw e ->
  exists cause, e = Error (lit "Failed to connect to OpenAI: " ++ cause).
Proof.
  unfold callOpenAI, io_catch, io_bind, external, io_throw.
  destruct (fetch pf (clock w) _) as [response|e0]; io_simpl.
  - destruct (negb (ok response)); io_simpl.
    + intros <-%Throw_inj. eexists. reflexivity.
    + destruct (body response) as [reader|]; [|discriminate].
      destruct (read_error reader) as [e1|]; io_simpl; [|discriminate].
      intros <-%Throw_inj. eexists. reflexivity.
  - intros <-%Throw_inj. eexists. reflexivity.
Qed.

(** A 2xx reply whose body is read to its end. *)
Lemma callOpenAI_ok this messages onChunk w response :
  fetch pf (clock w) (openai_request this messages) = Ok response ->
  ok response = true ->
  read_failure response = None ->
  callOpenAI rt pf this messages onChunk w
  = (Ok (decode_reads rt onChunk (reads_of response)), tick w).
Proof.
  intros Hfetch Hok Hread.
  unfold callOpenAI, io_catch, io_bind, external, io_throw, reads_of.
  change (fetch pf (clock w) _) with (fetch pf (clock w) (openai_request this messages)).
  rewrite Hfetch. io_simpl. rewrite Hok. io_simpl.
  unfold read_failure in Hread.
  destruct (body response) as [reader|]; [|reflexivity].
  rewrite Hread. reflexivity.
Qed.



(** ** Transcription *)

Lemma transcribeAudioWithWhisper_throws this audioPath w e :
  fst (transcribeAudioWithWhisper rt pf this audioPath w) = Throw e ->
  exists cause, e = Error (transcribe_prefix ++ cause).
Proof.
  unfold transcribeAudioWithWhisper, io_catch, io_bind, external, readFile, io_throw.
  destruct (import_form_data pf (clock w)); io_simpl;
    [|intros <-%Throw_inj; eexists; reflexivity].
  destruct (files w !! audioPath) as [audio|]; io_simpl;
    [|intros <-%Throw_inj; eexists; reflexivity].
  destruct (axios_post pf _ _) as [data|e0]; io_simpl;
    [|intros <-%Throw_inj; eexists; reflexivity].
  destruct (get_prop data (lit "text")); io_simpl; [discriminate|].
  intros <-%Throw_inj; eexists; reflexivity.
Qed.

(** X14.  The base64 transcription uploads the decoded bytes: when the
    backend sends back an object whose [text] is a non-empty string for the
    request that carries [Buffer.from(data, 'base64')], that string is
    returned.  The bytes reach the request through the temporary file. *)
Theorem transcribeAudioFromBase64_uploads_decoded_bytes
  (this : LLMHelper) (base64Data mimeType transcript : str)
  (props : list (str * value)) (w : world) :
  import_form_data pf (S (clock w)) = Ok tt ->
  axios_post pf (S (S (clock w))) (whisper_request this (base64_decode rt base64Data))
  = Ok (VObj props) ->
  lookup_last (lit "text") props = Some (VStr transcript) ->
  transcript <> [] ->
  fst (transcribeAudioFromBase64WithWhisper rt pf this base64Data mimeType w)
  = Ok (VStr transcript).
Proof.
  intros Himport Hpost Htext Hne.
  unfold transcribeAudioFromBase64WithWhisper, transcribeAudioWithWhisper,
    io_catch, io_bind, io_finally, external, writeFile, readFile, unlink, io_ret, io_throw.
  io_simpl. rewrite Himport. io_simpl. rewrite lookup_insert_eq. io_simpl.
  rewrite Hpost. io_simpl. rewrite Htext. io_simpl.
  unfold js_or. io_simpl. unfold str_eqb. rewrite bool_decide_eq_false_2 by exact Hne.
  io_simpl. rewrite lookup_insert_eq. reflexivity.
Qed.

(** X15.  When the upload is rejected the base64 transcription throws an
    [Error] that carries the prefix [Failed to transcribe audio: ] twice,
    once from each of the two transcription methods, followed by the body
    of the backend's reply if it has one and by the message of the
    rejection otherwise. *)
Theorem transcribeAudioFromBase64_failure_message
  (this : LLMHelper) (base64Data mimeType : str) (e : error) (w : world) :
  import_form_data pf (S (clock w)) = Ok tt ->
  axios_post pf (S (S (clock w))) (whisper_request this (base64_decode rt base64Data))
  = Throw e ->
  fst (transcribeAudioFromBase64WithWhisper rt pf this base64Data mimeType w)
  = Throw (Error (transcribe_prefix ++ transcribe_prefix ++ whisper_cause rt e)).
Proof.
  intros Himport Hpost.
  unfold transcribeAudioFromBase64WithWhisper, transcribeAudioWithWhisper,
    io_catch, io_bind, io_finally, external, writeFile, readFile, unlink, io_ret, io_throw.
  io_simpl. rewrite Himport. io_simpl. rewrite lookup_insert_eq. io_simpl.
  rewrite Hpost. io_simpl. rewrite lookup_insert_eq. reflexivity.
Qed.

End CallFacts.

(** ** The audio pipeline *)

Section PipelineFacts.

Context (rt : js_runtime) (pf : platform) (pretty : value -> option str).

Ltac io_simpl := cbn -[lit app nat_to_string to_js_string tempFilePath stringified].

Lemma fetchContext_of_returns (transcription : value) (w : world) :
  exists context, fst (fetchContext_of rt pf transcription w) = Ok context.
Proof.
  assert (Hstr : forall s, exists context, fst (fetchContext rt pf s w) = Ok context).
  { intros s. unfold fetchContext. destruct (useKontext pf).
    - destruct (fetchKontextContext_ok rt pf s w) as (c & H & _). exists c. exact H.
    - destruct (fetchWeaviateContext_ok rt pf s w) as (c & H & _). exists c. exact H. }
  unfold fetchContext_of.
  destruct transcription; try apply Hstr;
    unfold io_catch, io_bind, external, io_ret, io_throw;
    (destruct (useKontext pf);
     [ destruct (negb (given (env pf "KONTEXT_API_KEY"))); [eexists; reflexivity|];
       destruct (kontext_vault_query pf (clock w) _ _) as [v|e]; cbn [fst snd];
         [|eexists; reflexivity];
       destruct (kontext_context rt v); eexists; reflexivity
     | destruct (_ || _); eexists; reflexivity ]).
Qed.

(** X16.  Under OpenAI a failed transcription ends the analysis of an audio
    file at once: the error of the transcription is the error of the
    analysis, its message begins with [Failed to transcribe audio: ], and
    no request follows it, neither to the context backend nor to the chat
    API. *)
Theorem analyzeAudioFile_stops_at_failed_transcription
  (this : LLMHelper) (audioPath : str) (w : world) (e : error) :
  useOpenAI this = true ->
  fst (transcribeAudioWithWhisper rt pf this audioPath w) = Throw e ->
  analyzeAudioFile rt pf this audioPath w
  = (Throw e, snd (transcribeAudioWithWhisper rt pf this audioPath w))
  /\ exists cause, e = Error (transcribe_prefix ++ cause).
Proof.
  intros Hopen Hfail. split.
  - unfold analyzeAudioFile, io_catch, io_bind. rewrite Hopen.
    destruct (transcribeAudioWithWhisper rt pf this audioPath w) as [[t|e'] w1];
      [discriminate|].
    cbn -[lit app nat_to_string to_js_string tempFilePath stringified] in *. apply Throw_inj in Hfail. subst e'. reflexivity.
  - exact (transcribeAudioWithWhisper_throws rt pf this audioPath w e Hfail).
Qed.

(** X17.  Under OpenAI the context lookup cannot make the analysis of an
    audio file fail: once the transcription has returned a text (or a value
    that can be converted to one), and whatever the context backend does,
    the analysis returns the decoded text of the chat reply whenever the
    chat API answers with a 2xx reply whose body is read to its end. *)
Theorem analyzeAudioFile_context_is_best_effort
  (this : LLMHelper) (audioPath : str) (w : world) (transcription : value)
  (transcript : str) (response : http_response) :
  useOpenAI this = true ->
  fst (transcribeAudioWithWhisper rt pf this audioPath w) = Ok transcription ->
  to_js_string rt transcription = Ok transcript ->
  (forall time request, fetch pf time request = Ok response) ->
  ok response = true ->
  read_failure response = None ->
  exists timestamp,
    fst (analyzeAudioFile rt pf this audioPath w)
    = Ok {| text := fullContent (decode_reads rt false (reads_of response));
            timestamp := timestamp |}.
Proof.
  intros Hopen Htrans Htext Hfetch Hok Hread.
  unfold analyzeAudioFile, io_catch, io_bind. rewrite Hopen.
  destruct (transcribeAudioWithWhisper rt pf this audioPath w) as [[t|e'] w1];
    [|discriminate].
  cbn [fst] in Htrans. injection Htrans as ->.
  destruct (fetchContext_of_returns transcription w1) as [context Hc].
  destruct (fetchContext_of rt pf transcription w1) as [[c|e'] w2]; [|discriminate].
  unfold audio_file_prompt. rewrite Htext. cbn [bind].
  rewrite (callOpenAI_ok rt pf this _ false w2 response (Hfetch _ _) Hok Hread).
  eexists. reflexivity.
Qed.

(** A transcription that cannot be converted to a string makes the analysis
    throw where the prompt is built, after the context lookup and before
    any request to the chat API. *)
Lemma analyzeAudioFile_unconvertible_transcription
  (this : LLMHelper) (audioPath : str) (w : world) (transcription : value) (e : error) :
  useOpenAI this = true ->
  fst (transcribeAudioWithWhisper rt pf this audioPath w) = Ok transcription ->
  to_js_string rt transcription = Throw e ->
  analyzeAudioFile rt pf this audioPath w
  = (Throw e,
     snd (fetchContext_of rt pf transcription
            (snd (transcribeAudioWithWhisper rt pf this audioPath w)))).
Proof.
  intros Hopen Htrans Htext.
  unfold analyzeAudioFile, io_catch, io_bind. rewrite Hopen.
  destruct (transcribeAudioWithWhisper rt pf this audioPath w) as [[t|e'] w1];
    [|discriminate].
  cbn [fst snd] in *. injection Htrans as ->.
  destruct (fetchContext_of_returns transcription w1) as [context Hc].
  destruct (fetchContext_of rt pf transcription w1) as [[c|e'] w2]; [|discriminate].
  unfold audio_file_prompt. rewrite Htext. reflexivity.
Qed.

(** ** Chat and the connection test *)

(** X18.  On an instance in a reachable state [chat] always reaches a
    provider: if it throws, the error is the wrapped failure of the OpenAI
    or of the Ollama request, or the failure of the Gemini request; it is
    never for want of a provider. *)
Theorem chat_fails_only_with_its_provider
  (this : LLMHelper) (user_message : str) (w : world) (e : error) :
  reachable rt pf this ->
  fst (chat rt pf this user_message w) = Throw e ->
  provider_failure pf this e.
Proof.
  intros Hreach. destruct (reachable_invariant rt pf this Hreach) as (Hmodel & _ & _).
  unfold chat, chatWithGemini, io_catch, io_bind, provider_failure.
  destruct (useOpenAI this).
  { pose proof (callOpenAI_throws rt pf this
                  [message "system" (VStr systemPrompt);
                   message "user" (VStr (user_message ++ chat_instruction))] false w) as Hw.
    destruct (callOpenAI rt pf this _ false w) as [[d|e'] w1]; cbn -[lit app nat_to_string to_js_string tempFilePath stringified] in *;
      [discriminate|].
    intros <-%Throw_inj. left. apply Hw. reflexivity. }
  destruct (useOllama this).
  { pose proof (callOllama_throws pf this (user_message ++ chat_instruction) w) as Hw.
    destruct (callOllama pf this _ w) as [[d|e'] w1]; cbn -[lit app nat_to_string to_js_string tempFilePath stringified] in *; [discriminate|].
    intros <-%Throw_inj. right. left. apply Hw. reflexivity. }
  destruct (model this) as [m|] eqn:Hm; [|exfalso; apply Hmodel; reflexivity].
  unfold model_generateContent. rewrite Hm. unfold external. io_simpl.
  destruct (generateContent pf (clock w) m _) as [r|e'] eqn:Hg; io_simpl; [discriminate|].
  intros <-%Throw_inj. right. right. exists (clock w), m. eexists. split; [reflexivity|].
  exact Hg.
Qed.


(** ** Operations that need the Gemini model *)



(** ** Structured solutions *)

Lemma cleanJsonResponse_fenced (opening body : str) :
  opening = fence_json_open \/ opening = fence_plain_open ->
  cleanJsonResponse (opening ++ body ++ fence_close) = trim body.
Proof.
  intros Hopen. unfold cleanJsonResponse.
  assert (strip_open_fence (opening ++ body ++ fence_close) = body ++ fence_close) as ->.
  { destruct Hopen as [-> | ->];
      [apply strip_open_fence_json | apply strip_open_fence_plain]. }
  rewrite strip_close_fence_app. reflexivity.
Qed.

(** X21.  Under Gemini [generateSolution] returns what [JSON.parse] makes of
    the cleaned reply and nothing else: a reply that is JSON inside a fence
    that spans the whole reply (it begins with the opening line and ends
    with the three backquotes of the closing line) gives the value of the
    JSON, and a reply that is not JSON once cleaned makes the call throw the
    SyntaxError of the parser; no default solution is returned. *)
Theorem generateSolution_parses_the_cleaned_reply
  (this : LLMHelper) (info : value) (w : world) (m : GenerativeModel) (reply : str) :
  useOpenAI this = false ->
  useOllama this = false ->
  model this = Some m ->
  generateContent pf (clock w) m [VStr (solution_prompt pretty info)] = Ok reply ->
  fst (generateSolution rt pf pretty this info w) = Json.parse (cleanJsonResponse reply)
  /\ (forall opening body v,
        reply = opening ++ body ++ fence_close ->
        opening = fence_json_open \/ opening = fence_plain_open ->
        Json.parse body = Ok v ->
        fst (generateSolution rt pf pretty this info w) = Ok v)
  /\ (is_ok (Json.parse (cleanJsonResponse reply)) = false ->
      exists reason,
        fst (generateSolution rt pf pretty this info w) = Throw (SyntaxError reason)).
Proof.
  intros Hopen Hollama Hm Hreply.
  assert (H : fst (generateSolution rt pf pretty this info w)
              = Json.parse (cleanJsonResponse reply)).
  { unfold generateSolution, io_catch, io_bind, model_generateContent, external, io_ret,
      io_throw, parse_cleaned, cleanJsonResponse_of.
    rewrite Hopen, Hollama, Hm. io_simpl. rewrite Hreply. io_simpl.
    destruct (Json.parse (cleanJsonResponse reply)); reflexivity. }
  split; [exact H|]. split.
  - intros opening body v -> Hfence Hparse.
    rewrite H, (cleanJsonResponse_fenced _ _ Hfence).
    apply JsonFacts.parse_trim, Hparse.
  - rewrite H. unfold Json.parse.
    destruct (Json.tokenize _) as [ts|]; [|eexists; reflexivity].
    destruct (Json.parse_value _ ts) as [[v [|t r]]|];
      solve [eexists; reflexivity | discriminate].
Qed.

(** X22.  Under Ollama [generateSolution] cleans and parses the [response]
    member of the reply.  A reply without that member, or with one that is
    not a string, makes the call throw a TypeError, not a parse error: the
    one of reading [replace] of undefined when the member is missing, of
    null when it is null, and the one of calling [text.replace] when it is
    a boolean, a number, an array or an object. *)
Theorem generateSolution_under_ollama
  (this : LLMHelper) (info : value) (w : world) (response : http_response)
  (props : list (str * value)) :
  useOpenAI this = false ->
  useOllama this = true ->
  fetch pf (clock w) (ollama_request this (solution_prompt pretty info)) = Ok response ->
  ok response = true ->
  json response = Ok (VObj props) ->
  fst (generateSolution rt pf pretty this info w)
  = match lookup_last (lit "response") props with
    | Some (VStr reply) => Json.parse (cleanJsonResponse reply)
    | None | Some VUndef =>
        Throw (TypeError (lit "Cannot read properties of undefined (reading 'replace')"))
    | Some VNull =>
        Throw (TypeError (lit "Cannot read properties of null (reading 'replace')"))
    | Some _ => Throw (TypeError (lit "text.replace is not a function"))
    end.
Proof.
  intros Hopen Hollama Hfetch Hok Hjson.
  unfold generateSolution, io_catch, io_bind. rewrite Hopen, Hollama.
  unfold callOllama, io_catch, io_bind, external, io_throw.
  change (fetch pf (clock w) _)
    with (fetch pf (clock w) (ollama_request this (solution_prompt pretty info))).
  rewrite Hfetch. io_simpl. rewrite Hok. io_simpl. rewrite Hjson. io_simpl.
  unfold parse_cleaned, cleanJsonResponse_of.
  destruct (lookup_last (lit "response") props) as [[| | | |reply| |]|]; io_simpl;
    try reflexivity.
  destruct (Json.parse (cleanJsonResponse reply)); reflexivity.
Qed.

End PipelineFacts.

(** ** The properties above on concrete surroundings *)

Lemma callOllama_outcomes_witness :
  fst (callOllama (with_fetch (Ok server_error_reply) offline) ollama_instance
         (lit "Hello") empty_world)
  = Throw (Error (lit "Failed to connect to Ollama: Ollama API error: 500 Internal Server Error. Make sure Ollama is running on http://localhost:11434"))
  /\ callOllama (with_fetch (Ok ollama_fenced_reply) offline) ollama_instance
       (lit "Hello") empty_world
     = (Ok (VStr (fence_json_open ++ lit "[true]" ++ fence_close)), tick empty_world).
Proof.
  split.
  - rewrite (proj1 (proj2 (callOllama_outcomes (with_fetch (Ok server_error_reply) offline)
                             ollama_instance (lit "Hello") empty_world))
               server_error_reply eq_refl eq_refl).
    vm_compute. reflexivity.
  - rewrite (proj2 (proj2 (callOllama_outcomes (with_fetch (Ok ollama_fenced_reply) offline)
                             ollama_instance (lit "Hello") empty_world))
               ollama_fenced_reply _ eq_refl eq_refl eq_refl).
    vm_compute. reflexivity.
Defined.


Lemma transcribeAudioFromBase64_uploads_decoded_bytes_witness :
  fst (transcribeAudioFromBase64WithWhisper example_runtime talking openai_instance
         (lit "QUJD") (lit "audio/mp3") empty_world)
  = Ok (VStr (lit "hello")).
Proof.
  apply (transcribeAudioFromBase64_uploads_decoded_bytes example_runtime talking
           openai_instance (lit "QUJD") (lit "audio/mp3") (lit "hello")
           [(lit "text", VStr (lit "hello"))]).
  - reflexivity.
  - reflexivity.
  - vm_compute. reflexivity.
  - discriminate.
Defined.

Lemma transcribeAudioFromBase64_failure_message_witness :
  fst (transcribeAudioFromBase64WithWhisper example_runtime offline openai_instance
         (lit "QUJD") (lit "audio/mp3") empty_world)
  = Throw (Error (lit "Failed to transcribe audio: Failed to transcribe audio: Network Error")).
Proof.
  rewrite (transcribeAudioFromBase64_failure_message example_runtime offline
             openai_instance (lit "QUJD") (lit "audio/mp3")
             (AxiosError (lit "Network Error") None) empty_world eq_refl eq_refl).
  vm_compute. reflexivity.
Defined.

Lemma analyzeAudioFile_stops_at_failed_transcription_witness :
  analyzeAudioFile example_runtime offline openai_instance (lit "/tmp/a.mp3")
    (world_with_file (lit "/tmp/a.mp3") (lit "ID3"))
  = (Throw (Error (lit "Failed to transcribe audio: Network Error")),
     {| clock := 2; files := {[ lit "/tmp/a.mp3" := lit "ID3" ]} |}).
Proof.
  assert (H : fst (transcribeAudioWithWhisper example_runtime offline openai_instance
                     (lit "/tmp/a.mp3") (world_with_file (lit "/tmp/a.mp3") (lit "ID3")))
              = Throw (Error (lit "Failed to transcribe audio: Network Error")))
    by (vm_compute; reflexivity).
  destruct (analyzeAudioFile_stops_at_failed_transcription example_runtime offline
              openai_instance (lit "/tmp/a.mp3")
              (world_with_file (lit "/tmp/a.mp3") (lit "ID3")) _ eq_refl H) as [Hstop _].
  rewrite Hstop. vm_compute. reflexivity.
Defined.

Lemma analyzeAudioFile_context_is_best_effort_witness :
  exists timestamp,
    fst (analyzeAudioFile example_runtime talking openai_instance (lit "/tmp/a.mp3")
           (world_with_file (lit "/tmp/a.mp3") (lit "ID3")))
    = Ok {| text := lit "HiYo"; timestamp := timestamp |}.
Proof.
  destruct (analyzeAudioFile_context_is_best_effort example_runtime talking
              openai_instance (lit "/tmp/a.mp3")
              (world_with_file (lit "/tmp/a.mp3") (lit "ID3"))
              (VStr (lit "hello")) (lit "hello") streamed_reply eq_refl)
    as [timestamp H].
  - vm_compute. reflexivity.
  - reflexivity.
  - intros time request. reflexivity.
  - reflexivity.
  - reflexivity.
  - exists timestamp. rewrite H. vm_compute. reflexivity.
Defined.

(** A backend whose [text] is an object with a member named [toString]:
    the analysis throws the TypeError of the conversion. *)
Example analyzeAudioFile_unconvertible_text :
  fst (analyzeAudioFile example_runtime
         (with_axios_post
            (Ok (VObj [(lit "text", VObj [(lit "toString", VNum (lit "1"))])])) talking)
         openai_instance (lit "/tmp/a.mp3")
         (world_with_file (lit "/tmp/a.mp3") (lit "ID3")))
  = Throw (TypeError (lit "Cannot convert object to primitive value")).
Proof. vm_compute. reflexivity. Qed.

Lemma chat_fails_only_with_its_provider_witness :
  provider_failure offline gemini_instance
    (SdkError (lit "GoogleGenerativeAIFetchError") (lit "fetch failed")).
Proof.
  apply (chat_fails_only_with_its_provider example_runtime offline gemini_instance
           (lit "What discount can I ask for?") empty_world).
  - apply (reach_constructor example_runtime offline
             (Some (lit "g-key")) false None None false None).
    reflexivity.
  - vm_compute. reflexivity.
Defined.


(** The two failures on an instance without a Gemini model: the image on
    disk, and the image missing. *)
Example image_extraction_failures :
  extractProblemFromImages example_runtime offline openai_instance
    [lit "/tmp/shot.png"] (world_with_file (lit "/tmp/shot.png") (lit "PNG"))
  = (Throw (TypeError (lit "Cannot read properties of null (reading 'generateContent')")),
     world_with_file (lit "/tmp/shot.png") (lit "PNG"))
  /\ extractProblemFromImages example_runtime offline openai_instance
       [lit "/tmp/shot.png"] empty_world
     = (Throw (SystemError (lit "ENOENT")
                 (lit "ENOENT: no such file or directory, open '/tmp/shot.png'")),
        empty_world).
Proof. split; vm_compute; reflexivity. Qed.

Lemma generateSolution_parses_the_cleaned_reply_witness :
  fst (generateSolution example_runtime
         (with_generateContent (Ok (fence_json_open ++ frame_of "Hi" ++ fence_close)) offline)
         example_pretty gemini_instance VNull empty_world)
  = Ok (value_of_frame "Hi").
Proof.
  apply (proj1 (proj2 (generateSolution_parses_the_cleaned_reply example_runtime
                         (with_generateContent
                            (Ok (fence_json_open ++ frame_of "Hi" ++ fence_close)) offline)
                         example_pretty gemini_instance VNull empty_world
                         (getGenerativeModel (lit "g-key"))
                         (fence_json_open ++ frame_of "Hi" ++ fence_close)
                         eq_refl eq_refl eq_refl eq_refl))
           fence_json_open (frame_of "Hi")).
  - reflexivity.
  - left. reflexivity.
  - vm_compute. reflexivity.
Defined.

Lemma generateSolution_under_ollama_witness :
  fst (generateSolution example_runtime (with_fetch (Ok ollama_fenced_reply) offline)
         example_pretty ollama_instance VNull empty_world)
  = Ok (VArr [VBool true]).
Proof.
  rewrite (generateSolution_under_ollama example_runtime
             (with_fetch (Ok ollama_fenced_reply) offline) example_pretty ollama_instance
             VNull empty_world ollama_fenced_reply _ eq_refl eq_refl eq_refl eq_refl eq_refl).
  vm_compute. reflexivity.
Defined.

(** A reply of the Ollama server without a [response] member, and one whose
    [response] is a number. *)
Example generateSolution_ollama_missing_response :
  fst (generateSolution example_runtime
         (with_fetch (Ok {| ok := true; status := 200; statusText := lit "OK";
                            json := Ok (VObj [(lit "done", VBool true)]); body := None |})
            offline)
         example_pretty ollama_instance VNull empty_world)
  = Throw (TypeError (lit "Cannot read properties of undefined (reading 'replace')"))
  /\ fst (generateSolution example_runtime
            (with_fetch (Ok {| ok := true; status := 200; statusText := lit "OK";
                               json := Ok (VObj [(lit "response", VNum (lit "1"))]);
                               body := None |})
               offline)
            example_pretty ollama_instance VNull empty_world)
     = Throw (TypeError (lit "text.replace is not a function")).
Proof. split; vm_compute; reflexivity. Qed.

(** A reply of Gemini that is JSON in a fence followed by a line feed: the
    closing fence stays and the call throws the SyntaxError. *)
Example generateSolution_fence_then_line_feed :
  exists reason,
    fst (generateSolution example_runtime
           (with_generateContent
              (Ok (fence_json_open ++ frame_of "Hi" ++ fence_close ++ [nl])) offline)
           example_pretty gemini_instance VNull empty_world)
    = Throw (SyntaxError reason).
Proof. eexists. vm_compute. reflexivity. Qed.

(** ** Requests that are not made *)

(** X23.  [fetchContext] sends at most one request, and none at all when
    the credentials of the configured backend are missing: it then returns
    the empty context with the world untouched. *)
Theorem fetchContext_sends_at_most_one_request
  (rt : js_runtime) (pf : platform) (transcription : str) (w : world) :
  (credentials_missing pf = true -> fetchContext rt pf transcription w = (Ok [], w))
  /\ (snd (fetchContext rt pf transcription w) = w
      \/ snd (fetchContext rt pf transcription w) = tick w).
Proof.
  unfold fetchContext, credentials_missing, fetchKontextContext, fetchWeaviateContext,
    io_catch, io_bind, external, io_ret.
  destruct (useKontext pf).
  - destruct (negb (given (env pf "KONTEXT_API_KEY")));
      [split; [reflexivity | left; reflexivity]|].
    split; [discriminate|]. right.
    destruct (kontext_vault_query pf (clock w) _ _) as [v|e]; [|reflexivity].
    cbn [fst snd]. destruct (kontext_context rt v); reflexivity.
  - destruct (negb (given (env pf "WEAVIATE_URL")) || negb (given (env pf "WEAVIATE_API_KEY")));
      [split; [reflexivity | left; reflexivity]|].
    split; [discriminate|]. right.
    destruct (axios_post pf (clock w) _) as [v|e]; [|reflexivity].
    cbn [fst snd]. destruct (weaviate_context rt pf v); reflexivity.
Qed.

Lemma fetchContext_sends_at_most_one_request_witness :
  fetchContext example_runtime offline (lit "price of steel") empty_world
  = (Ok [], empty_world).
Proof.
  apply (proj1 (fetchContext_sends_at_most_one_request example_runtime offline
                  (lit "price of steel") empty_world)).
  reflexivity.
Defined.

(** X24.  [analyzeImageFile] reads the image before anything else: for an
    image that is not on disk it throws the error of the read and sends no
    request, whichever provider is active. *)
Theorem analyzeImageFile_missing_image
  (rt : js_runtime) (pf : platform) (this : LLMHelper) (imagePath : str) (w : world) :
  files w !! imagePath = None ->
  analyzeImageFile rt pf this imagePath w = (Throw (enoent "open" imagePath), w).
Proof.
  intros Hfile. unfold analyzeImageFile, io_catch, io_bind, readFile.
  destruct (useOpenAI this); rewrite Hfile; reflexivity.
Qed.

Lemma analyzeImageFile_missing_image_witness :
  analyzeImageFile example_runtime talking openai_instance (lit "/tmp/none.png") empty_world
  = (Throw (SystemError (lit "ENOENT")
              (lit "ENOENT: no such file or directory, open '/tmp/none.png'")),
     empty_world).
Proof.
  rewrite analyzeImageFile_missing_image by reflexivity.
  vm_compute. reflexivity.
Defined.
